(** * Job-posting parser and resume facade: a shallow embedding

    The development follows two Python modules:

    - [llm/llm_job_parser.py], class [LLMResumer]: fetch a job posting with a
      browser session, persist it to a temporary file, load it, split it into
      token windows, index it, run a two-stage prompt chain and cache the
      result in [self.job_description]; then answer extraction questions
      against the cached text.
    - [resume_facade.py], class [ResumeFacade]: [create_resume_pdf].

    Python strings are lists of Unicode code points, exceptions are values of
    [exn], and every method is a computation in a state-and-exception monad
    over the instance attributes and the outside world (browser sessions,
    files on disk, and the trace of calls made to collaborators). *)

From Stdlib Require Import NArith String Ascii List Lia.
From stdpp Require Import base option list gmap sets.
Import ListNotations.

Local Open Scope N_scope.
Local Open Scope nat_scope.

(** ** Python strings *)

Abbreviation pystr := (list N).

(** A source literal, character by character. *)
Fixpoint py (s : string) : pystr :=
  match s with
  | EmptyString => []
  | String a s' => N_of_ascii a :: py s'
  end.

(** [str.isspace] on one code point: the code points CPython treats as
    whitespace, which are also the ones [str.strip()] removes. *)
Definition isspace (c : N) : bool :=
  ((0x09 <=? c) && (c <=? 0x0D))%N
  || ((0x1C <=? c) && (c <=? 0x20))%N
  || (c =? 0x85)%N || (c =? 0xA0)%N || (c =? 0x1680)%N
  || ((0x2000 <=? c) && (c <=? 0x200A))%N
  || (c =? 0x2028)%N || (c =? 0x2029)%N || (c =? 0x202F)%N
  || (c =? 0x205F)%N || (c =? 0x3000)%N.

Fixpoint lstrip (s : pystr) : pystr :=
  match s with
  | [] => []
  | c :: s' => if isspace c then lstrip s' else s
  end.

Definition rstrip (s : pystr) : pystr := reverse (lstrip (reverse s)).

(** [s.strip()]: the left scan stops at the first non-space character, the
    right scan then runs on what is left. *)
Definition strip (s : pystr) : pystr := rstrip (lstrip s).

(** [sep.join(items)] *)
Fixpoint join (sep : pystr) (items : list pystr) : pystr :=
  match items with
  | [] => []
  | [x] => x
  | x :: rest => x ++ sep ++ join sep rest
  end.

(** Several source lines as one string: the lines joined by a newline. *)
Definition text (lines : list string) : pystr := join [0x0A%N] (map py lines).

Definition all_space (s : pystr) : Prop := Forall (fun c => isspace c = true) s.

(** [v] is [a] with its leading and trailing whitespace removed: a run of
    whitespace is cut off at each end of [a], and [v] neither starts nor
    ends with whitespace. *)
Definition trimmed_from (a v : pystr) : Prop :=
  (exists l r, a = l ++ v ++ r /\ all_space l /\ all_space r)
  /\ (forall c, head v = Some c -> isspace c = false)
  /\ (forall c, last v = Some c -> isspace c = false).

(** ** Exceptions and results *)

(** The parties the two classes call into. *)
Inductive collaborator :=
| Browser | TempFiles | Loader | Embeddings | Retriever | ChatModel
| PromptParser | StyleManager | ResumeGenerator | PdfConverter.

(** Exceptions. The ones the two modules raise or trigger themselves are kept
    apart from whatever a collaborator raises, which is opaque to them. *)
Inductive exn :=
| ValueError (msg : pystr)
| KeyError (key : pystr)
| AttributeError (attr : pystr)
| FileNotFoundError (path : pystr)
| CollaboratorError (who : collaborator) (info : pystr).

Inductive res (A : Type) :=
| Ok (a : A)
| Raise (e : exn).
Arguments Ok {A} a.
Arguments Raise {A} e.

(** What a call into a collaborator comes back with. *)
Inductive reply (A : Type) :=
| Reply (a : A)
| Fault (info : pystr).
Arguments Reply {A} a.
Arguments Fault {A} info.

(** ** Documents, prompts and templates *)

Record Document := mkDocument {
  page_content : pystr;
  metadata : gmap pystr pystr
}.

Inductive message := HumanMessage (content : pystr).

Inductive prompt_value :=
| StringPromptValue (text_ : pystr)
| ChatPromptValue (messages : list message).

(** A template after the f-string parse: literal text and [{name}] fields. *)
Inductive seg :=
| Lit (s : pystr)
| Var (name : pystr).

(** [template.format] with keyword arguments [kw]: a field without a binding is a [KeyError];
    bindings the template does not mention are ignored. *)
Fixpoint format_template (t : list seg) (kw : gmap pystr pystr) : res pystr :=
  match t with
  | [] => Ok []
  | Lit s :: t' =>
      match format_template t' kw with
      | Ok r => Ok (s ++ r)
      | Raise e => Raise e
      end
  | Var x :: t' =>
      match kw !! x with
      | None => Raise (KeyError x)
      | Some v =>
          match format_template t' kw with
          | Ok r => Ok (v ++ r)
          | Raise e => Raise e
          end
      end
  end.

(** ** The outside world *)

Inductive event :=
| EvCreateDriver
| EvGet (h : nat) (url : pystr)
| EvSleep (seconds : N)
| EvFindElement (h : nat) (by_ value : pystr)
| EvGetAttribute (h : nat) (name : pystr)
| EvQuit (h : nat)
| EvTempFile
| EvWrite (path data : pystr)
| EvClose (path : pystr)
| EvLoad (path : pystr)
| EvRemove (path : pystr)
| EvEmbed (docs : list Document)
| EvRetrieve (query : pystr)
| EvModel (p : prompt_value)
| EvStylePath (style : pystr)
| EvCreateResume (style_path : pystr)
| EvCreateResumeJD (style_path job_description_text : pystr)
| EvHtmlToPdf (html : pystr) (h : nat).

Record World := mkWorld {
  sessions : gset nat;       (* browser sessions that are live *)
  next_session : nat;        (* handle of the next session created *)
  disk : gset pystr;         (* paths of the files that exist *)
  trace : list event         (* calls made so far, oldest first *)
}.

(** The collaborators. Each reply may depend on everything that happened
    before the call ([list event]) and on the arguments. *)
Record Env := mkEnv {
  create_driver_selenium_reply : list event -> reply unit;
  get_reply : list event -> pystr -> reply unit;
  find_element_reply : list event -> reply unit;
  get_attribute_reply : list event -> reply pystr;
  tempfile_reply : list event -> reply pystr;
  write_reply : list event -> pystr -> pystr -> reply unit;
  load_reply : list event -> pystr -> reply (list Document);
  encode : pystr -> list N;
  decode : list N -> pystr;
  embed_reply : list event -> list Document -> reply unit;
  retrieve_reply : list event -> list Document -> pystr -> reply (list Document);
  model_reply : list event -> prompt_value -> reply pystr;
  dedent : pystr -> pystr;
  from_template_reply : pystr -> reply (list seg);
  get_style_path_reply : list event -> pystr -> reply pystr;
  create_resume_reply : list event -> pystr -> reply pystr;
  create_resume_job_description_text_reply :
    list event -> pystr -> pystr -> reply pystr;
  HTML_to_PDF_reply : list event -> pystr -> nat -> reply (list Byte.byte)
}.

(** ** The monad: instance attributes plus world, with exceptions *)

Record Sys (Obj : Type) := mkSys {
  obj : Obj;
  world : World
}.
Arguments mkSys {Obj} obj world.
Arguments obj {Obj} s.
Arguments world {Obj} s.

Definition M (Obj A : Type) : Type := Sys Obj -> res A * Sys Obj.

Definition ret {Obj A} (a : A) : M Obj A := fun s => (Ok a, s).

Definition bind {Obj A B} (m : M Obj A) (k : A -> M Obj B) : M Obj B :=
  fun s =>
    match m s with
    | (Ok a, s') => k a s'
    | (Raise e, s') => (Raise e, s')
    end.

Definition raise {Obj A} (e : exn) : M Obj A := fun s => (Raise e, s).

(** [try: body finally: cleanup]. The cleanup runs on both exits; when it
    raises, its exception replaces the pending one. *)
Definition try_finally {Obj A} (body : M Obj A) (cleanup : M Obj unit) : M Obj A :=
  fun s =>
    match body s with
    | (r, s1) =>
        match cleanup s1 with
        | (Ok _, s2) => (r, s2)
        | (Raise e, s2) => (Raise e, s2)
        end
    end.

Declare Scope py_scope.
Delimit Scope py_scope with py.
Notation "x <- m ;; k" := (bind m (fun x => k))
  (at level 100, m at next level, right associativity) : py_scope.
Notation "m ;; k" := (bind m (fun _ => k))
  (at level 100, right associativity) : py_scope.
Local Open Scope py_scope.

Definition lift {Obj A} (r : res A) : M Obj A := fun s => (r, s).

Definition log {Obj} (ev : event) (s : Sys Obj) : Sys Obj :=
  let w := world s in
  mkSys (obj s) (mkWorld (sessions w) (next_session w) (disk w) (trace w ++ [ev])).

Definition emit {Obj} (ev : event) : M Obj unit := fun s => (Ok tt, log ev s).

(** A call into a collaborator: the call is recorded, then it returns or
    raises. *)
Definition ask {Obj A} (who : collaborator) (ev : event)
    (o : list event -> reply A) : M Obj A :=
  fun s =>
    match o (trace (world s)) with
    | Reply a => (Ok a, log ev s)
    | Fault info => (Raise (CollaboratorError who info), log ev s)
    end.

(** A computation keeps an observation [f] of the state when [f] reads the
    same before and after every run of it. *)
Definition keeps {Obj X A} (f : Sys Obj -> X) (m : M Obj A) : Prop :=
  forall s, f (snd (m s)) = f s.

(** Observations that do not look at the trace. *)
Class Untraced {Obj X} (f : Sys Obj -> X) : Prop :=
  untraced : forall ev s, f (log ev s) = f s.

Definition the_sessions {Obj} (s : Sys Obj) : gset nat := sessions (world s).
Definition the_disk {Obj} (s : Sys Obj) : gset pystr := disk (world s).
Definition the_trace {Obj} (s : Sys Obj) : list event := trace (world s).

(** The prompts sent to the model so far, oldest first. *)
Fixpoint model_calls (t : list event) : list prompt_value :=
  match t with
  | [] => []
  | EvModel p :: t' => p :: model_calls t'
  | _ :: t' => model_calls t'
  end.

(** A computation only ever adds to the trace. *)
Definition grows {Obj A} (m : M Obj A) : Prop :=
  forall s, exists rest, the_trace (snd (m s)) = the_trace s ++ rest.

(** What the world operations do to the state. *)
Definition open_session {Obj} (s : Sys Obj) : Sys Obj :=
  let w := world s in
  mkSys (obj s)
    (mkWorld ({[next_session w]} ∪ sessions w) (S (next_session w)) (disk w)
             (trace w ++ [EvCreateDriver])).

Definition close_session {Obj} (h : nat) (s : Sys Obj) : Sys Obj :=
  let w := world s in
  mkSys (obj s)
    (mkWorld (sessions w ∖ {[h]}) (next_session w) (disk w) (trace w ++ [EvQuit h])).

Definition create_file {Obj} (p : pystr) (s : Sys Obj) : Sys Obj :=
  let w := world s in
  mkSys (obj s)
    (mkWorld (sessions w) (next_session w) ({[p]} ∪ disk w) (trace w ++ [EvTempFile])).

Definition delete_file {Obj} (p : pystr) (s : Sys Obj) : Sys Obj :=
  let w := world s in
  mkSys (obj s)
    (mkWorld (sessions w) (next_session w) (disk w ∖ {[p]}) (trace w ++ [EvRemove p])).

Section World_operations.
Context {Obj : Type} (E : Env).

(** [create_driver_selenium()] *)
Definition create_driver_selenium : M Obj nat :=
  fun s =>
    match create_driver_selenium_reply E (trace (world s)) with
    | Fault info => (Raise (CollaboratorError Browser info), log EvCreateDriver s)
    | Reply _ => (Ok (next_session (world s)), open_session s)
    end.

Definition driver_get (h : nat) (url : pystr) : M Obj unit :=
  ask Browser (EvGet h url) (fun t => get_reply E t url).

Definition time_sleep (seconds : N) : M Obj unit := emit (EvSleep seconds).

(** [driver.find_element(by, value)]; the element is known by its session. *)
Definition driver_find_element (h : nat) (by_ value : pystr) : M Obj nat :=
  ask Browser (EvFindElement h by_ value)
      (fun t => match find_element_reply E t with
                | Reply _ => Reply h
                | Fault i => Fault i
                end).

Definition get_attribute (element : nat) (name : pystr) : M Obj pystr :=
  ask Browser (EvGetAttribute element name) (get_attribute_reply E).

(** [driver.quit()] *)
Definition driver_quit (h : nat) : M Obj unit :=
  fun s => (Ok tt, close_session h s).

(** [tempfile.NamedTemporaryFile(delete=False, ...)]: on success the file
    exists under the name returned. *)
Definition NamedTemporaryFile : M Obj pystr :=
  fun s =>
    match tempfile_reply E (trace (world s)) with
    | Fault info => (Raise (CollaboratorError TempFiles info), log EvTempFile s)
    | Reply p => (Ok p, create_file p s)
    end.

Definition file_write (path data : pystr) : M Obj unit :=
  ask TempFiles (EvWrite path data) (fun t => write_reply E t path data).

(** Leaving the [with] block closes the file. Closing flushes what the
    writes left in the buffer, so it can fail the way a write can: the reply
    is [write_reply]'s, at this point of the history, for a write that hands
    over nothing new. With [delete=False] closing does not delete the file. *)
Definition file_close (path : pystr) : M Obj unit :=
  ask TempFiles (EvClose path) (fun t => write_reply E t path []).

(** [with tempfile.NamedTemporaryFile(delete=False, ...) as f: body] *)
Definition with_NamedTemporaryFile {A} (body : pystr -> M Obj A) : M Obj A :=
  temp_file <- NamedTemporaryFile ;;
  try_finally (body temp_file) (file_close temp_file).

(** [os.remove(path)] *)
Definition os_remove (path : pystr) : M Obj unit :=
  fun s =>
    if decide (path ∈ disk (world s)) then (Ok tt, delete_file path s)
    else (Raise (FileNotFoundError path), log (EvRemove path) s).

(** [TextLoader(path, encoding="utf-8", autodetect_encoding=True).load()] *)
Definition TextLoader_load (path : pystr) : M Obj (list Document) :=
  ask Loader (EvLoad path) (fun t => load_reply E t path).

(** [llm_cheap] followed by [StrOutputParser()]: one model call, the text
    of its answer. *)
Definition llm_cheap (p : prompt_value) : M Obj pystr :=
  ask ChatModel (EvModel p) (fun t => model_reply E t p).
End World_operations.

(** ** Token windows *)

(** [TokenTextSplitter(chunk_size=..., chunk_overlap=...)] *)
Record TokenTextSplitter := mkTokenTextSplitter {
  chunk_size : nat;
  chunk_overlap : nat
}.

(** Modelled from the spec: the windowing done by the text-splitting library
    behind [TokenTextSplitter.split_documents], whose code is not under src/.
    The spec's ChunkSet is an "ordered sequence of text chunks, each with
    fixed maximum token length and fixed token overlap with its neighbor":
    a window of [size] tokens is cut, the next window starts [size - overlap]
    tokens later, and the window that reaches the end of the text is the
    last one. [fuel] bounds the number of windows. *)
Fixpoint windows (fuel size step : nat) (ids : list N) : list (list N) :=
  match fuel with
  | 0 => []
  | S fuel' =>
      match ids with
      | [] => []
      | _ :: _ =>
          take size ids ::
            (if length ids <=? size then []
             else windows fuel' size step (drop step ids))
      end
  end.

(** Modelled from the spec: see [windows]. One window per token is the most
    a text can need. *)
Definition split_text_on_tokens (sp : TokenTextSplitter) (ids : list N)
    : list (list N) :=
  windows (length ids) (chunk_size sp) (chunk_size sp - chunk_overlap sp) ids.

(** Modelled from the spec: [split_text], the windows of the encoded text,
    each decoded back to a string. *)
Definition split_text (E : Env) (sp : TokenTextSplitter) (t : pystr) : list pystr :=
  map (decode E) (split_text_on_tokens sp (encode E t)).

(** Modelled from the spec: [split_documents], every document replaced by one
    document per chunk of its text, in order, each carrying the metadata of
    the document it was cut from. *)
Definition split_documents (E : Env) (sp : TokenTextSplitter)
    (documents : list Document) : list Document :=
  flat_map
    (fun d => map (fun c => mkDocument c (metadata d)) (split_text E sp (page_content d)))
    documents.

(** ** llm/llm_job_parser.py *)

Module JobParser.

(** The settings object handed to the constructor as [strings]. *)
Record Strings := mkStrings {
  summarize_prompt_template : pystr
}.

(** Instance attributes. [job_description] is [None] as long as the
    attribute has not been assigned. *)
Record LLMResumer := mkLLMResumer {
  strings : Strings;
  job_description : option pystr
}.

(** The in-memory index built by [FAISS.from_documents]. *)
Record VectorStore := mkVectorStore {
  docstore : list Document
}.

Definition newline : pystr := [0x0A%N].

Local Open Scope string_scope.

(** The [PromptTemplate] of [get_job_description_from_url], lines 77-84. *)
Definition prompt : list seg :=
  [ Lit (text [ EmptyString;
      "            You are an expert job description analyst. Your role is to meticulously analyze and interpret job descriptions. ";
      "            After analyzing the job description, answer the following question in a clear, and informative manner.";
      "            ";
      "            Question: " ]);
    Var (py "question");
    Lit (text [ EmptyString; "            Job Description: " ]);
    Var (py "context");
    Lit (text [ EmptyString; "            Answer:"; "            " ]) ].

(** The [PromptTemplate] of [_extract_information], lines 151-159. *)
Definition extract_prompt : list seg :=
  [ Lit (text [ EmptyString;
      "            You are an expert in extracting specific information from job descriptions. ";
      "            Carefully read the job description below and provide a clear and concise answer to the question.";
      EmptyString;
      "            Job Description: " ]);
    Var (py "job_description");
    Lit (text [ EmptyString; EmptyString; "            Question: " ]);
    Var (py "question");
    Lit (text [ EmptyString; "            Answer:"; "            " ]) ].

Local Close Scope string_scope.

(** The first-stage prompt once [question] and [context] are filled in. *)
Definition stage1_text (question context : pystr) : pystr :=
  match prompt with
  | [Lit a; _; Lit b; _; Lit c] => a ++ question ++ b ++ context ++ c
  | _ => []
  end.

(** The extraction prompt once its two fields are filled in. *)
Definition extract_text (job_description question : pystr) : pystr :=
  match extract_prompt with
  | [Lit a; _; Lit b; _; Lit c] => a ++ job_description ++ b ++ question ++ c
  | _ => []
  end.

(** The exception of [_extract_information], line 148. *)
Definition precondition_error : exn :=
  ValueError
    (py "Job description not found. Please run get_job_description_from_url first.").

(** [text_splitter = TokenTextSplitter(chunk_size=500, chunk_overlap=50)] *)
Definition text_splitter : TokenTextSplitter := mkTokenTextSplitter 500 50.

(** [def format_docs(docs)], line 87 *)
Definition format_docs (docs : list Document) : pystr :=
  join (newline ++ newline) (map page_content docs).

Section Methods.
Variable E : Env.

Abbreviation Cmd := (M LLMResumer).

Definition get_strings : Cmd Strings := fun s => (Ok (strings (obj s)), s).

(** [hasattr(self, 'job_description')] *)
Definition hasattr_job_description : Cmd bool :=
  fun s => (Ok (bool_decide (is_Some (job_description (obj s)))), s).

(** [self.job_description] read *)
Definition get_job_description : Cmd pystr :=
  fun s =>
    match job_description (obj s) with
    | Some v => (Ok v, s)
    | None => (Raise (AttributeError (py "job_description")), s)
    end.

(** [self.job_description = v] *)
Definition set_job_description (v : pystr) : Cmd unit :=
  fun s => (Ok tt, mkSys (mkLLMResumer (strings (obj s)) (Some v)) (world s)).

(** [_preprocess_template_string], a static method *)
Definition _preprocess_template_string (template : pystr) : pystr :=
  dedent E template.

(** [FAISS.from_documents(documents=..., embedding=self.llm_embeddings)] *)
Definition FAISS_from_documents (documents : list Document) : Cmd VectorStore :=
  ask Embeddings (EvEmbed documents)
      (fun t => match embed_reply E t documents with
                | Reply _ => Reply (mkVectorStore documents)
                | Fault i => Fault i
                end).

(** [vectorstore.as_retriever()], invoked on a query *)
Definition retriever (vectorstore : VectorStore) (query : pystr)
    : Cmd (list Document) :=
  ask Retriever (EvRetrieve query)
      (fun t => retrieve_reply E t (docstore vectorstore) query).

(** [ChatPromptTemplate.from_template(t)] *)
Definition ChatPromptTemplate_from_template (t : pystr) : Cmd (list seg) :=
  fun s =>
    match from_template_reply E t with
    | Reply segs => (Ok segs, s)
    | Fault info => (Raise (CollaboratorError PromptParser info), s)
    end.

(** [context_formatter = vectorstore.as_retriever() | format_docs] *)
Definition context_formatter (vectorstore : VectorStore) (input : pystr)
    : Cmd pystr :=
  docs <- retriever vectorstore input ;;
  ret (format_docs docs).

(** [chain_job_description = prompt | self.llm_cheap | StrOutputParser()] *)
Definition chain_job_description (inputs : gmap pystr pystr) : Cmd pystr :=
  p <- lift (format_template prompt inputs) ;;
  llm_cheap E (StringPromptValue p).

(** [chain_summarize = prompt_summarize | self.llm_cheap | StrOutputParser()] *)
Definition chain_summarize (prompt_summarize : list seg)
    (inputs : gmap pystr pystr) : Cmd pystr :=
  p <- lift (format_template prompt_summarize inputs) ;;
  llm_cheap E (ChatPromptValue [HumanMessage p]).

(** [qa_chain], lines 95-103, invoked on [input]. The first step fills
    [context] and [question] side by side; [question] is the input passed
    through, so only the retrieval has an effect. *)
Definition qa_chain (vectorstore : VectorStore) (prompt_summarize : list seg)
    (input : pystr) : Cmd pystr :=
  context <- context_formatter vectorstore input ;;
  let question := input in
  output <- chain_job_description
              (<[py "context" := context]> (<[py "question" := question]> ∅)) ;;
  chain_summarize prompt_summarize (<[py "text" := output]> ∅).

Definition get_job_description_from_url (url_job_description : pystr)
    : Cmd unit :=
  driver <- create_driver_selenium E ;;
  driver_get E driver url_job_description ;;
  time_sleep 3 ;;
  body_element <- driver_find_element E driver (py "tag name") (py "body") ;;
  response <- get_attribute E body_element (py "outerHTML") ;;
  driver_quit driver ;;
  temp_file_path <-
    with_NamedTemporaryFile E (fun temp_file =>
      file_write E temp_file response ;;
      ret temp_file) ;;
  document <-
    try_finally (TextLoader_load E temp_file_path) (os_remove temp_file_path) ;;
  let all_splits := split_documents E text_splitter document in
  vectorstore <- FAISS_from_documents all_splits ;;
  self_strings <- get_strings ;;
  let summarize_prompt_template :=
    _preprocess_template_string (summarize_prompt_template self_strings) in
  prompt_summarize <- ChatPromptTemplate_from_template summarize_prompt_template ;;
  result <- qa_chain vectorstore prompt_summarize
              (py "Provide, full job description") ;;
  set_job_description result.

(** The same method cut into consecutive blocks, for reasoning about
    one block at a time ([get_job_description_from_url_blocks] below
    relates the two). Lines 58-64: *)
Definition fetch_page (url_job_description : pystr) : Cmd pystr :=
  driver <- create_driver_selenium E ;;
  driver_get E driver url_job_description ;;
  time_sleep 3 ;;
  body_element <- driver_find_element E driver (py "tag name") (py "body") ;;
  response <- get_attribute E body_element (py "outerHTML") ;;
  driver_quit driver ;;
  ret response.

(** Lines 65-72 *)
Definition load_text (response : pystr) : Cmd (list Document) :=
  temp_file_path <-
    with_NamedTemporaryFile E (fun temp_file =>
      file_write E temp_file response ;;
      ret temp_file) ;;
  try_finally (TextLoader_load E temp_file_path) (os_remove temp_file_path).

(** Lines 73-94 *)
Definition build_chain (document : list Document)
    : Cmd (VectorStore * list seg) :=
  let all_splits := split_documents E text_splitter document in
  vectorstore <- FAISS_from_documents all_splits ;;
  self_strings <- get_strings ;;
  let summarize_prompt_template :=
    _preprocess_template_string (summarize_prompt_template self_strings) in
  prompt_summarize <- ChatPromptTemplate_from_template summarize_prompt_template ;;
  ret (vectorstore, prompt_summarize).

(** Lines 58-94 *)
Definition before_chain (url_job_description : pystr)
    : Cmd (VectorStore * list seg) :=
  response <- fetch_page url_job_description ;;
  document <- load_text response ;;
  build_chain document.

(** Lines 95-105 *)
Definition run_chain (chain : VectorStore * list seg) : Cmd unit :=
  result <- qa_chain (fst chain) (snd chain)
              (py "Provide, full job description") ;;
  set_job_description result.

(** The instance with its [job_description] attribute replaced. *)
Definition with_cache (cached : option pystr) (s : Sys LLMResumer)
    : Sys LLMResumer :=
  mkSys (mkLLMResumer (strings (obj s)) cached) (world s).

(** A computation ignores the cache when it runs the same way whatever
    [job_description] holds, and leaves that attribute as it found it. *)
Definition ignores_cache {A} (m : Cmd A) : Prop :=
  forall c s, m (with_cache c s) = (fst (m s), with_cache c (snd (m s))).

Definition _extract_information (question : pystr) : Cmd pystr :=
  has <- hasattr_job_description ;;
  if negb has then
    raise precondition_error
  else
    self_job_description <- get_job_description ;;
    p <- lift (format_template extract_prompt
                 (<[py "job_description" := self_job_description]>
                    (<[py "question" := question]> ∅))) ;;
    result <- llm_cheap E (StringPromptValue p) ;;
    ret (strip result).

Definition extract_company_name : Cmd pystr :=
  _extract_information (py "What is the company name in this job description?").

Definition extract_role : Cmd pystr :=
  _extract_information
    (py "What is the role or title being sought in this job description?").

Definition extract_location : Cmd pystr :=
  _extract_information
    (py "What is the location mentioned in this job description?").

Definition extract_recruiter_email : Cmd pystr :=
  _extract_information
    (py "What is the recruiter's email address in this job description?").

Definition extract_all_details : Cmd (gmap pystr pystr) :=
  let details : gmap pystr pystr := ∅ in
  v <- extract_company_name ;;
  let details := <[py "company_name" := v]> details in
  v <- extract_role ;;
  let details := <[py "role" := v]> details in
  v <- extract_location ;;
  let details := <[py "location" := v]> details in
  v <- extract_recruiter_email ;;
  let details := <[py "recruiter_email" := v]> details in
  ret details.
End Methods.
End JobParser.

(** ** resume_facade.py *)

Module Facade.

(** Instance attributes. [selected_style] is always present and starts as
    [None]; [driver] exists only once [set_driver] has run. *)
Record ResumeFacade := mkResumeFacade {
  selected_style : option pystr;
  driver : option nat
}.

Section Methods.
Variable E : Env.

Abbreviation Cmd := (M ResumeFacade).

Definition get_selected_style : Cmd (option pystr) :=
  fun s => (Ok (selected_style (obj s)), s).

(** [self.driver] read *)
Definition get_driver : Cmd nat :=
  fun s =>
    match driver (obj s) with
    | Some d => (Ok d, s)
    | None => (Raise (AttributeError (py "driver")), s)
    end.

Definition set_driver (d : nat) : Cmd unit :=
  fun s => (Ok tt, mkSys (mkResumeFacade (selected_style (obj s)) (Some d)) (world s)).

Definition get_style_path (style : pystr) : Cmd pystr :=
  ask StyleManager (EvStylePath style) (fun t => get_style_path_reply E t style).

Definition create_resume (style_path : pystr) : Cmd pystr :=
  ask ResumeGenerator (EvCreateResume style_path)
      (fun t => create_resume_reply E t style_path).

Definition create_resume_job_description_text
    (style_path job_description_text : pystr) : Cmd pystr :=
  ask ResumeGenerator (EvCreateResumeJD style_path job_description_text)
      (fun t => create_resume_job_description_text_reply E t style_path
                  job_description_text).

Definition HTML_to_PDF (html : pystr) (d : nat) : Cmd (list Byte.byte) :=
  ask PdfConverter (EvHtmlToPdf html d) (fun t => HTML_to_PDF_reply E t html d).

Definition create_resume_pdf (job_description_text : option pystr)
    : Cmd (list Byte.byte) :=
  self_selected_style <- get_selected_style ;;
  match self_selected_style with
  | None =>
      raise (ValueError (py "Devi scegliere uno stile prima di generare il PDF."))
  | Some style =>
      style_path <- get_style_path style ;;
      html_resume <-
        match job_description_text with
        | None => create_resume style_path
        | Some jd => create_resume_job_description_text style_path jd
        end ;;
      self_driver <- get_driver ;;
      result <- HTML_to_PDF html_resume self_driver ;;
      self_driver <- get_driver ;;
      driver_quit self_driver ;;
      ret result
  end.
End Methods.
End Facade.

(** ** Stub collaborators, for running the model on concrete inputs *)

Module Stub.

(** A three-token code: one token per character. *)
Definition env : Env :=
  mkEnv (fun _ => Reply tt)
        (fun _ _ => Reply tt)
        (fun _ => Reply tt)
        (fun _ => Reply (py "<body>Senior Backend Engineer at Acme Corp</body>"))
        (fun _ => Reply (py "/tmp/tmpab12.html"))
        (fun _ _ _ => Reply tt)
        (fun _ p => Reply [mkDocument (py "Senior Backend Engineer at Acme Corp") ∅])
        (fun s => s)
        (fun ids => ids)
        (fun _ _ => Reply tt)
        (fun _ docs _ => Reply (take 4 docs))
        (fun _ p =>
           match p with
           | StringPromptValue _ => Reply (py "  Acme Corp
")
           | ChatPromptValue _ => Reply (py "Backend role at Acme Corp")
           end)
        (fun s => s)
        (fun _ => Reply [Lit (py "Summarize: "); Var (py "text")])
        (fun _ style => Reply (py "styles/" ++ style))
        (fun _ _ => Reply (py "<html>resume</html>"))
        (fun _ _ _ => Reply (py "<html>tailored resume</html>"))
        (fun _ _ _ => Reply [Byte.x25; Byte.x50; Byte.x44; Byte.x46]).

(** Same, but the page never loads. *)
Definition env_page_fails : Env :=
  mkEnv (create_driver_selenium_reply env)
        (fun _ _ => Fault (py "net::ERR_NAME_NOT_RESOLVED"))
        (find_element_reply env) (get_attribute_reply env)
        (tempfile_reply env) (write_reply env) (load_reply env)
        (encode env) (decode env) (embed_reply env) (retrieve_reply env)
        (model_reply env) (dedent env) (from_template_reply env)
        (get_style_path_reply env) (create_resume_reply env)
        (create_resume_job_description_text_reply env) (HTML_to_PDF_reply env).

(** Same, but writing the temporary file fails. *)
Definition env_write_fails : Env :=
  mkEnv (create_driver_selenium_reply env) (get_reply env)
        (find_element_reply env) (get_attribute_reply env)
        (tempfile_reply env)
        (fun _ _ _ => Fault (py "No space left on device"))
        (load_reply env)
        (encode env) (decode env) (embed_reply env) (retrieve_reply env)
        (model_reply env) (dedent env) (from_template_reply env)
        (get_style_path_reply env) (create_resume_reply env)
        (create_resume_job_description_text_reply env) (HTML_to_PDF_reply env).

(** Same, but the model fails on the second stage (the chat prompt). *)
Definition env_stage2_fails : Env :=
  mkEnv (create_driver_selenium_reply env) (get_reply env)
        (find_element_reply env) (get_attribute_reply env)
        (tempfile_reply env) (write_reply env) (load_reply env)
        (encode env) (decode env) (embed_reply env) (retrieve_reply env)
        (fun _ p =>
           match p with
           | StringPromptValue _ => Reply (py "The full posting")
           | ChatPromptValue _ => Fault (py "rate limit")
           end)
        (dedent env) (from_template_reply env)
        (get_style_path_reply env) (create_resume_reply env)
        (create_resume_job_description_text_reply env) (HTML_to_PDF_reply env).

Definition world0 : World := mkWorld ∅ 0 ∅ [].

Definition fresh_parser : Sys JobParser.LLMResumer :=
  mkSys (JobParser.mkLLMResumer (JobParser.mkStrings (py "Summarize: {text}")) None)
        world0.

Definition parser_with (summary : pystr) : Sys JobParser.LLMResumer :=
  mkSys (JobParser.mkLLMResumer (JobParser.mkStrings (py "Summarize: {text}"))
           (Some summary))
        world0.

Definition facade (style : option pystr) : Sys Facade.ResumeFacade :=
  mkSys (Facade.mkResumeFacade style (Some 0))
        (mkWorld {[0]} 1 ∅ []).
Definition job_url : pystr := py "https://jobs.example.com/backend-engineer".

Definition thousand_tokens : list N := map N.of_nat (seq 0 1000).

(** The same text retrieved twice. *)
Definition two_chunks : list Document :=
  [ mkDocument (py "Senior Backend Engineer") ∅;
    mkDocument (py "Senior Backend Engineer") ∅ ].
End Stub.

(** ** [str.split] *)

(** [s.startswith(sep)] *)
Fixpoint startswith (sep s : pystr) : bool :=
  match sep, s with
  | [], _ => true
  | _ :: _, [] => false
  | a :: sep', b :: s' => (a =? b)%N && startswith sep' s'
  end.

(** The scan behind [s.split(sep)], left to right: [acc] is the item being
    read, [skip] the number of characters of a separator just found that are
    still to be passed over. *)
Fixpoint split_go (sep : pystr) (skip : nat) (acc : pystr) (s : pystr)
    : pystr * list pystr :=
  match s with
  | [] => (acc, [])
  | c :: s' =>
      match skip with
      | S k => split_go sep k acc s'
      | 0 =>
          if startswith sep s then
            (acc, let '(item, items) := split_go sep (length sep - 1) [] s' in
                  item :: items)
          else split_go sep 0 (acc ++ [c]) s'
      end
  end.

(** [s.split(sep)] for a separator that is not empty: the first item and the
    items after it (the list Python returns is never empty, so indexing it
    with [0] cannot fail). *)
Definition split (sep s : pystr) : pystr * list pystr := split_go sep 0 [] s.

(** ** resume_facade.py: choosing a style, cover letters *)

Module Desk.

(** [inquirer.List(name, message=..., choices=...)] and
    [inquirer.Text(name, message=...)] *)
Inductive question :=
| QList (name message : pystr) (choices : list pystr)
| QText (name message : pystr).

(** The calls these methods make besides those of [create_resume_pdf]. *)
Inductive call :=
| CallGetStyles
| CallFormatChoices (styles : gmap pystr (pystr * pystr))
| CallPrompt (questions : list question)
| CallPrint (line : pystr)
| CallGetStylePath
| CallCreateCoverLetter (style_path job_description_text : pystr).

(** The collaborators behind those calls. What [get_styles] returns is only
    tested for emptiness and handed to [format_choices]; it is taken to be a
    dictionary. The prompt is taken to come back with its dictionary of
    answers: a prompt that is cancelled is outside this model. *)
Record Console := mkConsole {
  get_styles_reply :
    list event -> list call -> reply (gmap pystr (pystr * pystr));
  format_choices_reply :
    list event -> list call -> gmap pystr (pystr * pystr) -> reply (list pystr);
  prompt_answers : list event -> list call -> list question -> gmap pystr pystr;
  get_style_path_reply : list event -> list call -> reply pystr;
  create_cover_letter_job_description_reply :
    list event -> list call -> pystr -> pystr -> reply pystr
}.

(** The facade together with the record of those calls. *)
Record Desk := mkDesk {
  facade : Facade.ResumeFacade;
  calls : list call
}.

Definition note (c : call) (s : Sys Desk) : Sys Desk :=
  mkSys (mkDesk (facade (obj s)) (calls (obj s) ++ [c])) (world s).

(** A method of the facade, run at the desk. *)
Definition zoom {A} (m : M Facade.ResumeFacade A) : M Desk A :=
  fun s =>
    match m (mkSys (facade (obj s)) (world s)) with
    | (r, s1) => (r, mkSys (mkDesk (obj s1) (calls (obj s))) (world s1))
    end.

Section Methods.
Variables (E : Env) (C : Console).

Abbreviation Cmd := (M Desk).

Definition consult {A} (who : collaborator) (c : call)
    (o : list event -> list call -> reply A) : Cmd A :=
  fun s =>
    match o (trace (world s)) (calls (obj s)) with
    | Reply a => (Ok a, note c s)
    | Fault info => (Raise (CollaboratorError who info), note c s)
    end.

(** [self.style_manager.get_styles()] *)
Definition get_styles : Cmd (gmap pystr (pystr * pystr)) :=
  consult StyleManager CallGetStyles (get_styles_reply C).

(** [self.style_manager.format_choices(styles)] *)
Definition format_choices (styles : gmap pystr (pystr * pystr)) : Cmd (list pystr) :=
  consult StyleManager (CallFormatChoices styles)
          (fun t cs => format_choices_reply C t cs styles).

(** [inquirer.prompt(questions)] *)
Definition inquirer_prompt (questions : list question) : Cmd (gmap pystr pystr) :=
  fun s =>
    (Ok (prompt_answers C (trace (world s)) (calls (obj s)) questions),
     note (CallPrompt questions) s).

(** [print(line)] *)
Definition print (line : pystr) : Cmd unit :=
  fun s => (Ok tt, note (CallPrint line) s).

(** [answers[key]] *)
Definition getitem (answers : gmap pystr pystr) (key : pystr) : Cmd pystr :=
  match answers !! key with
  | Some v => ret v
  | None => raise (KeyError key)
  end.

Definition prompt_user (choices : list pystr) (message : pystr) : Cmd pystr :=
  let questions := [QList (py "selection") message choices] in
  answers <- inquirer_prompt questions ;;
  getitem answers (py "selection").

Definition prompt_for_text (message : pystr) : Cmd pystr :=
  let questions := [QText (py "text") message] in
  answers <- inquirer_prompt questions ;;
  getitem answers (py "text").

(** [self.selected_style = v] *)
Definition set_selected_style (v : pystr) : Cmd unit :=
  fun s =>
    (Ok tt,
     mkSys (mkDesk (Facade.mkResumeFacade (Some v) (Facade.driver (facade (obj s))))
                   (calls (obj s)))
           (world s)).

Definition choose_style : Cmd unit :=
  styles <- get_styles ;;
  if bool_decide (styles = ∅) then
    print (py "No styles available") ;;
    ret tt
  else
    formatted_choices <- format_choices styles ;;
    selected_choice <-
      prompt_user formatted_choices (py "Which style would you like to adopt?") ;;
    set_selected_style (fst (split (py " (") selected_choice)).

Definition set_driver (d : nat) : Cmd unit := zoom (Facade.set_driver d).

Definition create_resume_pdf (job_description_text : option pystr)
    : Cmd (list Byte.byte) :=
  zoom (Facade.create_resume_pdf E job_description_text).

(** [self.style_manager.get_style_path()], without an argument *)
Definition get_style_path : Cmd pystr :=
  consult StyleManager CallGetStylePath (get_style_path_reply C).

Definition create_cover_letter_job_description
    (style_path job_description_text : pystr) : Cmd pystr :=
  consult ResumeGenerator (CallCreateCoverLetter style_path job_description_text)
          (fun t cs => create_cover_letter_job_description_reply C t cs style_path
                         job_description_text).

Definition create_cover_letter (job_description_text : pystr)
    : Cmd (list Byte.byte) :=
  style_path <- get_style_path ;;
  cover_letter_html <-
    create_cover_letter_job_description style_path job_description_text ;;
  self_driver <- zoom Facade.get_driver ;;
  result <- zoom (Facade.HTML_to_PDF E cover_letter_html self_driver) ;;
  self_driver <- zoom Facade.get_driver ;;
  driver_quit self_driver ;;
  ret result.
End Methods.
End Desk.

(** ** More stub collaborators *)

Module Stub2.

(** [Stub.env] with the model and the template parser replaced. *)
Definition with_model (model : list event -> prompt_value -> reply pystr)
    (template : list seg) : Env :=
  mkEnv (create_driver_selenium_reply Stub.env) (get_reply Stub.env)
        (find_element_reply Stub.env) (get_attribute_reply Stub.env)
        (tempfile_reply Stub.env) (write_reply Stub.env) (load_reply Stub.env)
        (encode Stub.env) (decode Stub.env) (embed_reply Stub.env)
        (retrieve_reply Stub.env) model (dedent Stub.env)
        (fun _ => Reply template)
        (get_style_path_reply Stub.env) (create_resume_reply Stub.env)
        (create_resume_job_description_text_reply Stub.env)
        (HTML_to_PDF_reply Stub.env).

(** The caller's template asks for [{context}] as well as [{text}]. *)
Definition env_two_fields : Env :=
  with_model (model_reply Stub.env)
    [Lit (py "Summarize "); Var (py "text"); Lit (py " given "); Var (py "context")].

(** [Stub.env] with a disk that takes the write into the buffer and fails
    when the buffer is flushed on closing. *)
Definition env_close_fails : Env :=
  mkEnv (create_driver_selenium_reply Stub.env) (get_reply Stub.env)
        (find_element_reply Stub.env) (get_attribute_reply Stub.env)
        (tempfile_reply Stub.env)
        (fun _ _ data =>
           match data with
           | [] => Fault (py "File too large")
           | _ :: _ => Reply tt
           end)
        (load_reply Stub.env)
        (encode Stub.env) (decode Stub.env) (embed_reply Stub.env)
        (retrieve_reply Stub.env) (model_reply Stub.env) (dedent Stub.env)
        (from_template_reply Stub.env)
        (get_style_path_reply Stub.env) (create_resume_reply Stub.env)
        (create_resume_job_description_text_reply Stub.env)
        (HTML_to_PDF_reply Stub.env).


(** The model fails the first time it is asked and answers from then on. *)
Definition env_model_recovers : Env :=
  with_model (fun t _ =>
                match model_calls t with
                | [] => Fault (py "rate limit")
                | _ => Reply (py " Acme Corp ")
                end)
    [Lit (py "Summarize: "); Var (py "text")].

(** The model answers with blanks only. *)
Definition env_model_blank : Env :=
  with_model (fun _ _ => Reply [0x20%N; 0x0A%N; 0x09%N])
    [Lit (py "Summarize: "); Var (py "text")].


(** A style manager with two styles, and a user who picks the first. *)
Definition console : Desk.Console :=
  Desk.mkConsole
    (fun _ _ => Reply (<[py "Classic" := (py "classic.css", py "https://a.example/anna")]>
                         (<[py "Modern (dark)" := (py "modern.css", py "https://b.example/bo")]> ∅)))
    (fun _ _ _ => Reply [py "Classic (style author -> https://a.example/anna)";
                         py "Modern (dark) (style author -> https://b.example/bo)"])
    (fun _ _ questions =>
       match questions with
       | Desk.QList name _ (choice :: _) :: _ => <[name := choice]> ∅
       | Desk.QText name _ :: _ => <[name := py "typed text"]> ∅
       | _ => ∅
       end)
    (fun _ _ => Reply (py "styles/default.css"))
    (fun _ _ _ _ => Reply (py "<html>cover letter</html>")).

(** A style manager without styles. *)
Definition console_no_styles : Desk.Console :=
  Desk.mkConsole (fun _ _ => Reply ∅)
    (Desk.format_choices_reply console) (Desk.prompt_answers console)
    (Desk.get_style_path_reply console)
    (Desk.create_cover_letter_job_description_reply console).

(** [Stub.env] with a PDF converter that fails. *)
Definition env_pdf_fails : Env :=
  mkEnv (create_driver_selenium_reply Stub.env) (get_reply Stub.env)
        (find_element_reply Stub.env) (get_attribute_reply Stub.env)
        (tempfile_reply Stub.env) (write_reply Stub.env) (load_reply Stub.env)
        (encode Stub.env) (decode Stub.env) (embed_reply Stub.env)
        (retrieve_reply Stub.env) (model_reply Stub.env) (dedent Stub.env)
        (from_template_reply Stub.env)
        (get_style_path_reply Stub.env) (create_resume_reply Stub.env)
        (create_resume_job_description_text_reply Stub.env)
        (fun _ _ _ => Fault (py "chrome not reachable")).

(** A facade as its constructor leaves it, at a desk where nothing has
    happened, with the browser session 0 live. *)
Definition desk (style : option pystr) (driver : option nat) : Sys Desk.Desk :=
  mkSys (Desk.mkDesk (Facade.mkResumeFacade style driver) [])
        (mkWorld {[0]} 1 ∅ []).

(** A parser in a world where another browser session is live and a file
    is on disk. *)
Definition busy_parser : Sys JobParser.LLMResumer :=
  mkSys (JobParser.mkLLMResumer (JobParser.mkStrings (py "Summarize: {text}")) None)
        (mkWorld {[0]} 1 {[py "/home/anna/notes.txt"]} []).

(** A facade without a driver. *)
Definition facade_without_driver (style : option pystr) : Sys Facade.ResumeFacade :=
  mkSys (Facade.mkResumeFacade style None) (mkWorld {[0]} 1 ∅ []).

End Stub2.

(** * Properties *)

(** ** Strings *)

Lemma lstrip_split (s : pystr) :
  exists l, s = l ++ lstrip s /\ all_space l.
Proof.
  induction s as [|c s IH]; simpl.
  - exists []. split; [reflexivity | constructor].
  - destruct (isspace c) eqn:Ec.
    + destruct IH as (l & Hl & Hsp). exists (c :: l). split.
      * simpl. now rewrite <- Hl.
      * constructor; assumption.
    + exists []. split; [reflexivity | constructor].
Qed.

Lemma lstrip_head (s : pystr) (c : N) :
  head (lstrip s) = Some c -> isspace c = false.
Proof.
  induction s as [|d s IH]; simpl; [discriminate|].
  destruct (isspace d) eqn:Ed; [exact IH|].
  simpl. intros [= <-]. exact Ed.
Qed.

Lemma all_space_reverse (l : pystr) : all_space l -> all_space (reverse l).
Proof.
  unfold all_space. rewrite !Forall_forall. intros H x Hx.
  apply H. now apply elem_of_reverse.
Qed.

Lemma rstrip_split (s : pystr) :
  exists r, s = rstrip s ++ r /\ all_space r.
Proof.
  unfold rstrip. destruct (lstrip_split (reverse s)) as (l & Hl & Hsp).
  exists (reverse l). split; [|now apply all_space_reverse].
  rewrite <- reverse_app, <- Hl. symmetry. apply reverse_involutive.
Qed.

Lemma rstrip_last (s : pystr) (c : N) :
  last (rstrip s) = Some c -> isspace c = false.
Proof.
  unfold rstrip. intros H. apply (lstrip_head (reverse s)).
  rewrite <- H. now rewrite last_reverse.
Qed.

(** Removing trailing characters keeps the first character. *)
Lemma rstrip_head (s : pystr) (c : N) :
  head (rstrip s) = Some c -> head s = Some c.
Proof.
  destruct (rstrip_split s) as (r & Hs & _).
  intros H. rewrite Hs. destruct (rstrip s); [discriminate|exact H].
Qed.

(** [strip] removes the leading and trailing whitespace. *)
Lemma strip_spec (s : pystr) : trimmed_from s (strip s).
Proof.
  unfold trimmed_from, strip. split; [|split].
  - destruct (lstrip_split s) as (l & Hl & Hsl).
    destruct (rstrip_split (lstrip s)) as (r & Hr & Hsr).
    exists l, r. split; [|split; assumption].
    now rewrite <- Hr.
  - intros c H. apply (lstrip_head s). now apply rstrip_head.
  - intros c. apply rstrip_last.
Qed.

Lemma lstrip_all_space (l t : pystr) : all_space l -> lstrip (l ++ t) = lstrip t.
Proof.
  induction 1 as [|c l Hc _ IH]; [reflexivity|].
  cbn [app lstrip]. now rewrite Hc.
Qed.

Lemma lstrip_stop (c : N) (t : pystr) : isspace c = false -> lstrip (c :: t) = c :: t.
Proof. intros Hc. cbn [lstrip]. now rewrite Hc. Qed.

(** [trimmed_from] describes one string only, the one [strip] returns. *)
Lemma trimmed_from_unique (a v : pystr) : trimmed_from a v -> v = strip a.
Proof.
  intros ((l & r & -> & Hl & Hr) & Hhead & Hlast). unfold strip.
  rewrite lstrip_all_space by exact Hl.
  destruct v as [|c v'].
  - cbn [app]. unfold rstrip.
    replace (lstrip r) with (@nil N).
    + reflexivity.
    + rewrite <- (app_nil_r r). rewrite lstrip_all_space by exact Hr. reflexivity.
  - cbn [app]. rewrite lstrip_stop by (apply Hhead; reflexivity).
    unfold rstrip. change (c :: v' ++ r) with ((c :: v') ++ r).
    rewrite reverse_app, lstrip_all_space by (now apply all_space_reverse).
    destruct (reverse (c :: v')) as [|d w] eqn:Hrev.
    + apply (f_equal length) in Hrev. rewrite length_reverse in Hrev. discriminate.
    + rewrite lstrip_stop.
      * rewrite <- Hrev. now rewrite reverse_involutive.
      * apply Hlast. rewrite <- (reverse_involutive (c :: v')), Hrev.
        now rewrite last_reverse.
Qed.

Lemma join_cons (sep x y : pystr) (rest : list pystr) :
  join sep (x :: y :: rest) = x ++ sep ++ join sep (y :: rest).
Proof. reflexivity. Qed.

(** Where each item sits in a joined string. *)
Lemma join_middle (sep : pystr) (before : list pystr) (x : pystr) (after : list pystr) :
  join sep (before ++ x :: after)
  = concat (map (fun b => b ++ sep) before) ++ x
      ++ concat (map (fun a => sep ++ a) after).
Proof.
  induction before as [|b before IH].
  - revert x. induction after as [|a after IHa]; intros x.
    + simpl. now rewrite app_nil_r.
    + cbn [app map concat] in *. rewrite join_cons, IHa. now rewrite <- !app_assoc.
  - replace ((b :: before) ++ x :: after) with (b :: (before ++ x :: after)) by reflexivity.
    destruct (before ++ x :: after) as [|y rest] eqn:Eq.
    + now destruct before.
    + rewrite join_cons, IH. cbn [map concat]. now rewrite <- !app_assoc.
Qed.

Lemma join_length (sep : pystr) (items : list pystr) :
  length (join sep items)
  = list_sum (map length items) + length sep * (length items - 1).
Proof.
  induction items as [|x [|y rest] IH].
  - simpl. lia.
  - simpl. lia.
  - rewrite join_cons, !length_app, IH. simpl. lia.
Qed.

(** ** Templates *)

(** A successful [format] means every field of the template was bound. *)
Lemma format_template_fields (t : list seg) (kw : gmap pystr pystr) (r : pystr) :
  format_template t kw = Ok r ->
  Forall (fun sg => forall x, sg = Var x -> is_Some (kw !! x)) t.
Proof.
  revert r. induction t as [|sg t IH]; intros r H; [constructor|].
  simpl in H. destruct sg as [l|x].
  - destruct (format_template t kw) eqn:Ef; [|discriminate].
    constructor; [intros y [=]|]. eapply IH; reflexivity.
  - destruct (kw !! x) eqn:Ex; [|discriminate].
    destruct (format_template t kw) eqn:Ef; [|discriminate].
    constructor; [|eapply IH; reflexivity].
    intros y [= <-]. rewrite Ex. eauto.
Qed.

Lemma py_inj (a b : string) : py a = py b -> a = b.
Proof.
  revert b. induction a as [|c a IH]; intros [|d b]; simpl; try discriminate.
  - reflexivity.
  - intros [= Hc Hr]. f_equal; [|now apply IH].
    rewrite <- (ascii_N_embedding c), <- (ascii_N_embedding d). now rewrite Hc.
Qed.

Module TemplateFacts.

Lemma format_prompt (context question : pystr) :
  format_template JobParser.prompt
    (<[py "context" := context]> (<[py "question" := question]> ∅))
  = Ok (JobParser.stage1_text question context).
Proof.
  unfold JobParser.stage1_text, JobParser.prompt. cbn [format_template].
  rewrite lookup_insert_ne by (intros H; apply py_inj in H; discriminate).
  rewrite !lookup_insert_eq. now rewrite app_nil_r.
Qed.

Lemma format_extract_prompt (job_description question : pystr) :
  format_template JobParser.extract_prompt
    (<[py "job_description" := job_description]> (<[py "question" := question]> ∅))
  = Ok (JobParser.extract_text job_description question).
Proof.
  unfold JobParser.extract_text, JobParser.extract_prompt.
  cbn [format_template].
  rewrite lookup_insert_eq.
  rewrite lookup_insert_ne by (intros H; apply py_inj in H; discriminate).
  rewrite lookup_insert_eq. now rewrite app_nil_r.
Qed.

(** With [text] as the only binding, formatting succeeds only for templates
    whose every field is [{text}]. *)
Lemma format_single_binding (t : list seg) (v r : pystr) :
  format_template t (<[py "text" := v]> ∅) = Ok r ->
  Forall (fun sg => forall x, sg = Var x -> x = py "text") t.
Proof.
  intros H. apply format_template_fields in H.
  eapply Forall_impl; [exact H|]. intros sg Hsg x ->.
  destruct (Hsg x eq_refl) as [w Hw].
  destruct (decide (py "text" = x)) as [<-|Hne]; [reflexivity|].
  rewrite lookup_insert_ne in Hw by assumption. now rewrite lookup_empty in Hw.
Qed.
End TemplateFacts.

(** ** The monad *)

Section Monad_facts.
Context {Obj : Type}.

Lemma bind_ok {A B} (m : M Obj A) (k : A -> M Obj B) s a s1 :
  m s = (Ok a, s1) -> bind m k s = k a s1.
Proof. intros H. unfold bind. now rewrite H. Qed.

Lemma bind_raise {A B} (m : M Obj A) (k : A -> M Obj B) s e s1 :
  m s = (Raise e, s1) -> bind m k s = (Raise e, s1).
Proof. intros H. unfold bind. now rewrite H. Qed.

Lemma bind_inv {A B} (m : M Obj A) (k : A -> M Obj B) s r s' :
  bind m k s = (r, s') ->
  (exists a s1, m s = (Ok a, s1) /\ k a s1 = (r, s'))
  \/ (exists e, m s = (Raise e, s') /\ r = Raise e).
Proof.
  unfold bind. destruct (m s) as [[a|e] s1]; intros H.
  - left. eauto.
  - right. injection H as <- <-. eauto.
Qed.

Lemma bind_assoc {A B C} (m : M Obj A) (f : A -> M Obj B) (g : B -> M Obj C) s :
  bind (bind m f) g s = bind m (fun a => bind (f a) g) s.
Proof. unfold bind. now destruct (m s) as [[a|e] s1]. Qed.

Lemma bind_ext {A B} (m : M Obj A) (k k' : A -> M Obj B) s :
  (forall a s1, k a s1 = k' a s1) -> bind m k s = bind m k' s.
Proof. intros H. unfold bind. destruct (m s) as [[a|e] s1]; [apply H|reflexivity]. Qed.

Lemma bind_ret {A B} (a : A) (k : A -> M Obj B) s : bind (ret a) k s = k a s.
Proof. reflexivity. Qed.

Section Keeps.
Context {X : Type} (f : Sys Obj -> X).

Lemma keeps_ret {A} (a : A) : keeps f (ret a).
Proof. now intros s. Qed.

Lemma keeps_raise {A} (e : exn) : keeps f (@raise Obj A e).
Proof. now intros s. Qed.

Lemma keeps_lift {A} (r : res A) : keeps f (lift r).
Proof. now intros s. Qed.

Lemma keeps_bind {A B} (m : M Obj A) (k : A -> M Obj B) :
  keeps f m -> (forall a, keeps f (k a)) -> keeps f (bind m k).
Proof.
  intros Hm Hk s. specialize (Hm s). unfold bind.
  destruct (m s) as [[a|e] s1]; simpl in *; [|exact Hm].
  now rewrite Hk.
Qed.

Lemma keeps_try_finally {A} (body : M Obj A) (cleanup : M Obj unit) :
  keeps f body -> keeps f cleanup -> keeps f (try_finally body cleanup).
Proof.
  intros Hb Hc s. specialize (Hb s). unfold try_finally.
  destruct (body s) as [r s1]. specialize (Hc s1).
  destruct (cleanup s1) as [[u|e] s2]; simpl in *; congruence.
Qed.

Context `{!Untraced f}.

Lemma keeps_emit (ev : event) : keeps f (emit ev).
Proof. intros s. apply untraced. Qed.

Lemma keeps_ask {A} who ev (o : list event -> reply A) : keeps f (ask who ev o).
Proof. intros s. unfold ask. destruct (o _); apply untraced. Qed.
End Keeps.

#[export] Instance obj_untraced : Untraced (@obj Obj).
Proof. now intros ev s. Qed.

#[export] Instance sessions_untraced : Untraced (@the_sessions Obj).
Proof. now intros ev s. Qed.

#[export] Instance disk_untraced : Untraced (@the_disk Obj).
Proof. now intros ev s. Qed.

(** What each world operation leaves alone. *)
Variable E : Env.

Lemma create_driver_keeps_obj : keeps obj (@create_driver_selenium Obj E).
Proof. intros s. unfold create_driver_selenium. now destruct (create_driver_selenium_reply _ _). Qed.

Lemma create_driver_keeps_disk : keeps the_disk (@create_driver_selenium Obj E).
Proof. intros s. unfold create_driver_selenium. now destruct (create_driver_selenium_reply _ _). Qed.

Lemma driver_quit_keeps_obj h : keeps obj (@driver_quit Obj h).
Proof. now intros s. Qed.

Lemma driver_quit_keeps_disk h : keeps the_disk (@driver_quit Obj h).
Proof. now intros s. Qed.

Lemma tempfile_keeps_obj : keeps obj (@NamedTemporaryFile Obj E).
Proof. intros s. unfold NamedTemporaryFile. now destruct (tempfile_reply _ _). Qed.

Lemma tempfile_keeps_sessions : keeps the_sessions (@NamedTemporaryFile Obj E).
Proof. intros s. unfold NamedTemporaryFile. now destruct (tempfile_reply _ _). Qed.

Lemma os_remove_keeps_obj p : keeps obj (@os_remove Obj p).
Proof. intros s. unfold os_remove. now destruct (decide _). Qed.

Lemma os_remove_keeps_sessions p : keeps the_sessions (@os_remove Obj p).
Proof. intros s. unfold os_remove. now destruct (decide _). Qed.

(** The trace only grows. *)
Lemma grows_ret {A} (a : A) : grows (@ret Obj A a).
Proof. intros s. exists []. cbn. now rewrite app_nil_r. Qed.

Lemma grows_raise {A} (e : exn) : grows (@raise Obj A e).
Proof. intros s. exists []. cbn. now rewrite app_nil_r. Qed.

Lemma grows_lift {A} (r : res A) : grows (@lift Obj A r).
Proof. intros s. exists []. cbn. now rewrite app_nil_r. Qed.

Lemma grows_bind {A B} (m : M Obj A) (k : A -> M Obj B) :
  grows m -> (forall a, grows (k a)) -> grows (bind m k).
Proof.
  intros Hm Hk s. destruct (Hm s) as [r1 H1]. unfold bind.
  destruct (m s) as [[a|e] s1]; cbn [snd] in *; [|eauto].
  destruct (Hk a s1) as [r2 H2]. exists (r1 ++ r2).
  now rewrite H2, H1, app_assoc.
Qed.

Lemma grows_try_finally {A} (body : M Obj A) (cleanup : M Obj unit) :
  grows body -> grows cleanup -> grows (try_finally body cleanup).
Proof.
  intros Hb Hc s. destruct (Hb s) as [r1 H1]. unfold try_finally.
  destruct (body s) as [r s1]. destruct (Hc s1) as [r2 H2].
  exists (r1 ++ r2). cbn [snd] in *.
  destruct (cleanup s1) as [[u|e] s2]; cbn [snd] in *; now rewrite H2, H1, app_assoc.
Qed.

Lemma grows_emit (ev : event) : grows (@emit Obj ev).
Proof. intros s. now exists [ev]. Qed.

Lemma grows_ask {A} who ev (o : list event -> reply A) : grows (@ask Obj A who ev o).
Proof. intros s. exists [ev]. unfold ask. now destruct (o _). Qed.

Lemma grows_create_driver : grows (@create_driver_selenium Obj E).
Proof.
  intros s. exists [EvCreateDriver]. unfold create_driver_selenium.
  now destruct (create_driver_selenium_reply _ _).
Qed.

Lemma grows_driver_quit h : grows (@driver_quit Obj h).
Proof. intros s. now exists [EvQuit h]. Qed.

Lemma grows_tempfile : grows (@NamedTemporaryFile Obj E).
Proof.
  intros s. exists [EvTempFile]. unfold NamedTemporaryFile.
  now destruct (tempfile_reply _ _).
Qed.

Lemma grows_os_remove p : grows (@os_remove Obj p).
Proof. intros s. exists [EvRemove p]. unfold os_remove. now destruct (decide _). Qed.
End Monad_facts.

Create HintDb keeps.
#[export] Hint Resolve keeps_ret keeps_raise keeps_lift keeps_emit keeps_ask
  keeps_try_finally create_driver_keeps_obj create_driver_keeps_disk
  driver_quit_keeps_obj driver_quit_keeps_disk tempfile_keeps_obj
  tempfile_keeps_sessions os_remove_keeps_obj os_remove_keeps_sessions : keeps.
#[export] Hint Extern 1 (Untraced _) => typeclasses eauto : keeps.

Create HintDb grows.
#[export] Hint Resolve grows_ret grows_raise grows_lift grows_emit grows_ask
  grows_create_driver grows_driver_quit grows_tempfile grows_os_remove : grows.

(** Splits a goal [grows m] along the binds of [m]. *)
Ltac grows_steps :=
  repeat first
    [ apply grows_bind; [|intros ?]
    | apply grows_try_finally
    | solve [eauto with grows]
    | match goal with |- grows (match ?x with _ => _ end) => destruct x end
    | match goal with |- grows (if ?x then _ else _) => destruct x end ].

(** Splits a goal [keeps f m] along the binds of [m]. *)
Ltac keeps_steps :=
  repeat first
    [ apply keeps_bind; [|intros ?]
    | apply keeps_try_finally
    | solve [eauto with keeps]
    | match goal with |- keeps _ (match ?x with _ => _ end) => destruct x end
    | match goal with |- keeps _ (if ?x then _ else _) => destruct x end ].

(** ** llm_job_parser.py: how each method runs *)

Section JobParser_runs.
Variable E : Env.
Import JobParser.

Lemma get_job_description_from_url_blocks (url : pystr) (s : Sys LLMResumer) :
  get_job_description_from_url E url s
  = bind (before_chain E url) (run_chain E) s.
Proof.
  unfold get_job_description_from_url, before_chain, run_chain, fetch_page,
    load_text, build_chain.
  symmetry.
  repeat first
    [ rewrite bind_assoc
    | rewrite bind_ret
    | apply bind_ext; intros ? ?
    | reflexivity ].
Qed.

(** [_extract_information], case by case. *)
Lemma _extract_information_run (question : pystr) (s : Sys LLMResumer) :
  _extract_information E question s
  = match job_description (obj s) with
    | None => (Raise precondition_error, s)
    | Some jd =>
        let p := StringPromptValue (extract_text jd question) in
        match model_reply E (the_trace s) p with
        | Reply a => (Ok (strip a), log (EvModel p) s)
        | Fault info => (Raise (CollaboratorError ChatModel info), log (EvModel p) s)
        end
    end.
Proof.
  unfold _extract_information, hasattr_job_description, get_job_description.
  unfold bind at 1.
  destruct (job_description (obj s)) as [jd|] eqn:Ejd.
  - rewrite bool_decide_eq_true_2 by eauto. cbv [negb].
    unfold bind at 1. rewrite Ejd.
    rewrite TemplateFacts.format_extract_prompt.
    unfold bind, lift, llm_cheap, ask, the_trace, ret.
    now destruct (model_reply E _ _).
  - rewrite bool_decide_eq_false_2 by (intros [? [=]]). reflexivity.
Qed.

(** [qa_chain.invoke(input)], case by case. *)
Lemma qa_chain_run (vs : VectorStore) (ps : list seg) (q : pystr)
    (s : Sys LLMResumer) :
  qa_chain E vs ps q s
  = match retrieve_reply E (the_trace s) (docstore vs) q with
    | Fault info => (Raise (CollaboratorError Retriever info), log (EvRetrieve q) s)
    | Reply docs =>
        let s1 := log (EvRetrieve q) s in
        let p1 := StringPromptValue (stage1_text q (format_docs docs)) in
        match model_reply E (the_trace s1) p1 with
        | Fault info => (Raise (CollaboratorError ChatModel info), log (EvModel p1) s1)
        | Reply o1 =>
            let s2 := log (EvModel p1) s1 in
            match format_template ps (<[py "text" := o1]> ∅) with
            | Raise e => (Raise e, s2)
            | Ok t2 =>
                let p2 := ChatPromptValue [HumanMessage t2] in
                match model_reply E (the_trace s2) p2 with
                | Fault info =>
                    (Raise (CollaboratorError ChatModel info), log (EvModel p2) s2)
                | Reply o2 => (Ok o2, log (EvModel p2) s2)
                end
            end
        end
    end.
Proof.
  unfold qa_chain, context_formatter, retriever, chain_job_description,
    chain_summarize, llm_cheap.
  unfold bind, ask, the_trace, ret, lift.
  cbv beta iota zeta.
  destruct (retrieve_reply E _ _ _) as [docs|info]; [|reflexivity].
  cbv beta iota zeta. rewrite TemplateFacts.format_prompt. cbv beta iota zeta.
  destruct (model_reply E _ _) as [o1|info]; [|reflexivity].
  cbv beta iota zeta.
  destruct (format_template ps _) as [t2|e]; [|reflexivity].
  cbv beta iota zeta.
  now destruct (model_reply E _ _).
Qed.

(** Nothing before the last line touches the instance. *)
Lemma fetch_page_keeps_obj url : keeps obj (fetch_page E url).
Proof. unfold fetch_page, driver_get, time_sleep, driver_find_element, get_attribute. keeps_steps. Qed.

Lemma load_text_keeps_obj response : keeps obj (load_text E response).
Proof.
  unfold load_text, with_NamedTemporaryFile, file_write, file_close, TextLoader_load.
  keeps_steps.
Qed.

Lemma build_chain_keeps_obj document : keeps obj (build_chain E document).
Proof.
  unfold build_chain, FAISS_from_documents. keeps_steps.
  - now intros s.
  - intros s. unfold ChatPromptTemplate_from_template. now destruct (from_template_reply _ _).
Qed.

Lemma before_chain_keeps_obj url : keeps obj (before_chain E url).
Proof.
  unfold before_chain.
  apply keeps_bind; [apply fetch_page_keeps_obj|intros response].
  apply keeps_bind; [apply load_text_keeps_obj|intros document].
  apply build_chain_keeps_obj.
Qed.

Lemma qa_chain_keeps_obj vs ps q : keeps obj (qa_chain E vs ps q).
Proof.
  unfold qa_chain, context_formatter, retriever, chain_job_description,
    chain_summarize, llm_cheap.
  keeps_steps.
Qed.

Lemma _extract_information_keeps_obj q : keeps obj (_extract_information E q).
Proof.
  intros s. rewrite _extract_information_run.
  destruct (job_description (obj s)); [|reflexivity].
  cbn. now destruct (model_reply E _ _).
Qed.
End JobParser_runs.

(** ** Extraction *)

Section Extraction.
Variable E : Env.
Import JobParser.

Let q_company := py "What is the company name in this job description?".
Let q_role := py "What is the role or title being sought in this job description?".
Let q_location := py "What is the location mentioned in this job description?".
Let q_email := py "What is the recruiter's email address in this job description?".

(** One extraction on a populated instance: the model is asked once, the
    instance is left as it was, and the outcome is the trimmed answer or
    the model's own failure. *)
Lemma _extract_information_populated (q jd : pystr) (s : Sys LLMResumer) r s' :
  job_description (obj s) = Some jd ->
  _extract_information E q s = (r, s') ->
  s' = log (EvModel (StringPromptValue (extract_text jd q))) s
  /\ ((exists a, model_reply E (the_trace s) (StringPromptValue (extract_text jd q)) = Reply a
                 /\ r = Ok (strip a))
      \/ (exists info, r = Raise (CollaboratorError ChatModel info))).
Proof.
  intros Hjd. rewrite _extract_information_run, Hjd. cbv zeta.
  destruct (model_reply E _ _) as [a|info]; intros [= <- <-]; eauto.
Qed.

(** A successful fetch leaves the attribute set. *)
Lemma get_job_description_from_url_sets url (s0 s : Sys LLMResumer) :
  get_job_description_from_url E url s0 = (Ok tt, s) ->
  is_Some (job_description (obj s)).
Proof.
  rewrite get_job_description_from_url_blocks. intros H.
  apply bind_inv in H as [(c & s1 & _ & H)|(e & _ & [=])].
  unfold run_chain in H.
  apply bind_inv in H as [(result & s2 & _ & H)|(e & _ & [=])].
  injection H as <-. cbn. eauto.
Qed.

(** C1. As long as [job_description] has not been assigned, each of
    [_extract_information], [extract_company_name], [extract_role],
    [extract_location], [extract_recruiter_email] and [extract_all_details]
    raises the [ValueError] "Job description not found. Please run
    get_job_description_from_url first." and changes nothing; once the
    attribute is set, as it is after every successful
    [get_job_description_from_url], none of them raises a [ValueError]. *)
Theorem extraction_needs_the_summary (s : Sys LLMResumer) :
  (job_description (obj s) = None ->
     (forall q, _extract_information E q s = (Raise precondition_error, s))
     /\ extract_company_name E s = (Raise precondition_error, s)
     /\ extract_role E s = (Raise precondition_error, s)
     /\ extract_location E s = (Raise precondition_error, s)
     /\ extract_recruiter_email E s = (Raise precondition_error, s)
     /\ extract_all_details E s = (Raise precondition_error, s))
  /\ (is_Some (job_description (obj s)) ->
      forall msg,
        (forall q, fst (_extract_information E q s) <> Raise (ValueError msg))
        /\ fst (extract_company_name E s) <> Raise (ValueError msg)
        /\ fst (extract_role E s) <> Raise (ValueError msg)
        /\ fst (extract_location E s) <> Raise (ValueError msg)
        /\ fst (extract_recruiter_email E s) <> Raise (ValueError msg)
        /\ fst (extract_all_details E s) <> Raise (ValueError msg))
  /\ (forall url s0,
        get_job_description_from_url E url s0 = (Ok tt, s) ->
        is_Some (job_description (obj s))).
Proof.
  split; [|split].
  - intros Hnone.
    assert (Hq : forall q, _extract_information E q s = (Raise precondition_error, s)).
    { intros q. now rewrite _extract_information_run, Hnone. }
    repeat split; try apply Hq.
    unfold extract_all_details, extract_company_name.
    erewrite bind_raise; [reflexivity|apply Hq].
  - intros [jd Hjd] msg.
    pose (fine := fun (A : Type) (r : res A) =>
            match r with Raise (ValueError _) => False | _ => True end).
    assert (Hfine : forall A (r : res A), fine A r -> r <> Raise (ValueError msg)).
    { intros A r Hr ->. exact Hr. }
    assert (Hq : forall q s1, job_description (obj s1) = Some jd ->
              fine _ (fst (_extract_information E q s1))).
    { intros q s1 H1. destruct (_extract_information E q s1) as [r s'] eqn:Er.
      destruct (_extract_information_populated _ _ _ _ _ H1 Er)
        as (_ & [(a & _ & ->)|(info & ->)]); exact I. }
    assert (Hstep : forall A q (k : pystr -> M LLMResumer A) s1,
              job_description (obj s1) = Some jd ->
              (forall v s2, job_description (obj s2) = Some jd -> fine _ (fst (k v s2))) ->
              fine _ (fst (bind (_extract_information E q) k s1))).
    { intros A q k s1 H1 Hk. unfold bind.
      destruct (_extract_information E q s1) as [r s'] eqn:Er.
      destruct (_extract_information_populated _ _ _ _ _ H1 Er)
        as (-> & [(a & _ & ->)|(info & ->)]); [|exact I].
      apply Hk. exact H1. }
    repeat split; try (intros; apply Hfine, Hq; exact Hjd).
    apply Hfine.
    unfold extract_all_details, extract_company_name, extract_role,
      extract_location, extract_recruiter_email.
    apply Hstep; [exact Hjd|intros v1 s1 H1].
    apply Hstep; [exact H1|intros v2 s2 H2].
    apply Hstep; [exact H2|intros v3 s3 H3].
    apply Hstep; [exact H3|intros v4 s4 H4].
    exact I.
  - intros url s0. apply get_job_description_from_url_sets.
Qed.

(** C5. When [extract_all_details] returns, it has asked the model the four
    questions one after the other, each time about the cached
    [job_description], and nothing else; the dictionary it returns has
    exactly the keys [company_name], [role], [location] and
    [recruiter_email], and each value is the model's answer to the
    corresponding question with leading and trailing whitespace removed. *)
Theorem extract_all_details_returns (s : Sys LLMResumer)
    (details : gmap pystr pystr) (s' : Sys LLMResumer) :
  extract_all_details E s = (Ok details, s') ->
  exists jd a1 a2 a3 a4,
    let ask q := StringPromptValue (extract_text jd q) in
    let t0 := the_trace s in
    job_description (obj s) = Some jd
    /\ model_reply E t0 (ask q_company) = Reply a1
    /\ model_reply E (t0 ++ [EvModel (ask q_company)]) (ask q_role) = Reply a2
    /\ model_reply E (t0 ++ [EvModel (ask q_company); EvModel (ask q_role)])
         (ask q_location) = Reply a3
    /\ model_reply E
         (t0 ++ [EvModel (ask q_company); EvModel (ask q_role);
                 EvModel (ask q_location)])
         (ask q_email) = Reply a4
    /\ the_trace s'
       = t0 ++ [EvModel (ask q_company); EvModel (ask q_role);
                EvModel (ask q_location); EvModel (ask q_email)]
    /\ obj s' = obj s
    /\ dom details
       = {[ py "company_name"; py "role"; py "location"; py "recruiter_email" ]}
    /\ details !! py "company_name" = Some (strip a1)
    /\ details !! py "role" = Some (strip a2)
    /\ details !! py "location" = Some (strip a3)
    /\ details !! py "recruiter_email" = Some (strip a4)
    /\ trimmed_from a1 (strip a1) /\ trimmed_from a2 (strip a2)
    /\ trimmed_from a3 (strip a3) /\ trimmed_from a4 (strip a4).
Proof.
  unfold extract_all_details, extract_company_name, extract_role,
    extract_location, extract_recruiter_email.
  fold q_company q_role q_location q_email.
  intros H.
  destruct (job_description (obj s)) as [jd|] eqn:Hjd.
  2:{ unfold bind in H. rewrite _extract_information_run, Hjd in H. discriminate. }
  apply bind_inv in H as [(v1 & s1 & H1 & H)|(e & _ & [=])].
  eapply _extract_information_populated in H1; [|exact Hjd].
  destruct H1 as (-> & [(a1 & R1 & [= ->])|(info & [=])]).
  apply bind_inv in H as [(v2 & s2 & H2 & H)|(e & _ & [=])].
  eapply _extract_information_populated in H2; [|exact Hjd].
  destruct H2 as (-> & [(a2 & R2 & [= ->])|(info & [=])]).
  apply bind_inv in H as [(v3 & s3 & H3 & H)|(e & _ & [=])].
  eapply _extract_information_populated in H3; [|exact Hjd].
  destruct H3 as (-> & [(a3 & R3 & [= ->])|(info & [=])]).
  apply bind_inv in H as [(v4 & s4 & H4 & H)|(e & _ & [=])].
  eapply _extract_information_populated in H4; [|exact Hjd].
  destruct H4 as (-> & [(a4 & R4 & [= ->])|(info & [=])]).
  injection H as <- <-.
  exists jd, a1, a2, a3, a4. cbv zeta.
  unfold the_trace in *. cbn [log world trace obj] in *.
  rewrite <- !app_assoc in *. cbn [app] in *.
  repeat apply conj; try assumption; try apply strip_spec; reflexivity.
Qed.
End Extraction.

(** ** Fetching: the blocks of [get_job_description_from_url] *)

Section Fetch_blocks.
Variable E : Env.
Import JobParser.

(** Lines 58-64, case by case. *)
Lemma fetch_page_run (url : pystr) (s : Sys LLMResumer) :
  fetch_page E url s
  = let h := next_session (world s) in
    match create_driver_selenium_reply E (the_trace s) with
    | Fault info => (Raise (CollaboratorError Browser info), log EvCreateDriver s)
    | Reply _ =>
        let s1 := open_session s in
        match get_reply E (the_trace s1) url with
        | Fault info => (Raise (CollaboratorError Browser info), log (EvGet h url) s1)
        | Reply _ =>
            let s2 := log (EvSleep 3) (log (EvGet h url) s1) in
            let find := EvFindElement h (py "tag name") (py "body") in
            match find_element_reply E (the_trace s2) with
            | Fault info => (Raise (CollaboratorError Browser info), log find s2)
            | Reply _ =>
                let s3 := log find s2 in
                let attr := EvGetAttribute h (py "outerHTML") in
                match get_attribute_reply E (the_trace s3) with
                | Fault info => (Raise (CollaboratorError Browser info), log attr s3)
                | Reply response => (Ok response, close_session h (log attr s3))
                end
            end
        end
    end.
Proof.
  unfold fetch_page, create_driver_selenium, driver_get, time_sleep,
    driver_find_element, get_attribute, driver_quit.
  unfold bind, ask, emit, ret, the_trace. cbv beta iota zeta.
  destruct (create_driver_selenium_reply E _); [|reflexivity]. cbv beta iota zeta.
  destruct (get_reply E _ _); [|reflexivity]. cbv beta iota zeta.
  destruct (find_element_reply E _); [|reflexivity]. cbv beta iota zeta.
  now destruct (get_attribute_reply E _).
Qed.

(** Lines 65-72, case by case. The file is closed whether the write went
    through or not, and an error on closing is the one that is raised. *)
Lemma load_text_run (response : pystr) (s : Sys LLMResumer) :
  load_text E response s
  = match tempfile_reply E (the_trace s) with
    | Fault info => (Raise (CollaboratorError TempFiles info), log EvTempFile s)
    | Reply p =>
        let s1 := create_file p s in
        let s2 := log (EvClose p) (log (EvWrite p response) s1) in
        let closing := write_reply E (the_trace s1 ++ [EvWrite p response]) p [] in
        match write_reply E (the_trace s1) p response with
        | Fault info =>
            (Raise (CollaboratorError TempFiles
                      match closing with
                      | Reply _ => info
                      | Fault late => late
                      end), s2)
        | Reply _ =>
            match closing with
            | Fault info => (Raise (CollaboratorError TempFiles info), s2)
            | Reply _ =>
                let s3 := delete_file p (log (EvLoad p) s2) in
                match load_reply E (the_trace s2) p with
                | Fault info => (Raise (CollaboratorError Loader info), s3)
                | Reply document => (Ok document, s3)
                end
            end
        end
    end.
Proof.
  unfold load_text, with_NamedTemporaryFile, NamedTemporaryFile, file_write,
    file_close, TextLoader_load, os_remove, try_finally.
  unfold bind, ask, ret, the_trace. cbv beta iota zeta.
  destruct (tempfile_reply E _) as [p|info]; [|reflexivity]. cbv beta iota zeta.
  change (trace (world (log (EvWrite p response) (create_file p s))))
    with (trace (world (create_file p s)) ++ [EvWrite p response]).
  destruct (write_reply E (trace (world (create_file p s))) p response) as [u|info];
    cbv beta iota zeta.
  2:{ now destruct (write_reply E _ p []). }
  destruct (write_reply E _ p []) as [u'|info]; [|reflexivity].
  cbv beta iota zeta.
  assert (Hin : p ∈ disk (world
            (log (EvLoad p) (log (EvClose p) (log (EvWrite p response) (create_file p s)))))).
  { cbn [log create_file world disk]. apply elem_of_union_l. now apply elem_of_singleton. }
  destruct (load_reply E _ _); cbv beta iota zeta;
    now rewrite decide_True by exact Hin.
Qed.

(** Lines 73-94, case by case. *)
Lemma build_chain_run (document : list Document) (s : Sys LLMResumer) :
  build_chain E document s
  = let all_splits := split_documents E text_splitter document in
    let s1 := log (EvEmbed all_splits) s in
    match embed_reply E (the_trace s) all_splits with
    | Fault info => (Raise (CollaboratorError Embeddings info), s1)
    | Reply _ =>
        match from_template_reply E
                (dedent E (summarize_prompt_template (strings (obj s)))) with
        | Fault info => (Raise (CollaboratorError PromptParser info), s1)
        | Reply ps => (Ok (mkVectorStore all_splits, ps), s1)
        end
    end.
Proof.
  unfold build_chain, FAISS_from_documents, get_strings,
    ChatPromptTemplate_from_template, _preprocess_template_string.
  unfold bind, ask, ret, the_trace. cbv beta iota zeta.
  destruct (embed_reply E _ _); [|reflexivity]. cbv beta iota zeta.
  cbn [log obj]. now destruct (from_template_reply E _).
Qed.

(** Lines 95-105, case by case. *)
Lemma run_chain_run (chain : VectorStore * list seg) (s : Sys LLMResumer) :
  run_chain E chain s
  = match qa_chain E (fst chain) (snd chain) (py "Provide, full job description") s with
    | (Ok result, s1) => (Ok tt, with_cache (Some result) s1)
    | (Raise e, s1) => (Raise e, s1)
    end.
Proof.
  unfold run_chain, bind, set_job_description, with_cache.
  now destruct (qa_chain E _ _ _ s) as [[result|e] s1].
Qed.

(** Which parts of the state each block leaves alone. *)
Lemma fetch_page_keeps_disk url : keeps the_disk (fetch_page E url).
Proof.
  unfold fetch_page, driver_get, time_sleep, driver_find_element, get_attribute.
  keeps_steps.
Qed.

Lemma load_text_keeps_sessions response : keeps the_sessions (load_text E response).
Proof.
  unfold load_text, with_NamedTemporaryFile, file_write, file_close, TextLoader_load.
  keeps_steps.
Qed.

Lemma build_chain_keeps_world {X} (f : Sys LLMResumer -> X) `{!Untraced f} document :
  keeps f (build_chain E document).
Proof.
  intros s. rewrite build_chain_run. cbv zeta.
  destruct (embed_reply E _ _); [destruct (from_template_reply E _)|]; apply untraced.
Qed.

Lemma qa_chain_keeps_world {X} (f : Sys LLMResumer -> X) `{!Untraced f} vs ps q :
  keeps f (qa_chain E vs ps q).
Proof.
  unfold qa_chain, context_formatter, retriever, chain_job_description,
    chain_summarize, llm_cheap.
  keeps_steps.
Qed.

Lemma run_chain_keeps_sessions chain : keeps the_sessions (run_chain E chain).
Proof.
  intros s. rewrite run_chain_run.
  pose proof (qa_chain_keeps_world the_sessions (fst chain) (snd chain)
                (py "Provide, full job description") s) as H.
  now destruct (qa_chain E _ _ _ s) as [[result|e] s1].
Qed.

Lemma run_chain_keeps_disk chain : keeps the_disk (run_chain E chain).
Proof.
  intros s. rewrite run_chain_run.
  pose proof (qa_chain_keeps_world the_disk (fst chain) (snd chain)
                (py "Provide, full job description") s) as H.
  now destruct (qa_chain E _ _ _ s) as [[result|e] s1].
Qed.

(** After the page has been read: lines 65-105. *)
Lemma after_page_keeps_sessions response :
  keeps the_sessions
    (bind (bind (load_text E response) (build_chain E)) (run_chain E)).
Proof.
  apply keeps_bind; [apply keeps_bind|].
  - apply load_text_keeps_sessions.
  - intros document. apply build_chain_keeps_world, _.
  - intros chain. apply run_chain_keeps_sessions.
Qed.

(** After the temporary file has been dealt with: lines 73-105. *)
Lemma after_load_keeps_disk document :
  keeps the_disk (bind (build_chain E document) (run_chain E)).
Proof.
  apply keeps_bind.
  - apply build_chain_keeps_world, _.
  - intros chain. apply run_chain_keeps_disk.
Qed.

(** The whole method as page, then file, then the rest. *)
Lemma get_job_description_from_url_steps (url : pystr) (s : Sys LLMResumer) :
  get_job_description_from_url E url s
  = bind (fetch_page E url)
      (fun response =>
         bind (load_text E response)
           (fun document => bind (build_chain E document) (run_chain E))) s.
Proof.
  rewrite get_job_description_from_url_blocks. unfold before_chain.
  rewrite bind_assoc. apply bind_ext. intros response s1.
  now rewrite bind_assoc.
Qed.
End Fetch_blocks.

(** ** Fetching: the summary and its cache *)

Section Fetch_summary.
Variable E : Env.
Import JobParser.

Let q := py "Provide, full job description".

Lemma model_calls_app (t u : list event) :
  model_calls (t ++ u) = model_calls t ++ model_calls u.
Proof.
  induction t as [|ev t IH]; [reflexivity|].
  destruct ev; cbn [app model_calls]; rewrite IH; reflexivity.
Qed.

(** What is known once lines 58-94 have gone through: the instance is
    untouched, the model has not been asked anything, the index holds the
    token windows of what the loader read, and the second-stage template is
    the caller's, dedented and parsed. *)
Lemma before_chain_ok url (s : Sys LLMResumer) vs ps s1 :
  before_chain E url s = (Ok (vs, ps), s1) ->
  obj s1 = obj s
  /\ model_calls (the_trace s1) = model_calls (the_trace s)
  /\ (exists document, docstore vs = split_documents E text_splitter document)
  /\ from_template_reply E (dedent E (summarize_prompt_template (strings (obj s))))
     = Reply ps.
Proof.
  intros H. pose proof (before_chain_keeps_obj E url s) as Hobj.
  rewrite H in Hobj. cbn [snd] in Hobj. split; [exact Hobj|].
  unfold before_chain in H.
  apply bind_inv in H as [(response & sa & Ha & H)|(e & _ & [=])].
  apply bind_inv in H as [(document & sb & Hb & H)|(e & _ & [=])].
  pose proof (fetch_page_keeps_obj E url s) as Hoa. rewrite Ha in Hoa.
  pose proof (load_text_keeps_obj E response sa) as Hob. rewrite Hb in Hob.
  cbn [snd] in Hoa, Hob.
  rewrite build_chain_run in H. cbv zeta in H.
  destruct (embed_reply E _ _); [|discriminate].
  rewrite Hob, Hoa in H.
  destruct (from_template_reply E _) as [ps'|]; [|discriminate].
  injection H as <- <- <-.
  split; [|split; [eexists; reflexivity|reflexivity]].
  rewrite fetch_page_run in Ha. cbv zeta in Ha.
  destruct (create_driver_selenium_reply E _); [|discriminate].
  destruct (get_reply E _ _); [|discriminate].
  destruct (find_element_reply E _); [|discriminate].
  destruct (get_attribute_reply E _); [|discriminate].
  injection Ha as <- <-.
  rewrite load_text_run in Hb. cbv zeta in Hb.
  destruct (tempfile_reply E _) as [p|]; [|discriminate].
  destruct (write_reply E (the_trace (create_file p _)) p _); [|discriminate].
  destruct (write_reply E _ p []); [|discriminate].
  destruct (load_reply E _ _); [|discriminate].
  injection Hb as <- <-.
  unfold the_trace. cbn [log world trace close_session open_session create_file
                         delete_file].
  rewrite !model_calls_app. cbn [model_calls]. now rewrite !app_nil_r.
Qed.

(** A fetch that returns has run both stages, in order, and stored the
    answer of the second. *)
Lemma get_job_description_from_url_ok url (s s' : Sys LLMResumer) :
  get_job_description_from_url E url s = (Ok tt, s') ->
  exists vs ps s1 docs o1 t2 o2,
    let p1 := StringPromptValue (stage1_text q (format_docs docs)) in
    let p2 := ChatPromptValue [HumanMessage t2] in
    before_chain E url s = (Ok (vs, ps), s1)
    /\ retrieve_reply E (the_trace s1) (docstore vs) q = Reply docs
    /\ model_reply E (the_trace s1 ++ [EvRetrieve q]) p1 = Reply o1
    /\ format_template ps (<[py "text" := o1]> ∅) = Ok t2
    /\ model_reply E (the_trace s1 ++ [EvRetrieve q; EvModel p1]) p2 = Reply o2
    /\ s' = with_cache (Some o2)
              (log (EvModel p2) (log (EvModel p1) (log (EvRetrieve q) s1))).
Proof.
  rewrite get_job_description_from_url_blocks. intros H.
  apply bind_inv in H as [([vs ps] & s1 & H1 & H)|(e & _ & [=])].
  rewrite run_chain_run, qa_chain_run in H. cbn [fst snd] in H. cbv zeta in H.
  fold q in H.
  destruct (retrieve_reply E _ _ _) as [docs|] eqn:Hr; [|discriminate].
  destruct (model_reply E _ _) as [o1|] eqn:Ho1; [|discriminate].
  destruct (format_template ps _) as [t2|] eqn:Hf; [|discriminate].
  destruct (model_reply E (the_trace (log (EvModel _) _)) _) as [o2|] eqn:Ho2;
    [|discriminate].
  injection H as <-.
  exists vs, ps, s1, docs, o1, t2, o2. cbv zeta.
  unfold the_trace in *. cbn [log world trace] in *.
  rewrite <- app_assoc in Ho2. cbn [app] in Ho2.
  repeat apply conj; try assumption; reflexivity.
Qed.

(** Nothing before the last line reads or writes the cache. *)
Lemma ignores_cache_bind {A B} (m : M LLMResumer A) (k : A -> M LLMResumer B) :
  ignores_cache m -> (forall a, ignores_cache (k a)) -> ignores_cache (bind m k).
Proof.
  intros Hm Hk c s. unfold bind. rewrite Hm.
  destruct (m s) as [[a|e] s1]; cbn [fst snd]; [apply Hk|reflexivity].
Qed.

Lemma ignores_cache_try_finally {A} (body : M LLMResumer A) cleanup :
  ignores_cache body -> ignores_cache cleanup ->
  ignores_cache (try_finally body cleanup).
Proof.
  intros Hb Hc c s. unfold try_finally. rewrite Hb.
  destruct (body s) as [r s1]. cbn [fst snd]. rewrite Hc.
  now destruct (cleanup s1) as [[u|e] s2].
Qed.

Lemma ignores_cache_ask {A} who ev (o : list event -> reply A) :
  ignores_cache (ask who ev o).
Proof. intros c s. unfold ask. cbn [with_cache world]. now destruct (o _). Qed.

Lemma ignores_cache_pure {A} (r : res A) : ignores_cache (lift r).
Proof. now intros c s. Qed.

Lemma ignores_cache_emit ev : ignores_cache (emit ev).
Proof. now intros c s. Qed.

Lemma before_chain_ignores_cache url : ignores_cache (before_chain E url).
Proof.
  unfold before_chain, fetch_page, load_text, build_chain, with_NamedTemporaryFile,
    driver_get, time_sleep, driver_find_element, get_attribute, file_write,
    file_close, TextLoader_load, FAISS_from_documents.
  repeat first
    [ apply ignores_cache_bind; [|intros ?]
    | apply ignores_cache_try_finally
    | apply ignores_cache_ask
    | apply ignores_cache_emit
    | apply (ignores_cache_pure (Ok _)) ].
  - intros c s. unfold create_driver_selenium. cbn [with_cache world].
    now destruct (create_driver_selenium_reply E _).
  - now intros c s.
  - intros c s. unfold NamedTemporaryFile. cbn [with_cache world].
    now destruct (tempfile_reply E _).
  - intros c s. unfold os_remove. cbn [with_cache world].
    now destruct (decide _).
  - now intros c s.
  - intros c s. unfold ChatPromptTemplate_from_template.
    now destruct (from_template_reply E _).
Qed.

Lemma qa_chain_ignores_cache vs ps input : ignores_cache (qa_chain E vs ps input).
Proof.
  unfold qa_chain, context_formatter, retriever, chain_job_description,
    chain_summarize, llm_cheap.
  repeat first
    [ apply ignores_cache_bind; [|intros ?]
    | apply ignores_cache_ask
    | apply ignores_cache_pure
    | apply (ignores_cache_pure (Ok _)) ].
Qed.

(** C2. Once the chain has been built: when the model call of the first
    stage raises, or the first stage answers and the model call of the
    second stage raises, [get_job_description_from_url] raises that same
    error and [job_description] is what it was before the call. More
    generally no failing call changes [job_description], and the attribute
    changes only in a call that returns, after both model calls have
    answered. *)
Theorem summarize_failure_keeps_cache (url : pystr) (s : Sys LLMResumer) :
  (forall vs ps s1 docs,
     before_chain E url s = (Ok (vs, ps), s1) ->
     retrieve_reply E (the_trace s1) (docstore vs) q = Reply docs ->
     let p1 := StringPromptValue (stage1_text q (format_docs docs)) in
     (forall info,
        model_reply E (the_trace s1 ++ [EvRetrieve q]) p1 = Fault info ->
        exists s',
          get_job_description_from_url E url s
          = (Raise (CollaboratorError ChatModel info), s')
          /\ job_description (obj s') = job_description (obj s))
     /\ (forall o1 t2 info,
           model_reply E (the_trace s1 ++ [EvRetrieve q]) p1 = Reply o1 ->
           format_template ps (<[py "text" := o1]> ∅) = Ok t2 ->
           model_reply E (the_trace s1 ++ [EvRetrieve q; EvModel p1])
             (ChatPromptValue [HumanMessage t2]) = Fault info ->
           exists s',
             get_job_description_from_url E url s
             = (Raise (CollaboratorError ChatModel info), s')
             /\ job_description (obj s') = job_description (obj s)))
  /\ (forall e s',
        get_job_description_from_url E url s = (Raise e, s') ->
        job_description (obj s') = job_description (obj s))
  /\ (forall r s',
        get_job_description_from_url E url s = (r, s') ->
        job_description (obj s') <> job_description (obj s) ->
        r = Ok tt
        /\ exists t p1 p2 o1 o2,
             the_trace s' = t ++ [EvModel p1; EvModel p2]
             /\ model_reply E t p1 = Reply o1
             /\ model_reply E (t ++ [EvModel p1]) p2 = Reply o2
             /\ job_description (obj s') = Some o2).
Proof.
  assert (Hfail : forall e s',
            get_job_description_from_url E url s = (Raise e, s') ->
            job_description (obj s') = job_description (obj s)).
  { intros e s'. rewrite get_job_description_from_url_blocks. intros H.
    apply bind_inv in H as [(c & s1 & H1 & H)|(e' & H1 & _)].
    - pose proof (before_chain_keeps_obj E url s) as Hb. rewrite H1 in Hb.
      rewrite run_chain_run in H.
      pose proof (qa_chain_keeps_obj E (fst c) (snd c) q s1) as Hq.
      fold q in H. destruct (qa_chain E _ _ q s1) as [[result|e'] s2]; [discriminate|].
      injection H as _ <-. cbn [snd] in *. congruence.
    - pose proof (before_chain_keeps_obj E url s) as Hb. rewrite H1 in Hb.
      cbn [snd] in Hb. congruence. }
  split; [|split; [exact Hfail|]].
  - intros vs ps s1 docs Hb Hr p1. split.
    + intros info Hm.
      destruct (get_job_description_from_url E url s) as [r s'] eqn:Hrun.
      assert (r = Raise (CollaboratorError ChatModel info)) as ->.
      { rewrite get_job_description_from_url_blocks in Hrun.
        rewrite (bind_ok _ _ _ _ _ Hb), run_chain_run, qa_chain_run in Hrun.
        cbn [fst snd] in Hrun. fold q in Hrun. rewrite Hr in Hrun. cbv zeta in Hrun.
        change (the_trace (log (EvRetrieve q) s1))
          with (the_trace s1 ++ [EvRetrieve q]) in Hrun.
        fold p1 in Hrun. rewrite Hm in Hrun. now injection Hrun as <- _. }
      exists s'. split; [reflexivity|]. eapply Hfail. reflexivity.
    + intros o1 t2 info Hm1 Hf Hm2.
      destruct (get_job_description_from_url E url s) as [r s'] eqn:Hrun.
      assert (r = Raise (CollaboratorError ChatModel info)) as ->.
      { rewrite get_job_description_from_url_blocks in Hrun.
        rewrite (bind_ok _ _ _ _ _ Hb), run_chain_run, qa_chain_run in Hrun.
        cbn [fst snd] in Hrun. fold q in Hrun. rewrite Hr in Hrun. cbv zeta in Hrun.
        change (the_trace (log (EvRetrieve q) s1))
          with (the_trace s1 ++ [EvRetrieve q]) in Hrun.
        fold p1 in Hrun. rewrite Hm1, Hf in Hrun.
        change (the_trace (log (EvModel p1) (log (EvRetrieve q) s1)))
          with ((the_trace s1 ++ [EvRetrieve q]) ++ [EvModel p1]) in Hrun.
        rewrite <- app_assoc in Hrun. cbn [app] in Hrun.
        rewrite Hm2 in Hrun. now injection Hrun as <- _. }
      exists s'. split; [reflexivity|]. eapply Hfail. reflexivity.
  - intros r s' Hrun Hne. destruct r as [[]|e].
    2:{ exfalso. apply Hne. eapply Hfail. exact Hrun. }
    split; [reflexivity|].
    apply get_job_description_from_url_ok in Hrun
      as (vs & ps & s1 & docs & o1 & t2 & o2 & _ & _ & H1 & _ & H2 & ->).
    exists (the_trace s1 ++ [EvRetrieve q]),
      (StringPromptValue (stage1_text q (format_docs docs))),
      (ChatPromptValue [HumanMessage t2]), o1, o2.
    repeat apply conj.
    + unfold the_trace. cbn [with_cache log world trace].
      now rewrite <- !app_assoc.
    + exact H1.
    + rewrite <- app_assoc. exact H2.
    + reflexivity.
Qed.

(** C6. A fetch that returns has evaluated exactly two prompts, one after
    the other: the first-stage prompt, filled with the question "Provide,
    full job description" and the context built from the retrieved chunks,
    and then the caller's summarization template, whose only binding is
    [text], bound to the first answer (so [{text}] is the only field the
    template can have). [job_description] ends up equal to the second
    answer. *)
Theorem summary_is_two_stages (url : pystr) (s s' : Sys LLMResumer) :
  get_job_description_from_url E url s = (Ok tt, s') ->
  exists vs ps s1 docs o1 t2 o2,
    let p1 := StringPromptValue (stage1_text q (format_docs docs)) in
    let p2 := ChatPromptValue [HumanMessage t2] in
    before_chain E url s = (Ok (vs, ps), s1)
    /\ from_template_reply E (dedent E (summarize_prompt_template (strings (obj s))))
       = Reply ps
    /\ retrieve_reply E (the_trace s1) (docstore vs) q = Reply docs
    /\ model_reply E (the_trace s1 ++ [EvRetrieve q]) p1 = Reply o1
    /\ format_template ps (<[py "text" := o1]> ∅) = Ok t2
    /\ dom (<[py "text" := o1]> (∅ : gmap pystr pystr)) = {[ py "text" ]}
    /\ Forall (fun sg => forall x, sg = Var x -> x = py "text") ps
    /\ model_reply E (the_trace s1 ++ [EvRetrieve q; EvModel p1]) p2 = Reply o2
    /\ the_trace s' = the_trace s1 ++ [EvRetrieve q; EvModel p1; EvModel p2]
    /\ model_calls (the_trace s') = model_calls (the_trace s) ++ [p1; p2]
    /\ job_description (obj s') = Some o2.
Proof.
  intros H.
  apply get_job_description_from_url_ok in H
    as (vs & ps & s1 & docs & o1 & t2 & o2 & Hb & Hr & H1 & Hf & H2 & ->).
  destruct (before_chain_ok _ _ _ _ _ Hb) as (_ & Hcalls & _ & Hps).
  exists vs, ps, s1, docs, o1, t2, o2. cbv zeta.
  assert (Ht : the_trace
                 (with_cache (Some o2)
                    (log (EvModel (ChatPromptValue [HumanMessage t2]))
                       (log (EvModel (StringPromptValue
                                        (stage1_text q (format_docs docs))))
                          (log (EvRetrieve q) s1))))
               = the_trace s1
                   ++ [EvRetrieve q;
                       EvModel (StringPromptValue (stage1_text q (format_docs docs)));
                       EvModel (ChatPromptValue [HumanMessage t2])]).
  { unfold the_trace. cbn [with_cache log world trace].
    rewrite <- !app_assoc. reflexivity. }
  repeat apply conj; try assumption.
  - rewrite dom_insert_L, dom_empty_L. set_solver.
  - eapply TemplateFacts.format_single_binding. exact Hf.
  - rewrite Ht, model_calls_app, Hcalls. reflexivity.
  - reflexivity.
Qed.

(** C9. A fetch that returns stores the answer of its own last model call
    in [job_description], and it does so whatever the attribute held
    before: started with any other cached value, or with none, the same
    call returns and ends in the very same state. *)
Theorem refetch_overwrites (url : pystr) (s s' : Sys LLMResumer) :
  get_job_description_from_url E url s = (Ok tt, s') ->
  (exists t p2 o2,
     the_trace s' = t ++ [EvModel p2]
     /\ model_reply E t p2 = Reply o2
     /\ job_description (obj s') = Some o2)
  /\ (forall prior,
        get_job_description_from_url E url (with_cache prior s) = (Ok tt, s')).
Proof.
  intros H. split.
  - apply get_job_description_from_url_ok in H
      as (vs & ps & s1 & docs & o1 & t2 & o2 & _ & _ & _ & _ & H2 & ->).
    exists (the_trace s1
              ++ [EvRetrieve q;
                  EvModel (StringPromptValue (stage1_text q (format_docs docs)))]),
      (ChatPromptValue [HumanMessage t2]), o2.
    repeat apply conj; [|exact H2|reflexivity].
    unfold the_trace. cbn [with_cache log world trace].
    now rewrite <- !app_assoc.
  - intros prior. rewrite get_job_description_from_url_blocks in *.
    apply bind_inv in H as [(c & s1 & H1 & H)|(e & _ & [=])].
    unfold bind. rewrite before_chain_ignores_cache, H1. cbn [fst snd].
    rewrite run_chain_run in *. rewrite qa_chain_ignores_cache.
    destruct (qa_chain E _ _ _ s1) as [[result|e] s2]; [|discriminate].
    cbn [fst snd]. injection H as <-. reflexivity.
Qed.
End Fetch_summary.

(** ** Fetching: the browser session and the temporary file *)

Section Fetch_resources.
Variable E : Env.
Import JobParser.

Lemma after_page_grows response :
  grows (bind (load_text E response)
           (fun document => bind (build_chain E document) (run_chain E))).
Proof.
  unfold load_text, build_chain, run_chain, qa_chain, context_formatter, retriever,
    chain_job_description, chain_summarize, llm_cheap, with_NamedTemporaryFile,
    file_write, file_close, TextLoader_load, FAISS_from_documents.
  grows_steps.
  - intros s. exists []. cbn. now rewrite app_nil_r.
  - intros s. exists []. unfold ChatPromptTemplate_from_template.
    destruct (from_template_reply E _); cbn; now rewrite app_nil_r.
  - intros s. exists []. cbn. now rewrite app_nil_r.
Qed.

(** C3. The temporary file of [get_job_description_from_url], once the page
    has been read and the file created under the name [p]. When writing the
    response into it fails, the method raises (the error of the write, or
    that of closing the file if closing fails as well) and the file is still
    on disk afterwards. When the write returns but closing the file on the
    way out of the [with] block fails, the method raises that error and the
    file is still on disk afterwards. Only when the file has been written
    and closed is it gone afterwards, whether loading it and everything
    after succeed or not. *)
Theorem temp_file_after_fetch (url : pystr) (s : Sys LLMResumer)
    (response : pystr) (s1 : Sys LLMResumer) (p : pystr) :
  fetch_page E url s = (Ok response, s1) ->
  tempfile_reply E (the_trace s1) = Reply p ->
  let run := get_job_description_from_url E url s in
  let writing := write_reply E (the_trace s1 ++ [EvTempFile]) p response in
  let closing :=
    write_reply E (the_trace s1 ++ [EvTempFile; EvWrite p response]) p [] in
  (forall info,
     writing = Fault info ->
     (forall u, closing = Reply u ->
                fst run = Raise (CollaboratorError TempFiles info))
     /\ (forall late, closing = Fault late ->
                      fst run = Raise (CollaboratorError TempFiles late))
     /\ p ∈ the_disk (snd run))
  /\ (forall u late,
        writing = Reply u -> closing = Fault late ->
        fst run = Raise (CollaboratorError TempFiles late)
        /\ p ∈ the_disk (snd run))
  /\ (forall u u',
        writing = Reply u -> closing = Reply u' ->
        p ∉ the_disk (snd run)).
Proof.
  intros Hpage Htmp run writing closing.
  assert (Hrun : run
                 = bind (load_text E response)
                     (fun document => bind (build_chain E document) (run_chain E)) s1).
  { unfold run. rewrite get_job_description_from_url_steps.
    now rewrite (bind_ok _ _ _ _ _ Hpage). }
  rewrite Hrun.
  assert (Hload := load_text_run E response s1).
  rewrite Htmp in Hload. cbv zeta in Hload.
  change (the_trace (create_file p s1)) with (the_trace s1 ++ [EvTempFile]) in Hload.
  rewrite <- app_assoc in Hload. cbn [app] in Hload.
  fold writing closing in Hload.
  assert (Hstays : p ∈ the_disk (log (EvClose p) (log (EvWrite p response)
                                                    (create_file p s1)))).
  { unfold the_disk. cbn [log create_file world disk].
    apply elem_of_union_l. now apply elem_of_singleton. }
  repeat apply conj.
  - intros info Hw. rewrite Hw in Hload.
    rewrite (bind_raise _ _ _ _ _ Hload). cbn [fst snd].
    repeat apply conj; [| |exact Hstays].
    + now intros u ->.
    + now intros late ->.
  - intros u late Hw Hc. rewrite Hw, Hc in Hload.
    rewrite (bind_raise _ _ _ _ _ Hload). cbn [fst snd]. now split.
  - intros u u' Hw Hc. rewrite Hw, Hc in Hload.
    destruct (load_reply E _ _) as [document|info].
    + rewrite (bind_ok _ _ _ _ _ Hload), after_load_keeps_disk.
      unfold the_disk. cbn [delete_file log create_file world disk].
      intros [_ Hn]%elem_of_difference. apply Hn. now apply elem_of_singleton.
    + rewrite (bind_raise _ _ _ _ _ Hload). cbn [snd].
      unfold the_disk. cbn [delete_file log create_file world disk].
      intros [_ Hn]%elem_of_difference. apply Hn. now apply elem_of_singleton.
Qed.

(** C4 as amended. With a session [h] created at the start: when loading
    the page, finding the body and reading its markup all succeed, the
    session is quit, and it is no longer live when the method returns or
    raises, whatever the later steps do; when one of the three raises, the
    method raises that error at once and the session is still live. *)
Theorem session_quit_once_page_is_read (url : pystr) (s : Sys LLMResumer) :
  let h := next_session (world s) in
  let t := the_trace s in
  let find := EvFindElement h (py "tag name") (py "body") in
  let attr := EvGetAttribute h (py "outerHTML") in
  let run := get_job_description_from_url E url s in
  create_driver_selenium_reply E t = Reply tt ->
  (forall response,
     get_reply E (t ++ [EvCreateDriver]) url = Reply tt ->
     find_element_reply E (t ++ [EvCreateDriver; EvGet h url; EvSleep 3]) = Reply tt ->
     get_attribute_reply E (t ++ [EvCreateDriver; EvGet h url; EvSleep 3; find])
     = Reply response ->
     (h ∉ the_sessions (snd run))
     /\ exists rest,
          the_trace (snd run)
          = t ++ ([EvCreateDriver; EvGet h url; EvSleep 3; find; attr; EvQuit h] ++ rest))
  /\ (forall info,
        get_reply E (t ++ [EvCreateDriver]) url = Fault info ->
        fst run = Raise (CollaboratorError Browser info)
        /\ h ∈ the_sessions (snd run)
        /\ the_trace (snd run) = t ++ [EvCreateDriver; EvGet h url])
  /\ (forall info,
        get_reply E (t ++ [EvCreateDriver]) url = Reply tt ->
        find_element_reply E (t ++ [EvCreateDriver; EvGet h url; EvSleep 3])
        = Fault info ->
        fst run = Raise (CollaboratorError Browser info)
        /\ h ∈ the_sessions (snd run)
        /\ the_trace (snd run) = t ++ [EvCreateDriver; EvGet h url; EvSleep 3; find])
  /\ (forall info,
        get_reply E (t ++ [EvCreateDriver]) url = Reply tt ->
        find_element_reply E (t ++ [EvCreateDriver; EvGet h url; EvSleep 3]) = Reply tt ->
        get_attribute_reply E (t ++ [EvCreateDriver; EvGet h url; EvSleep 3; find])
        = Fault info ->
        fst run = Raise (CollaboratorError Browser info)
        /\ h ∈ the_sessions (snd run)
        /\ the_trace (snd run)
           = t ++ [EvCreateDriver; EvGet h url; EvSleep 3; find; attr]).
Proof.
  intros h t find attr run Hcreate.
  assert (Hpage := fetch_page_run E url s). cbv zeta in Hpage.
  fold t h in Hpage. rewrite Hcreate in Hpage.
  change (the_trace (open_session s)) with (t ++ [EvCreateDriver]) in Hpage.
  assert (Ht2 : the_trace (log (EvSleep 3) (log (EvGet h url) (open_session s)))
                = t ++ [EvCreateDriver; EvGet h url; EvSleep 3]).
  { unfold the_trace, t. cbn [log open_session world trace].
    now rewrite <- !app_assoc. }
  assert (Ht3 : the_trace (log find (log (EvSleep 3) (log (EvGet h url) (open_session s))))
                = t ++ [EvCreateDriver; EvGet h url; EvSleep 3; find]).
  { unfold the_trace, t. cbn [log open_session world trace].
    now rewrite <- !app_assoc. }
  fold find attr in Hpage. rewrite Ht2, Ht3 in Hpage.
  unfold run. rewrite get_job_description_from_url_steps.
  split; [|split; [|split]].
  - intros response Hg Hf Ha. rewrite Hg, Hf, Ha in Hpage.
    rewrite (bind_ok _ _ _ _ _ Hpage). cbv beta.
    set (s1 := close_session h _).
    split.
    + pose proof (after_page_keeps_sessions E response s1) as Hk.
      rewrite bind_assoc in Hk. rewrite Hk.
      unfold the_sessions, s1. cbn [close_session world sessions].
      intros [_ Hn]%elem_of_difference. apply Hn. now apply elem_of_singleton.
    + destruct (after_page_grows response s1) as [rest Hrest].
      exists rest. rewrite Hrest. unfold the_trace, s1, t.
      cbn [close_session log open_session world trace].
      now rewrite <- !app_assoc.
  - intros info Hg. rewrite Hg in Hpage.
    rewrite (bind_raise _ _ _ _ _ Hpage). cbn [fst snd].
    repeat apply conj; [reflexivity| |].
    + unfold the_sessions. cbn [log open_session world sessions].
      apply elem_of_union_l. now apply elem_of_singleton.
    + unfold the_trace, t. cbn [log open_session world trace]. now rewrite <- !app_assoc.
  - intros info Hg Hf. rewrite Hg, Hf in Hpage.
    rewrite (bind_raise _ _ _ _ _ Hpage). cbn [fst snd].
    repeat apply conj; [reflexivity| |].
    + unfold the_sessions. cbn [log open_session world sessions].
      apply elem_of_union_l. now apply elem_of_singleton.
    + unfold the_trace, t. cbn [log open_session world trace]. now rewrite <- !app_assoc.
  - intros info Hg Hf Ha. rewrite Hg, Hf, Ha in Hpage.
    rewrite (bind_raise _ _ _ _ _ Hpage). cbn [fst snd].
    repeat apply conj; [reflexivity| |].
    + unfold the_sessions. cbn [log open_session world sessions].
      apply elem_of_union_l. now apply elem_of_singleton.
    + unfold the_trace, t. cbn [log open_session world trace]. now rewrite <- !app_assoc.
Qed.
End Fetch_resources.

(** ** Token windows *)

Section Windows.
Variables (size step : nat).
Hypothesis step_pos : 0 < step.
Hypothesis step_le : step <= size.

(** Window [i] starts [i * step] tokens into the text; when a window is
    followed by another one, more than [size] tokens were left at its
    start; when it is the last one, at most [size] were. *)
Lemma windows_lookup (fuel : nat) (ids : list N) (i : nat) (c : list N) :
  length ids <= fuel ->
  windows fuel size step ids !! i = Some c ->
  c = take size (drop (i * step) ids)
  /\ i * step < length ids
  /\ (is_Some (windows fuel size step ids !! S i) -> size + i * step < length ids)
  /\ (windows fuel size step ids !! S i = None -> length ids <= size + i * step).
Proof.
  revert ids i. induction fuel as [|fuel IH]; intros ids i Hfuel Hi.
  - now destruct ids.
  - destruct ids as [|x ids]; [discriminate|].
    cbn [windows] in *. set (l := x :: ids) in *.
    assert (Hl : 0 < length l) by (cbn; lia).
    destruct i as [|i].
    + cbn [lookup list_lookup] in Hi. injection Hi as <-.
      cbn [Nat.mul drop Nat.add]. repeat apply conj; [reflexivity|lia| |].
      * destruct (Nat.leb_spec (length l) size) as [Hle|Hgt]; [|lia].
        intros [c' Hc']. discriminate.
      * destruct (Nat.leb_spec (length l) size) as [Hle|Hgt]; [lia|].
        intros Hnone. exfalso.
        assert (Hd : 0 < length (drop step l) <= fuel).
        { rewrite length_drop. lia. }
        destruct fuel as [|fuel']; [lia|].
        destruct (drop step l) as [|y rest]; [cbn in Hd; lia|discriminate].
    + change ((take size l :: (if length l <=? size then []
                               else windows fuel size step (drop step l))) !! S i)
        with ((if length l <=? size then []
               else windows fuel size step (drop step l)) !! i) in Hi.
      destruct (Nat.leb_spec (length l) size) as [Hle|Hgt]; [discriminate|].
      assert (Hfuel' : length (drop step l) <= fuel).
      { rewrite length_drop. lia. }
      destruct (IH _ _ Hfuel' Hi) as (Hc & Hlt & Hnext & Hlast).
      rewrite drop_drop in Hc. rewrite length_drop in Hlt, Hnext, Hlast.
      replace (S i * step) with (step + i * step) by lia.
      repeat apply conj; [exact Hc|lia| |].
      * intros Hs. apply Hnext in Hs. lia.
      * intros Hn. apply Hlast in Hn. lia.
Qed.


(** Fuel beyond the length of the text changes nothing. *)
Lemma windows_fuel (fuel fuel' : nat) (ids : list N) :
  length ids <= fuel -> length ids <= fuel' ->
  windows fuel size step ids = windows fuel' size step ids.
Proof.
  revert fuel' ids. induction fuel as [|fuel IH]; intros fuel' ids H H'.
  - destruct ids; [now destruct fuel'|cbn in H; lia].
  - destruct fuel' as [|fuel'].
    + destruct ids; [reflexivity|cbn in H'; lia].
    + destruct ids as [|x ids]; [reflexivity|].
      cbn [windows]. f_equal.
      destruct (length (x :: ids) <=? size); [reflexivity|].
      apply IH; rewrite length_drop; cbn [length] in *; lia.
Qed.
End Windows.

Section Chunking.
Import JobParser.

(** C7. The splitter is built with a chunk size of 500 and an overlap of 50,
    less than the chunk size. In the windows it cuts from any token
    sequence, window [i] starts 450 tokens after window [i - 1]; a window
    that is followed by another one has exactly 500 tokens, and its last 50
    tokens are the first 50 of the next one, which has more than 50; the
    last window runs to the end of the text and has between 1 and 500
    tokens. *)
Theorem chunks_overlap_by_fifty (ids : list N) :
  let chunks := split_text_on_tokens text_splitter ids in
  chunk_size text_splitter = 500
  /\ chunk_overlap text_splitter = 50
  /\ chunk_overlap text_splitter < chunk_size text_splitter
  /\ (forall i c c',
        chunks !! i = Some c -> chunks !! S i = Some c' ->
        c = take 500 (drop (i * 450) ids)
        /\ c' = take 500 (drop (S i * 450) ids)
        /\ length c = 500
        /\ 50 < length c' <= 500
        /\ drop 450 c = take 50 c')
  /\ (forall i c,
        chunks !! i = Some c -> chunks !! S i = None ->
        c = drop (i * 450) ids /\ 0 < length c <= 500).
Proof.
  cbv zeta. unfold split_text_on_tokens, text_splitter.
  cbn [chunk_size chunk_overlap]. change (500 - 50) with 450.
  repeat apply conj; [reflexivity|reflexivity|lia| |].
  - intros i c c' Hc Hc'.
    destruct (windows_lookup 500 450 ltac:(lia) ltac:(lia) _ ids i c (le_n _) Hc)
      as (-> & Hi & Hnext & _).
    destruct (windows_lookup 500 450 ltac:(lia) ltac:(lia) _ ids (S i) c' (le_n _) Hc')
      as (-> & Hi' & _ & _).
    specialize (Hnext (ex_intro _ _ Hc')).
    repeat apply conj; [reflexivity|reflexivity| | | |].
    + rewrite length_take, length_drop. lia.
    + rewrite length_take, length_drop. lia.
    + rewrite length_take, length_drop. lia.
    + replace (S i * 450) with (i * 450 + 450) by lia.
      rewrite <- drop_drop.
      rewrite take_take. change (50 `min` 500) with 50.
      now rewrite (take_drop_commute (drop (i * 450) ids) 50 450).
  - intros i c Hc Hnone.
    destruct (windows_lookup 500 450 ltac:(lia) ltac:(lia) _ ids i c (le_n _) Hc)
      as (-> & Hi & _ & Hlast).
    specialize (Hlast Hnone). split.
    + apply take_ge. rewrite length_drop. lia.
    + rewrite length_take, length_drop. lia.
Qed.
End Chunking.

(** ** The context handed to the first stage *)

Section Context.
Import JobParser.

Let sep : pystr := [0x0A%N; 0x0A%N].

(** C8. The context is the text of the retrieved chunks joined by a blank
    line, in the order retrieved: every chunk of the list sits in it once,
    at its own position, after the chunks before it (each followed by two
    newlines) and before the chunks after it (each preceded by two
    newlines); nothing is removed, so its length is the sum of the chunk
    lengths plus two per gap; and it is this string, for the list the
    retriever returned, that fills the [{context}] field of the first-stage
    prompt. *)
Theorem context_is_chunks_in_order :
  (forall before d after,
     format_docs (before ++ d :: after)
     = concat (map (fun x => page_content x ++ sep) before)
         ++ page_content d
         ++ concat (map (fun x => sep ++ page_content x) after))
  /\ (forall docs,
        length (format_docs docs)
        = list_sum (map (fun x => length (page_content x)) docs)
          + 2 * (length docs - 1))
  /\ format_docs [] = []
  /\ (forall E vs ps input (s : Sys LLMResumer) docs,
        retrieve_reply E (the_trace s) (docstore vs) input = Reply docs ->
        exists rest,
          the_trace (snd (qa_chain E vs ps input s))
          = the_trace s
              ++ EvRetrieve input
              :: EvModel (StringPromptValue (stage1_text input (format_docs docs)))
              :: rest).
Proof.
  repeat apply conj.
  - intros before d after. unfold format_docs.
    rewrite map_app. cbn [map]. rewrite join_middle, !map_map. reflexivity.
  - intros docs. unfold format_docs. rewrite join_length, map_map, length_map.
    reflexivity.
  - reflexivity.
  - intros E vs ps input s docs Hr. rewrite qa_chain_run, Hr. cbv zeta.
    destruct (model_reply E _ _) as [o1|info].
    + destruct (format_template ps _) as [t2|e].
      * destruct (model_reply E _ _) as [o2|info];
          eexists [_]; unfold the_trace; cbn [snd log world trace];
          now rewrite <- !app_assoc.
      * exists []. unfold the_trace. cbn [snd log world trace].
        now rewrite <- !app_assoc.
    + exists []. unfold the_trace. cbn [snd log world trace].
      now rewrite <- !app_assoc.
Qed.
End Context.

(** ** resume_facade.py *)

Section Facade_facts.
Variable E : Env.
Import Facade.

(** C10. Without a selected style, [create_resume_pdf] raises the
    [ValueError] and leaves everything as it was: no call is made, the
    facade's attributes and the driver's session are untouched. With a
    style selected, a call that returns has asked for the style path, had
    the resume generated, converted it with the facade's driver and then,
    as its last step, quit that driver. *)
Theorem create_resume_pdf_checks_style_first
    (job_description_text : option pystr) (s : Sys ResumeFacade) :
  (selected_style (obj s) = None ->
     create_resume_pdf E job_description_text s
     = (Raise (ValueError (py "Devi scegliere uno stile prima di generare il PDF.")), s))
  /\ (forall style result s',
        selected_style (obj s) = Some style ->
        create_resume_pdf E job_description_text s = (Ok result, s') ->
        exists d style_path html,
          let generate :=
            match job_description_text with
            | None => EvCreateResume style_path
            | Some jd => EvCreateResumeJD style_path jd
            end in
          driver (obj s) = Some d
          /\ get_style_path_reply E (the_trace s) style = Reply style_path
          /\ HTML_to_PDF_reply E
               (the_trace s ++ [EvStylePath style; generate]) html d = Reply result
          /\ the_trace s'
             = the_trace s ++ [EvStylePath style; generate; EvHtmlToPdf html d; EvQuit d]
          /\ (d ∉ the_sessions s')
          /\ obj s' = obj s).
Proof.
  split.
  - intros Hnone. unfold create_resume_pdf, get_selected_style, bind.
    now rewrite Hnone.
  - intros style result s' Hstyle H.
    unfold create_resume_pdf, get_selected_style in H.
    unfold bind at 1 in H. rewrite Hstyle in H.
    apply bind_inv in H as [(style_path & s1 & H1 & H)|(e & _ & [=])].
    unfold get_style_path, ask in H1.
    destruct (get_style_path_reply E _ _) as [sp|] eqn:Hsp; [|discriminate].
    injection H1 as -> <-.
    apply bind_inv in H as [(html & s2 & H2 & H)|(e & _ & [=])].
    assert (Hs2 : s2 = log (match job_description_text with
                            | None => EvCreateResume style_path
                            | Some jd => EvCreateResumeJD style_path jd
                            end) (log (EvStylePath style) s)).
    { destruct job_description_text as [jd|];
        unfold create_resume_job_description_text, create_resume, ask in H2.
      - destruct (create_resume_job_description_text_reply E _ _ _); [|discriminate].
        now injection H2 as _ <-.
      - destruct (create_resume_reply E _ _); [|discriminate].
        now injection H2 as _ <-. }
    clear H2. subst s2.
    apply bind_inv in H as [(d & s3 & H3 & H)|(e & _ & [=])].
    unfold get_driver in H3. cbn [log obj] in H3.
    destruct (driver (obj s)) as [d'|] eqn:Hd; [|discriminate].
    injection H3 as -> <-.
    apply bind_inv in H as [(r & s4 & H4 & H)|(e & _ & [=])].
    unfold HTML_to_PDF, ask in H4.
    destruct (HTML_to_PDF_reply E _ _ _) as [bytes|] eqn:Hpdf; [|discriminate].
    injection H4 as -> <-.
    unfold bind, get_driver, driver_quit, ret in H. cbn [log obj] in H.
    rewrite Hd in H. injection H as <- <-.
    exists d, style_path, html. cbv zeta.
    unfold the_trace in *. cbn [log world trace close_session] in *.
    rewrite <- app_assoc in Hpdf. cbn [app] in Hpdf.
    repeat apply conj; try assumption; try reflexivity.
    + now rewrite <- !app_assoc.
    + unfold the_sessions. cbn [close_session log world sessions].
      intros [_ Hn]%elem_of_difference. apply Hn. now apply elem_of_singleton.
Qed.
End Facade_facts.

(** ** The theorems at work on the stub collaborators *)

Lemma extraction_needs_the_summary_witness :
  JobParser.extract_all_details Stub.env Stub.fresh_parser
  = (Raise JobParser.precondition_error, Stub.fresh_parser)
  /\ fst (JobParser.extract_all_details Stub.env
            (Stub.parser_with (py "Backend role at Acme Corp")))
     <> Raise JobParser.precondition_error
  /\ is_Some (JobParser.job_description
                (obj (snd (JobParser.get_job_description_from_url Stub.env Stub.job_url
                             Stub.fresh_parser)))).
Proof.
  split; [|split].
  - destruct (proj1 (extraction_needs_the_summary Stub.env Stub.fresh_parser) eq_refl)
      as (_ & _ & _ & _ & _ & H).
    exact H.
  - destruct (proj1 (proj2 (extraction_needs_the_summary Stub.env
                              (Stub.parser_with (py "Backend role at Acme Corp"))))
                (ex_intro _ _ eq_refl)
                (py "Job description not found. Please run get_job_description_from_url first."))
      as (_ & _ & _ & _ & _ & H).
    exact H.
  - apply (proj2 (proj2 (extraction_needs_the_summary Stub.env _)) Stub.job_url
             Stub.fresh_parser).
    vm_compute. reflexivity.
Defined.

Lemma summarize_failure_keeps_cache_witness :
  exists s',
    JobParser.get_job_description_from_url Stub.env_stage2_fails Stub.job_url Stub.fresh_parser
    = (Raise (CollaboratorError ChatModel (py "rate limit")), s')
    /\ JobParser.job_description (obj s') = None.
Proof.
  destruct (summarize_failure_keeps_cache Stub.env_stage2_fails Stub.job_url Stub.fresh_parser)
    as (H & _ & _).
  edestruct H as (_ & H2); [vm_compute; reflexivity | vm_compute; reflexivity |].
  eapply H2; vm_compute; reflexivity.
Defined.

Lemma temp_file_after_fetch_witness :
  (fst (JobParser.get_job_description_from_url Stub.env_write_fails Stub.job_url
          Stub.fresh_parser)
   = Raise (CollaboratorError TempFiles (py "No space left on device"))
   /\ py "/tmp/tmpab12.html"
      ∈ the_disk (snd (JobParser.get_job_description_from_url Stub.env_write_fails
                         Stub.job_url Stub.fresh_parser)))
  /\ (fst (JobParser.get_job_description_from_url Stub2.env_close_fails Stub.job_url
             Stub.fresh_parser)
      = Raise (CollaboratorError TempFiles (py "File too large"))
      /\ py "/tmp/tmpab12.html"
         ∈ the_disk (snd (JobParser.get_job_description_from_url Stub2.env_close_fails
                            Stub.job_url Stub.fresh_parser))).
Proof.
  split.
  - pose proof (temp_file_after_fetch Stub.env_write_fails Stub.job_url
                  Stub.fresh_parser) as H.
    edestruct H as (Hfail & _); [vm_compute; reflexivity | vm_compute; reflexivity |].
    destruct (Hfail (py "No space left on device")) as (_ & Hlate & Hdisk);
      [vm_compute; reflexivity|].
    split; [|exact Hdisk].
    apply (Hlate (py "No space left on device")). vm_compute; reflexivity.
  - pose proof (temp_file_after_fetch Stub2.env_close_fails Stub.job_url
                  Stub.fresh_parser) as H.
    edestruct H as (_ & Hclose & _); [vm_compute; reflexivity | vm_compute; reflexivity |].
    apply (Hclose tt (py "File too large")); vm_compute; reflexivity.
Defined.

(** The page does not load: the call raises, and the session it opened is
    still live; it was never quit. *)
Lemma session_left_open_when_page_fails :
  create_driver_selenium_reply Stub.env_page_fails (the_trace Stub.fresh_parser)
  = Reply tt
  /\ fst (JobParser.get_job_description_from_url Stub.env_page_fails Stub.job_url
            Stub.fresh_parser)
     = Raise (CollaboratorError Browser (py "net::ERR_NAME_NOT_RESOLVED"))
  /\ next_session (world Stub.fresh_parser)
     ∈ the_sessions (snd (JobParser.get_job_description_from_url Stub.env_page_fails
                            Stub.job_url Stub.fresh_parser))
  /\ ~ In (EvQuit (next_session (world Stub.fresh_parser)))
         (the_trace (snd (JobParser.get_job_description_from_url Stub.env_page_fails
                            Stub.job_url Stub.fresh_parser))).
Proof.
  repeat apply conj.
  - reflexivity.
  - vm_compute. reflexivity.
  - replace (the_sessions _) with ({[0]} : gset nat) by (vm_compute; reflexivity).
    now apply elem_of_singleton.
  - vm_compute. intros [H|[H|[]]]; discriminate.
Qed.

Lemma session_quit_once_page_is_read_witness :
  0 ∉ the_sessions (snd (JobParser.get_job_description_from_url Stub.env Stub.job_url
                           Stub.fresh_parser)).
Proof.
  destruct (session_quit_once_page_is_read Stub.env Stub.job_url Stub.fresh_parser eq_refl)
    as (H & _).
  edestruct H as (Hq & _); [..|exact Hq]; vm_compute; reflexivity.
Defined.

Lemma extract_all_details_returns_witness :
  exists details,
    fst (JobParser.extract_all_details Stub.env
           (Stub.parser_with (py "Backend role at Acme Corp")))
    = Ok details
    /\ dom details
       = {[ py "company_name"; py "role"; py "location"; py "recruiter_email" ]}
    /\ details !! py "company_name" = Some (py "Acme Corp").
Proof.
  destruct (JobParser.extract_all_details Stub.env
              (Stub.parser_with (py "Backend role at Acme Corp")))
    as [[details|e] s'] eqn:Hrun; [|vm_compute in Hrun; discriminate].
  destruct (extract_all_details_returns _ _ _ _ Hrun)
    as (jd & a1 & a2 & a3 & a4 & _ & R1 & _ & _ & _ & _ & _ & Hdom & Hc & _).
  exists details. split; [reflexivity|split; [exact Hdom|]].
  rewrite Hc. vm_compute in R1. injection R1 as <-. vm_compute. reflexivity.
Defined.

Lemma summary_is_two_stages_witness :
  length (model_calls
            (the_trace (snd (JobParser.get_job_description_from_url Stub.env Stub.job_url
                               Stub.fresh_parser)))) = 2
  /\ JobParser.job_description
       (obj (snd (JobParser.get_job_description_from_url Stub.env Stub.job_url
                    Stub.fresh_parser)))
     = Some (py "Backend role at Acme Corp").
Proof.
  destruct (JobParser.get_job_description_from_url Stub.env Stub.job_url Stub.fresh_parser)
    as [[[]|e] s'] eqn:Hrun; [|vm_compute in Hrun; discriminate].
  destruct (summary_is_two_stages _ _ _ _ Hrun)
    as (vs & ps & s1 & docs & o1 & t2 & o2 & _ & _ & _ & _ & _ & _ & _ & H2 & _
        & Hcalls & Hjd).
  cbn [snd]. rewrite Hcalls, Hjd. split; [reflexivity|].
  vm_compute in H2. now injection H2 as <-.
Defined.

Lemma chunks_overlap_by_fifty_witness :
  exists c c',
    split_text_on_tokens JobParser.text_splitter Stub.thousand_tokens !! 0 = Some c
    /\ split_text_on_tokens JobParser.text_splitter Stub.thousand_tokens !! 1 = Some c'
    /\ length c = 500
    /\ drop 450 c = take 50 c'.
Proof.
  destruct (split_text_on_tokens JobParser.text_splitter Stub.thousand_tokens !! 0)
    as [c|] eqn:H0; [|vm_compute in H0; discriminate].
  destruct (split_text_on_tokens JobParser.text_splitter Stub.thousand_tokens !! 1)
    as [c'|] eqn:H1; [|vm_compute in H1; discriminate].
  destruct (chunks_overlap_by_fifty Stub.thousand_tokens) as (_ & _ & _ & H & _).
  destruct (H 0 c c' H0 H1) as (_ & _ & Hlen & _ & Hov).
  exists c, c'. repeat apply conj; [reflexivity|reflexivity|exact Hlen|exact Hov].
Defined.

Lemma context_is_chunks_in_order_witness :
  exists rest,
    the_trace (snd (JobParser.qa_chain Stub.env (JobParser.mkVectorStore Stub.two_chunks)
                      [Var (py "text")] (py "Provide, full job description")
                      Stub.fresh_parser))
    = the_trace Stub.fresh_parser
        ++ EvRetrieve (py "Provide, full job description")
        :: EvModel (StringPromptValue
                      (JobParser.stage1_text (py "Provide, full job description")
                         (JobParser.format_docs Stub.two_chunks)))
        :: rest.
Proof.
  destruct context_is_chunks_in_order as (_ & _ & _ & H).
  apply H. vm_compute. reflexivity.
Defined.

Lemma refetch_overwrites_witness :
  JobParser.get_job_description_from_url Stub.env Stub.job_url
    (Stub.parser_with (py "an older summary"))
  = (Ok tt,
     snd (JobParser.get_job_description_from_url Stub.env Stub.job_url Stub.fresh_parser)).
Proof.
  apply (proj2 (refetch_overwrites Stub.env Stub.job_url Stub.fresh_parser _
                  ltac:(vm_compute; reflexivity))
           (Some (py "an older summary"))).
Defined.

Lemma create_resume_pdf_checks_style_first_witness :
  Facade.create_resume_pdf Stub.env None (Stub.facade None)
  = (Raise (ValueError (py "Devi scegliere uno stile prima di generare il PDF.")),
     Stub.facade None)
  /\ 0 ∉ the_sessions (snd (Facade.create_resume_pdf Stub.env None
                              (Stub.facade (Some (py "classic"))))).
Proof.
  split.
  - apply (proj1 (create_resume_pdf_checks_style_first Stub.env None (Stub.facade None))).
    reflexivity.
  - destruct (Facade.create_resume_pdf Stub.env None (Stub.facade (Some (py "classic"))))
      as [[result|e] s'] eqn:Hrun; [|vm_compute in Hrun; discriminate].
    destruct (proj2 (create_resume_pdf_checks_style_first Stub.env None
                       (Stub.facade (Some (py "classic"))))
                (py "classic") _ _ eq_refl Hrun)
      as (d & style_path & html & Hd & _ & _ & _ & Hq & _).
    vm_compute in Hd. injection Hd as <-. exact Hq.
Defined.

(** * Further properties *)

(** ** Fetching: how a run unfolds *)

Section Fetch_runs.
Variable E : Env.
Import JobParser.

Let q := py "Provide, full job description".

(** The calls of lines 58-94 when they all go through, and what they leave
    of the session and of the temporary file. *)
Lemma before_chain_ok_trace url (s : Sys LLMResumer) vs ps s1 :
  before_chain E url s = (Ok (vs, ps), s1) ->
  exists response p document,
    let h := next_session (world s) in
    the_trace s1
    = the_trace s
        ++ [EvCreateDriver; EvGet h url; EvSleep 3;
            EvFindElement h (py "tag name") (py "body");
            EvGetAttribute h (py "outerHTML"); EvQuit h;
            EvTempFile; EvWrite p response; EvClose p; EvLoad p; EvRemove p;
            EvEmbed (split_documents E text_splitter document)]
    /\ the_sessions s1 = ({[h]} ∪ the_sessions s) ∖ {[h]}
    /\ the_disk s1 = ({[p]} ∪ the_disk s) ∖ {[p]}
    /\ next_session (world s1) = S h.
Proof.
  intros H. unfold before_chain in H.
  apply bind_inv in H as [(response & sa & Ha & H)|(e & _ & [=])].
  apply bind_inv in H as [(document & sb & Hb & H)|(e & _ & [=])].
  rewrite build_chain_run in H. cbv zeta in H.
  destruct (embed_reply E _ _); [|discriminate].
  destruct (from_template_reply E _) as [ps'|]; [|discriminate].
  injection H as <- <- <-.
  rewrite fetch_page_run in Ha. cbv zeta in Ha.
  destruct (create_driver_selenium_reply E _); [|discriminate].
  destruct (get_reply E _ _); [|discriminate].
  destruct (find_element_reply E _); [|discriminate].
  destruct (get_attribute_reply E _) as [response'|]; [|discriminate].
  injection Ha as <- <-.
  rewrite load_text_run in Hb. cbv zeta in Hb.
  destruct (tempfile_reply E _) as [p|]; [|discriminate].
  destruct (write_reply E (the_trace (create_file p _)) p _); [|discriminate].
  destruct (write_reply E _ p []); [|discriminate].
  destruct (load_reply E _ _) as [document'|]; [|discriminate].
  injection Hb as <- <-.
  exists response', p, document'. cbv zeta.
  unfold the_trace, the_sessions, the_disk.
  cbn [log world trace sessions disk next_session close_session open_session
       create_file delete_file].
  repeat apply conj; try reflexivity.
  now rewrite <- !app_assoc.
Qed.

(** Lines 58-94 never ask the model anything, however they end. *)
Lemma before_chain_asks_nothing url (s : Sys LLMResumer) :
  model_calls (the_trace (snd (before_chain E url s))) = model_calls (the_trace s).
Proof.
  unfold before_chain, bind.
  rewrite fetch_page_run. cbv zeta.
  assert (Hlog : forall ev (s0 : Sys LLMResumer),
            model_calls [ev] = [] ->
            model_calls (the_trace (log ev s0)) = model_calls (the_trace s0)).
  { intros ev s0 Hev. unfold the_trace. cbn [log world trace].
    now rewrite model_calls_app, Hev, app_nil_r. }
  assert (Hopen : forall s0 : Sys LLMResumer,
            model_calls (the_trace (open_session s0)) = model_calls (the_trace s0)).
  { intros s0. unfold the_trace. cbn [open_session world trace].
    now rewrite model_calls_app, app_nil_r. }
  assert (Hclose : forall h (s0 : Sys LLMResumer),
            model_calls (the_trace (close_session h s0)) = model_calls (the_trace s0)).
  { intros h s0. unfold the_trace. cbn [close_session world trace].
    now rewrite model_calls_app, app_nil_r. }
  assert (Hcreate : forall p (s0 : Sys LLMResumer),
            model_calls (the_trace (create_file p s0)) = model_calls (the_trace s0)).
  { intros p s0. unfold the_trace. cbn [create_file world trace].
    now rewrite model_calls_app, app_nil_r. }
  assert (Hdelete : forall p (s0 : Sys LLMResumer),
            model_calls (the_trace (delete_file p s0)) = model_calls (the_trace s0)).
  { intros p s0. unfold the_trace. cbn [delete_file world trace].
    now rewrite model_calls_app, app_nil_r. }
  destruct (create_driver_selenium_reply E _);
    [|cbn [snd]; now rewrite Hlog].
  destruct (get_reply E _ _);
    [|cbn [snd]; now rewrite Hlog, Hopen].
  destruct (find_element_reply E _);
    [|cbn [snd]; now rewrite !Hlog, Hopen].
  destruct (get_attribute_reply E _) as [response|];
    [|cbn [snd]; now rewrite !Hlog, Hopen].
  rewrite load_text_run. cbv zeta.
  destruct (tempfile_reply E _) as [p|];
    [|cbn [snd]; now rewrite Hlog, Hclose, !Hlog, Hopen].
  destruct (write_reply E (the_trace (create_file p _)) p _);
    [|cbn [snd]; now rewrite !Hlog, Hcreate, Hclose, !Hlog, Hopen].
  destruct (write_reply E _ p []);
    [|cbn [snd]; now rewrite !Hlog, Hcreate, Hclose, !Hlog, Hopen].
  destruct (load_reply E _ _) as [document|];
    [|cbn [snd]; now rewrite Hdelete, !Hlog, Hcreate, Hclose, !Hlog, Hopen].
  rewrite build_chain_run. cbv zeta.
  destruct (embed_reply E _ _); [destruct (from_template_reply E _)|];
    cbn [snd]; now rewrite Hlog, Hdelete, !Hlog, Hcreate, Hclose, !Hlog, Hopen.
Qed.

(** Formatting fails only on a field that has no binding, and then with a
    [KeyError] naming that field. *)
Lemma format_template_raise (t : list seg) (kw : gmap pystr pystr) (e : exn) :
  format_template t kw = Raise e ->
  exists x, e = KeyError x /\ Var x ∈ t /\ kw !! x = None.
Proof.
  induction t as [|sg t IH]; intros H; [discriminate|].
  cbn [format_template] in H. destruct sg as [l|x].
  - destruct (format_template t kw) as [r|e'] eqn:Ef; [discriminate|].
    injection H as ->. destruct (IH eq_refl) as (y & -> & Hin & Hy).
    exists y. repeat apply conj; [reflexivity| |exact Hy]. now apply list_elem_of_further.
  - destruct (kw !! x) eqn:Hx.
    + destruct (format_template t kw) as [r|e'] eqn:Ef; [discriminate|].
      injection H as ->. destruct (IH eq_refl) as (y & -> & Hin & Hy).
      exists y. repeat apply conj; [reflexivity| |exact Hy]. now apply list_elem_of_further.
    + injection H as <-. exists x. repeat apply conj; [reflexivity| |exact Hx].
      apply list_elem_of_here.
Qed.

Lemma format_template_unbound (t : list seg) (kw : gmap pystr pystr) (x : pystr) :
  Var x ∈ t -> kw !! x = None -> exists e, format_template t kw = Raise e.
Proof.
  intros Hin Hx. destruct (format_template t kw) as [r|e] eqn:Hf; [|eauto].
  apply format_template_fields in Hf. rewrite Forall_forall in Hf.
  destruct (Hf _ Hin x eq_refl) as [v Hv]. congruence.
Qed.

Lemma format_template_bound (t : list seg) (kw : gmap pystr pystr) :
  Forall (fun sg => forall x, sg = Var x -> is_Some (kw !! x)) t ->
  exists r, format_template t kw = Ok r.
Proof.
  intros H. destruct (format_template t kw) as [r|e] eqn:Hf; [eauto|].
  apply format_template_raise in Hf as (x & _ & Hin & Hx).
  rewrite Forall_forall in H. destruct (H _ Hin x eq_refl) as [v Hv]. congruence.
Qed.

(** X1. When no collaborator ever fails and every field of the parsed
    summarization template is [{text}], [get_job_description_from_url]
    returns, and [job_description] is set afterwards. *)
Theorem fetch_returns_when_nothing_fails (url : pystr) (s : Sys LLMResumer) :
  (forall t, exists u, create_driver_selenium_reply E t = Reply u) ->
  (forall t, exists u, get_reply E t url = Reply u) ->
  (forall t, exists u, find_element_reply E t = Reply u) ->
  (forall t, exists response, get_attribute_reply E t = Reply response) ->
  (forall t, exists p, tempfile_reply E t = Reply p) ->
  (forall t p data, exists u, write_reply E t p data = Reply u) ->
  (forall t p, exists document, load_reply E t p = Reply document) ->
  (forall t docs, exists u, embed_reply E t docs = Reply u) ->
  (forall t docs input, exists found, retrieve_reply E t docs input = Reply found) ->
  (forall t p, exists answer, model_reply E t p = Reply answer) ->
  (exists ps,
     from_template_reply E (dedent E (summarize_prompt_template (strings (obj s))))
     = Reply ps
     /\ Forall (fun sg => forall x, sg = Var x -> x = py "text") ps) ->
  exists s',
    get_job_description_from_url E url s = (Ok tt, s')
    /\ is_Some (job_description (obj s')).
Proof.
  intros Hcreate Hget Hfind Hattr Htmp Hwrite Hload Hembed Hretr Hmodel
    (ps & Hps & Hfields).
  assert (Hb : exists vs s1, before_chain E url s = (Ok (vs, ps), s1)).
  { unfold before_chain, bind. rewrite fetch_page_run. cbv zeta.
    destruct (Hcreate (the_trace s)) as [u1 ->].
    destruct (Hget (the_trace (open_session s))) as [u2 ->].
    match goal with |- context [find_element_reply E ?t] =>
      destruct (Hfind t) as [u3 ->] end.
    match goal with |- context [get_attribute_reply E ?t] =>
      destruct (Hattr t) as [response ->] end.
    rewrite load_text_run. cbv zeta.
    match goal with |- context [tempfile_reply E ?t] =>
      destruct (Htmp t) as [p ->] end.
    match goal with |- context [write_reply E ?t p response] =>
      destruct (Hwrite t p response) as [u4 ->] end.
    match goal with |- context [write_reply E ?t p []] =>
      destruct (Hwrite t p []) as [u4' ->] end.
    match goal with |- context [load_reply E ?t ?a] =>
      destruct (Hload t a) as [document ->] end.
    rewrite build_chain_run. cbv zeta.
    match goal with |- context [embed_reply E ?t ?a] =>
      destruct (Hembed t a) as [u5 ->] end.
    cbn [log obj delete_file create_file close_session open_session].
    rewrite Hps. eauto. }
  destruct Hb as (vs & s1 & Hb).
  rewrite get_job_description_from_url_blocks, (bind_ok _ _ _ _ _ Hb).
  rewrite run_chain_run, qa_chain_run. cbn [fst snd]. cbv zeta.
  match goal with |- context [retrieve_reply E ?t ?a ?b] =>
    destruct (Hretr t a b) as [docs ->] end.
  match goal with |- context [model_reply E ?t ?a] =>
    destruct (Hmodel t a) as [o1 ->] end.
  destruct (format_template_bound ps (<[py "text" := o1]> ∅)) as [t2 ->].
  { eapply Forall_impl; [exact Hfields|]. intros sg Hsg x Hx.
    rewrite (Hsg x Hx), lookup_insert_eq. eauto. }
  match goal with |- context [model_reply E ?t ?a] =>
    destruct (Hmodel t a) as [o2 ->] end.
  eexists. split; [reflexivity|]. cbn. eauto.
Qed.

(** X2. A summarization template with a field other than [{text}] makes the
    fetch fail after the first stage: once the chain is built, the chunks are
    retrieved and the model has answered the first-stage prompt, the method
    raises a [KeyError] for such a field; that one model call is all it has
    asked, and [job_description] is left as it was. *)
Theorem foreign_field_fails_after_first_stage (url : pystr) (s : Sys LLMResumer)
    vs ps s1 docs o1 (x : pystr) :
  before_chain E url s = (Ok (vs, ps), s1) ->
  retrieve_reply E (the_trace s1) (docstore vs) q = Reply docs ->
  model_reply E (the_trace s1 ++ [EvRetrieve q])
    (StringPromptValue (stage1_text q (format_docs docs))) = Reply o1 ->
  Var x ∈ ps -> x <> py "text" ->
  exists y s',
    get_job_description_from_url E url s = (Raise (KeyError y), s')
    /\ Var y ∈ ps /\ y <> py "text"
    /\ model_calls (the_trace s')
       = model_calls (the_trace s)
           ++ [StringPromptValue (stage1_text q (format_docs docs))]
    /\ job_description (obj s') = job_description (obj s).
Proof.
  intros Hb Hr Hm Hin Hx.
  destruct (format_template_unbound ps (<[py "text" := o1]> ∅) x Hin) as [e He].
  { rewrite lookup_insert_ne by congruence. apply lookup_empty. }
  destruct (format_template_raise _ _ _ He) as (y & -> & Hy & Hnone).
  exists y. eexists. split.
  - rewrite get_job_description_from_url_blocks, (bind_ok _ _ _ _ _ Hb).
    rewrite run_chain_run, qa_chain_run. cbn [fst snd]. fold q. rewrite Hr. cbv zeta.
    change (the_trace (log (EvRetrieve q) s1)) with (the_trace s1 ++ [EvRetrieve q]).
    rewrite Hm, He. reflexivity.
  - repeat apply conj.
    + exact Hy.
    + intros ->. now rewrite lookup_insert_eq in Hnone.
    + pose proof (before_chain_asks_nothing url s) as Hc. rewrite Hb in Hc.
      cbn [snd] in Hc. unfold the_trace in *. cbn [log world trace].
      rewrite !model_calls_app, Hc. cbn [model_calls]. now rewrite app_nil_r.
    + pose proof (before_chain_keeps_obj E url s) as Ho. rewrite Hb in Ho.
      cbn [snd] in Ho. cbn [log obj]. now rewrite Ho.
Qed.

(** X3. Whatever happens, one fetch sends the model at most two prompts:
    none when it fails before the chain runs, and exactly two when it
    returns. *)
Theorem fetch_asks_at_most_twice (url : pystr) (s : Sys LLMResumer) r s' :
  get_job_description_from_url E url s = (r, s') ->
  exists asked,
    model_calls (the_trace s') = model_calls (the_trace s) ++ asked
    /\ length asked <= 2
    /\ (r = Ok tt -> length asked = 2)
    /\ (forall e, fst (before_chain E url s) = Raise e -> r = Raise e /\ asked = []).
Proof.
  rewrite get_job_description_from_url_blocks. unfold bind.
  pose proof (before_chain_asks_nothing url s) as Hc.
  destruct (before_chain E url s) as [[[vs ps]|e] s1]; cbn [snd fst] in *.
  2:{ intros [= <- <-]. exists []. rewrite app_nil_r.
      repeat apply conj; [exact Hc|cbn; lia|discriminate|].
      intros e' [= <-]. now split. }
  rewrite run_chain_run, qa_chain_run. cbn [fst snd]. cbv zeta.
  assert (Hlog : forall ev (s0 : Sys LLMResumer),
            model_calls (the_trace (log ev s0))
            = model_calls (the_trace s0) ++ model_calls [ev]).
  { intros ev s0. unfold the_trace. cbn [log world trace]. apply model_calls_app. }
  destruct (retrieve_reply E _ _ _) as [docs|info].
  2:{ intros [= <- <-]. exists []. rewrite app_nil_r, Hlog, Hc. cbn [model_calls].
      rewrite app_nil_r. repeat apply conj; [reflexivity|cbn; lia|discriminate|discriminate]. }
  destruct (model_reply E _ _) as [o1|info].
  2:{ intros [= <- <-]. eexists [_]. rewrite !Hlog, Hc. cbn [model_calls].
      rewrite app_nil_r. repeat apply conj; [reflexivity|cbn; lia|discriminate|discriminate]. }
  destruct (format_template ps _) as [t2|e].
  2:{ intros [= <- <-]. eexists [_]. rewrite !Hlog, Hc. cbn [model_calls].
      rewrite app_nil_r. repeat apply conj; [reflexivity|cbn; lia|discriminate|discriminate]. }
  destruct (model_reply E _ _) as [o2|info]; intros [= <- <-]; eexists [_; _].
  - replace (the_trace (with_cache (Some o2) _)) with
      (the_trace (log (EvModel (ChatPromptValue [HumanMessage t2]))
         (log (EvModel (StringPromptValue (stage1_text
                 (py "Provide, full job description") (format_docs docs))))
            (log (EvRetrieve (py "Provide, full job description")) s1)))) by reflexivity.
    rewrite !Hlog, Hc. cbn [model_calls]. rewrite app_nil_r, <- app_assoc.
    repeat apply conj; [reflexivity|cbn; lia|reflexivity|discriminate].
  - rewrite !Hlog, Hc. cbn [model_calls]. rewrite app_nil_r, <- app_assoc.
    repeat apply conj; [reflexivity|cbn; lia|discriminate|discriminate].
Qed.
End Fetch_runs.

(** ** Fetching: what is released, and what is left alone *)

Section Fetch_frame.
Variable E : Env.
Import JobParser.

Let q := py "Provide, full job description".

(** X4. By the time a fetch asks the model anything, it is done with the
    browser and with the temporary file: its trace is the twelve calls of
    lines 58-75 in order, with [EvQuit] and [EvRemove] among them, then the
    retrieval, then the model calls; and when the method ends its session is
    not live and its temporary file is not on disk. *)
Theorem model_is_asked_after_cleanup (url : pystr) (s : Sys LLMResumer) r s' :
  get_job_description_from_url E url s = (r, s') ->
  model_calls (the_trace s') <> model_calls (the_trace s) ->
  exists response p document rest,
    let h := next_session (world s) in
    the_trace s'
    = the_trace s
        ++ [EvCreateDriver; EvGet h url; EvSleep 3;
            EvFindElement h (py "tag name") (py "body");
            EvGetAttribute h (py "outerHTML"); EvQuit h;
            EvTempFile; EvWrite p response; EvClose p; EvLoad p; EvRemove p;
            EvEmbed (split_documents E text_splitter document);
            EvRetrieve q]
        ++ rest
    /\ model_calls rest <> []
    /\ (h ∉ the_sessions s')
    /\ (p ∉ the_disk s').
Proof.
  intros Hrun Hasked.
  rewrite get_job_description_from_url_blocks in Hrun.
  apply bind_inv in Hrun as [([vs ps] & s1 & Hb & Hrun)|(e & Hb & ->)].
  2:{ exfalso. apply Hasked. pose proof (before_chain_asks_nothing E url s) as Hc.
      now rewrite Hb in Hc. }
  destruct (before_chain_ok_trace E url s vs ps s1 Hb)
    as (response & p & document & Ht & Hs & Hd & _).
  cbv zeta in Ht.
  pose proof (before_chain_asks_nothing E url s) as Hc. rewrite Hb in Hc.
  cbn [snd] in Hc.
  pose proof (run_chain_keeps_sessions E (vs, ps) s1) as Hks.
  pose proof (run_chain_keeps_disk E (vs, ps) s1) as Hkd.
  rewrite Hrun in Hks, Hkd. cbn [snd] in Hks, Hkd.
  assert (Hshape : exists rest,
            the_trace s' = the_trace s1 ++ EvRetrieve q :: rest
            /\ model_calls (the_trace s') = model_calls (the_trace s1) ++ model_calls rest).
  { rewrite run_chain_run, qa_chain_run in Hrun. cbn [fst snd] in Hrun.
    cbv zeta in Hrun. fold q in Hrun.
    destruct (retrieve_reply E _ _ _) as [docs|info].
    2:{ injection Hrun as _ <-. exists []. unfold the_trace. cbn [log world trace].
        split; [reflexivity|]. now rewrite model_calls_app. }
    destruct (model_reply E _ _) as [o1|info].
    2:{ injection Hrun as _ <-. eexists [_]. unfold the_trace. cbn [log world trace].
        rewrite <- !app_assoc. split; [reflexivity|]. now rewrite model_calls_app. }
    destruct (format_template ps _) as [t2|e].
    2:{ injection Hrun as _ <-. eexists [_]. unfold the_trace. cbn [log world trace].
        rewrite <- !app_assoc. split; [reflexivity|]. now rewrite model_calls_app. }
    destruct (model_reply E _ _) as [o2|info]; injection Hrun as _ <-;
      eexists [_; _]; unfold the_trace; cbn [with_cache log world trace];
      rewrite <- !app_assoc; (split; [reflexivity|]); now rewrite model_calls_app. }
  destruct Hshape as (rest & Htr & Hcalls).
  exists response, p, document, rest. cbv zeta. repeat apply conj.
  - rewrite Htr, Ht. rewrite <- !app_assoc. reflexivity.
  - intros Hnil. apply Hasked. now rewrite Hcalls, Hnil, app_nil_r.
  - rewrite Hks, Hs. intros [_ Hn]%elem_of_difference. apply Hn.
    now apply elem_of_singleton.
  - rewrite Hkd, Hd. intros [_ Hn]%elem_of_difference. apply Hn.
    now apply elem_of_singleton.
Qed.

(** X5. A fetch touches no browser session but its own: any other session
    is live afterwards exactly when it was live before, however the fetch
    ends. *)
Theorem fetch_leaves_other_sessions (url : pystr) (s : Sys LLMResumer) (h' : nat) :
  h' <> next_session (world s) ->
  h' ∈ the_sessions (snd (get_job_description_from_url E url s))
  <-> h' ∈ the_sessions s.
Proof.
  intros Hne. rewrite get_job_description_from_url_steps. unfold bind at 1.
  rewrite fetch_page_run. cbv zeta.
  assert (Hopen : h' ∈ the_sessions (open_session s) <-> h' ∈ the_sessions s).
  { unfold the_sessions. cbn [open_session world sessions].
    rewrite elem_of_union, elem_of_singleton. tauto. }
  destruct (create_driver_selenium_reply E _); [|reflexivity].
  destruct (get_reply E _ _); [|exact Hopen].
  destruct (find_element_reply E _); [|exact Hopen].
  destruct (get_attribute_reply E _) as [response|]; [|exact Hopen].
  fold (bind (load_text E response)
          (fun document => bind (build_chain E document) (run_chain E))).
  match goal with |- context [bind _ _ ?s1] =>
    pose proof (after_page_keeps_sessions E response s1) as Hk;
    rewrite bind_assoc in Hk; rewrite Hk end.
  unfold the_sessions. cbn [close_session log open_session world sessions].
  rewrite elem_of_difference, elem_of_union, !elem_of_singleton.
  unfold the_sessions in Hopen. tauto.
Qed.

(** X6. A fetch touches no file but its temporary one: a path that is never
    handed out as the name of a temporary file is on disk afterwards exactly
    when it was on disk before, however the fetch ends. *)
Theorem fetch_leaves_other_files (url : pystr) (s : Sys LLMResumer) (p' : pystr) :
  (forall t, tempfile_reply E t <> Reply p') ->
  p' ∈ the_disk (snd (get_job_description_from_url E url s)) <-> p' ∈ the_disk s.
Proof.
  intros Hnot. rewrite get_job_description_from_url_steps. unfold bind at 1.
  pose proof (fetch_page_keeps_disk E url s) as Hpage.
  destruct (fetch_page E url s) as [[response|e] s1]; cbn [snd] in Hpage;
    [|cbn [snd]; now rewrite Hpage].
  rewrite <- Hpage. unfold bind at 1. rewrite load_text_run. cbv zeta.
  destruct (tempfile_reply E (the_trace s1)) as [p|info] eqn:Hp; [|reflexivity].
  assert (Hpp : p <> p') by (intros ->; exact (Hnot _ Hp)).
  assert (Hin : p' ∈ ({[p]} ∪ the_disk s1 : gset pystr) <-> p' ∈ the_disk s1).
  { rewrite elem_of_union, elem_of_singleton. split; [intros [?|?]|]; auto; congruence. }
  destruct (write_reply E (the_trace (create_file p s1)) p response); [|exact Hin].
  destruct (write_reply E _ p []); [|exact Hin].
  assert (Hout : p' ∈ (({[p]} ∪ the_disk s1) ∖ {[p]} : gset pystr) <-> p' ∈ the_disk s1).
  { rewrite elem_of_difference, elem_of_singleton, Hin. split; [tauto|]. split; auto. }
  destruct (load_reply E _ _) as [document|info]; [|exact Hout].
  fold (bind (build_chain E document) (run_chain E)).
  rewrite after_load_keeps_disk. exact Hout.
Qed.
End Fetch_frame.

(** ** Extraction: cost, retries and blank answers *)

Section Extraction_more.
Variable E : Env.
Import JobParser.

Let q_company := py "What is the company name in this job description?".
Let q_role := py "What is the role or title being sought in this job description?".
Let q_location := py "What is the location mentioned in this job description?".
Let q_email := py "What is the recruiter's email address in this job description?".

(** X7. On an instance with a cached summary, one extraction is one model
    call and nothing else: the summary, the live sessions and the files on
    disk are as before whether it returns or raises. So a failed extraction
    can be retried: asked again, the same question sends the same prompt, and
    returns the trimmed answer if the model answers this time. *)
Theorem extraction_asks_once_and_can_be_retried (question jd : pystr)
    (s : Sys LLMResumer) r s' :
  job_description (obj s) = Some jd ->
  _extract_information E question s = (r, s') ->
  let p := StringPromptValue (extract_text jd question) in
  the_trace s' = the_trace s ++ [EvModel p]
  /\ obj s' = obj s
  /\ the_sessions s' = the_sessions s
  /\ the_disk s' = the_disk s
  /\ (forall a,
        model_reply E (the_trace s') p = Reply a ->
        _extract_information E question s' = (Ok (strip a), log (EvModel p) s')).
Proof.
  intros Hjd Hrun p.
  destruct (_extract_information_populated E _ _ _ _ _ Hjd Hrun) as (-> & _).
  repeat apply conj; try reflexivity.
  intros a Ha. rewrite _extract_information_run. cbn [log obj]. rewrite Hjd.
  unfold p in *. cbv zeta. now rewrite Ha.
Qed.


Lemma lstrip_nil (a : pystr) : lstrip a = [] <-> all_space a.
Proof.
  split.
  - intros H. destruct (lstrip_split a) as (l & Hl & Hsp).
    rewrite H, app_nil_r in Hl. now subst.
  - intros H. rewrite <- (app_nil_r a). now rewrite lstrip_all_space.
Qed.

(** [strip] returns the empty string on blank input only. *)
Lemma strip_nil (a : pystr) : strip a = [] <-> all_space a.
Proof.
  split.
  - intros H. destruct (strip_spec a) as ((l & r & Ha & Hl & Hr) & _).
    rewrite H in Ha. cbn [app] in Ha. subst a. now apply Forall_app.
  - intros H. unfold strip. apply lstrip_nil in H. now rewrite H.
Qed.

(** X9. An extraction returns the empty string exactly when the model's
    answer is empty or made of whitespace only. *)
Theorem extraction_is_empty_on_blank_answers (question jd a : pystr)
    (s : Sys LLMResumer) :
  job_description (obj s) = Some jd ->
  model_reply E (the_trace s) (StringPromptValue (extract_text jd question)) = Reply a ->
  fst (_extract_information E question s) = Ok [] <-> all_space a.
Proof.
  intros Hjd Ha. rewrite _extract_information_run, Hjd. cbv zeta. rewrite Ha.
  cbn [fst]. rewrite <- strip_nil. split; [now intros [= ->]|now intros ->].
Qed.
End Extraction_more.

(** ** [str.split] *)

Lemma startswith_spec (sep s : pystr) :
  startswith sep s = true <-> exists t, s = sep ++ t.
Proof.
  revert s. induction sep as [|a sep IH]; intros s.
  - cbn. split; eauto.
  - destruct s as [|b s]; cbn [startswith].
    + split; [discriminate|intros (t & [=])].
    + rewrite andb_true_iff, N.eqb_eq, IH. split.
      * intros (-> & t & ->). now exists t.
      * intros (t & [= -> ->]). eauto.
Qed.

(** Passing over what is left of a separator. *)
Lemma split_go_skip (sep t acc s : pystr) :
  split_go sep (length t) acc (t ++ s) = split_go sep 0 acc s.
Proof. induction t as [|c t IH]; [reflexivity|exact IH]. Qed.

(** What has been read of the first item stays in front of it. *)
Lemma split_go_acc (sep acc s : pystr) :
  split_go sep 0 acc s
  = (acc ++ fst (split_go sep 0 [] s), snd (split_go sep 0 [] s)).
Proof.
  revert acc. induction s as [|c s IH]; intros acc.
  - cbn. now rewrite app_nil_r.
  - cbn [split_go]. destruct (startswith sep (c :: s)).
    + cbn [fst snd]. now rewrite app_nil_r.
    + rewrite (IH (acc ++ [c])), (IH ([] ++ [c])). cbn [fst snd app].
      now rewrite <- app_assoc.
Qed.

Lemma split_cons_found (sep tail : pystr) :
  sep <> [] ->
  split sep (sep ++ tail) = ([], fst (split sep tail) :: snd (split sep tail)).
Proof.
  intros Hsep. destruct sep as [|a sep']; [congruence|].
  unfold split. cbn [app split_go].
  replace (startswith (a :: sep') (a :: sep' ++ tail)) with true.
  2:{ symmetry. apply startswith_spec. now exists tail. }
  replace (length (a :: sep') - 1) with (length sep') by (cbn [length]; lia).
  rewrite split_go_skip.
  now destruct (split_go (a :: sep') 0 [] tail).
Qed.

Lemma split_cons_other (sep : pystr) (c : N) (s : pystr) :
  startswith sep (c :: s) = false ->
  split sep (c :: s) = (c :: fst (split sep s), snd (split sep s)).
Proof.
  intros H. unfold split. cbn [split_go]. rewrite H.
  now rewrite split_go_acc.
Qed.

(** The first item ends where the separator first occurs, or is the whole
    string when the separator does not occur. *)
Lemma split_first (sep s : pystr) :
  sep <> [] ->
  (forall j, j < length (fst (split sep s)) -> startswith sep (drop j s) = false)
  /\ ((s = fst (split sep s) /\ snd (split sep s) = [])
      \/ exists tail, s = fst (split sep s) ++ sep ++ tail).
Proof.
  intros Hsep. induction s as [|c s IH].
  - split; [cbn; lia|]. left. split; reflexivity.
  - destruct (startswith sep (c :: s)) eqn:Hs.
    + apply startswith_spec in Hs as (t & Ht). rewrite Ht.
      rewrite split_cons_found by exact Hsep. cbn [fst snd]. split; [cbn; lia|].
      right. now exists t.
    + rewrite split_cons_other by exact Hs. cbn [fst snd].
      destruct IH as (Hbefore & Hshape). split.
      * intros [|j] Hj; [exact Hs|]. cbn [drop]. apply Hbefore.
        cbn [length] in Hj. lia.
      * destruct Hshape as [(Heq & Hnil)|(tail & Heq)].
        -- left. split; [now f_equal|exact Hnil].
        -- right. exists tail. cbn [app]. now f_equal.
Qed.

Lemma join_cons_head (sep : pystr) (c : N) (x : pystr) (rest : list pystr) :
  join sep ((c :: x) :: rest) = c :: join sep (x :: rest).
Proof. now destruct rest. Qed.

(** [sep.join(s.split(sep))] is [s]. *)
Lemma join_split (sep s : pystr) :
  sep <> [] -> join sep (fst (split sep s) :: snd (split sep s)) = s.
Proof.
  intros Hsep. remember (length s) as n eqn:Hn. revert s Hn.
  induction n as [n IH] using lt_wf_ind. intros s Hn.
  destruct s as [|c s]; [reflexivity|].
  destruct (startswith sep (c :: s)) eqn:Hs.
  - apply startswith_spec in Hs as (t & Ht). rewrite Ht.
    rewrite split_cons_found by exact Hsep. cbn [fst snd].
    rewrite join_cons. cbn [app]. f_equal.
    apply (IH (length t)); [|reflexivity].
    subst n. rewrite Ht, length_app. destruct sep; [congruence|cbn; lia].
  - rewrite split_cons_other by exact Hs. cbn [fst snd].
    rewrite join_cons_head. f_equal.
    apply (IH (length s)); [subst n; cbn; lia|reflexivity].
Qed.

(** ** resume_facade.py: [create_resume_pdf], case by case *)

Section Facade_runs.
Variable E : Env.
Import Facade.

Lemma create_resume_pdf_run (job_description_text : option pystr)
    (s : Sys ResumeFacade) :
  create_resume_pdf E job_description_text s
  = match selected_style (obj s) with
    | None =>
        (Raise (ValueError (py "Devi scegliere uno stile prima di generare il PDF.")), s)
    | Some style =>
        let s1 := log (EvStylePath style) s in
        match get_style_path_reply E (the_trace s) style with
        | Fault info => (Raise (CollaboratorError StyleManager info), s1)
        | Reply style_path =>
            let generate :=
              match job_description_text with
              | None => EvCreateResume style_path
              | Some jd => EvCreateResumeJD style_path jd
              end in
            let s2 := log generate s1 in
            match
              match job_description_text with
              | None => create_resume_reply E (the_trace s1) style_path
              | Some jd =>
                  create_resume_job_description_text_reply E (the_trace s1)
                    style_path jd
              end
            with
            | Fault info => (Raise (CollaboratorError ResumeGenerator info), s2)
            | Reply html =>
                match driver (obj s) with
                | None => (Raise (AttributeError (py "driver")), s2)
                | Some d =>
                    let s3 := log (EvHtmlToPdf html d) s2 in
                    match HTML_to_PDF_reply E (the_trace s2) html d with
                    | Fault info => (Raise (CollaboratorError PdfConverter info), s3)
                    | Reply result => (Ok result, close_session d s3)
                    end
                end
            end
        end
    end.
Proof.
  unfold create_resume_pdf, get_selected_style, get_style_path.
  unfold bind at 1. destruct (selected_style (obj s)) as [style|]; [|reflexivity].
  unfold bind at 1. unfold ask at 1. fold (the_trace s).
  destruct (get_style_path_reply E _ _) as [style_path|]; [|reflexivity].
  cbv zeta. unfold bind at 1.
  destruct job_description_text as [jd|];
    unfold create_resume_job_description_text, create_resume, ask at 1;
    fold (the_trace (log (EvStylePath style) s)).
  - destruct (create_resume_job_description_text_reply E _ _ _) as [html|];
      [|reflexivity].
    unfold bind, get_driver, HTML_to_PDF, ask, driver_quit, ret, the_trace.
    cbn [log obj]. destruct (driver (obj s)) as [d|] eqn:Hd; [|reflexivity].
    destruct (HTML_to_PDF_reply E _ _ _); [|reflexivity].
    cbn [log obj]. now rewrite Hd.
  - destruct (create_resume_reply E _ _) as [html|]; [|reflexivity].
    unfold bind, get_driver, HTML_to_PDF, ask, driver_quit, ret, the_trace.
    cbn [log obj]. destruct (driver (obj s)) as [d|] eqn:Hd; [|reflexivity].
    destruct (HTML_to_PDF_reply E _ _ _); [|reflexivity].
    cbn [log obj]. now rewrite Hd.
Qed.

(** X10. With a style selected but no driver ever set, [create_resume_pdf]
    still asks for the style path and has the resume generated (by
    [create_resume], or by [create_resume_job_description_text] when a job
    description is passed), and only then raises [AttributeError]: nothing is
    converted and no session is touched. *)
Theorem create_resume_pdf_without_driver (job_description_text : option pystr)
    (s : Sys ResumeFacade) (style style_path html : pystr) :
  selected_style (obj s) = Some style ->
  driver (obj s) = None ->
  get_style_path_reply E (the_trace s) style = Reply style_path ->
  match job_description_text with
  | None => create_resume_reply E (the_trace s ++ [EvStylePath style]) style_path
  | Some jd =>
      create_resume_job_description_text_reply E (the_trace s ++ [EvStylePath style])
        style_path jd
  end = Reply html ->
  create_resume_pdf E job_description_text s
  = (Raise (AttributeError (py "driver")),
     log match job_description_text with
         | None => EvCreateResume style_path
         | Some jd => EvCreateResumeJD style_path jd
         end
       (log (EvStylePath style) s))
  /\ the_sessions (snd (create_resume_pdf E job_description_text s)) = the_sessions s
  /\ (forall html' d,
        EvHtmlToPdf html' d
        ∈ the_trace (snd (create_resume_pdf E job_description_text s)) ->
        EvHtmlToPdf html' d ∈ the_trace s).
Proof.
  intros Hstyle Hd Hsp Hgen.
  assert (Hrun : create_resume_pdf E job_description_text s
                 = (Raise (AttributeError (py "driver")),
                    log match job_description_text with
                        | None => EvCreateResume style_path
                        | Some jd => EvCreateResumeJD style_path jd
                        end
                      (log (EvStylePath style) s))).
  { rewrite create_resume_pdf_run, Hstyle. cbv zeta. rewrite Hsp.
    change (the_trace (log (EvStylePath style) s))
      with (the_trace s ++ [EvStylePath style]).
    now rewrite Hgen, Hd. }
  rewrite Hrun. split; [reflexivity|]. split; [reflexivity|].
  intros html' d. cbn [snd]. unfold the_trace. cbn [log world trace].
  rewrite !elem_of_app, !list_elem_of_singleton.
  intros [[Hin|Heq]|Heq]; [exact Hin|discriminate|].
  destruct job_description_text; discriminate.
Qed.

(** X11. [create_resume_pdf] quits the driver only when it returns. When it
    raises, at whatever step, every session is as it was (so a failed PDF
    conversion leaves the browser running) and the facade's attributes are
    unchanged. *)
Theorem create_resume_pdf_failure_keeps_driver
    (job_description_text : option pystr) (s : Sys ResumeFacade) e s' :
  create_resume_pdf E job_description_text s = (Raise e, s') ->
  the_sessions s' = the_sessions s
  /\ obj s' = obj s
  /\ (forall d, ~ In (EvQuit d) (drop (length (the_trace s)) (the_trace s'))).
Proof.
  rewrite create_resume_pdf_run. intros H.
  assert (Hdrop : forall (t new : list event), drop (length t) (t ++ new) = new).
  { intros t new. now rewrite drop_app_length. }
  destruct (selected_style (obj s)) as [style|].
  2:{ injection H as _ <-. repeat apply conj; try reflexivity.
      intros d. rewrite drop_all. intros []. }
  cbv zeta in H. destruct (get_style_path_reply E _ _) as [style_path|].
  2:{ injection H as _ <-. repeat apply conj; try reflexivity.
      intros d. unfold the_trace. cbn [log world trace]. rewrite Hdrop.
      intros [Hq|[]]; discriminate. }
  match type of H with
  | match ?x with _ => _ end = _ => destruct x as [html|]
  end.
  2:{ injection H as _ <-. repeat apply conj; try reflexivity.
      intros d. unfold the_trace. cbn [log world trace].
      rewrite <- app_assoc, Hdrop.
      intros [Hq|[Hq|[]]]; try discriminate.
      destruct job_description_text; discriminate. }
  destruct (driver (obj s)) as [d0|].
  2:{ injection H as _ <-. repeat apply conj; try reflexivity.
      intros d. unfold the_trace. cbn [log world trace].
      rewrite <- app_assoc, Hdrop.
      intros [Hq|[Hq|[]]]; try discriminate.
      destruct job_description_text; discriminate. }
  destruct (HTML_to_PDF_reply E _ _ _); [discriminate|].
  injection H as _ <-. repeat apply conj; try reflexivity.
  intros d. unfold the_trace. cbn [log world trace].
  rewrite <- !app_assoc, Hdrop.
  intros [Hq|[Hq|[Hq|[]]]]; try discriminate.
  destruct job_description_text; discriminate.
Qed.

(** X12. The driver that [create_resume_pdf] quits is the one set last:
    after [set_driver d], a call that returns has quit [d] and no other
    session, whatever driver the facade held before. *)
Theorem set_driver_then_create_resume_pdf (d : nat)
    (job_description_text : option pystr) (s : Sys ResumeFacade) result s' :
  bind (set_driver d) (fun _ => create_resume_pdf E job_description_text) s
  = (Ok result, s') ->
  (d ∉ the_sessions s')
  /\ (forall d', d' <> d -> d' ∈ the_sessions s' <-> d' ∈ the_sessions s)
  /\ driver (obj s') = Some d.
Proof.
  unfold bind, set_driver. rewrite create_resume_pdf_run. cbn [obj selected_style driver].
  destruct (selected_style (obj s)) as [style|]; [|discriminate].
  cbv zeta. destruct (get_style_path_reply E _ _) as [style_path|]; [|discriminate].
  match goal with
  | |- match ?x with _ => _ end = _ -> _ => destruct x as [html|]; [|discriminate]
  end.
  destruct (HTML_to_PDF_reply E _ _ _) as [bytes|]; [|discriminate].
  intros [= _ <-]. unfold the_sessions.
  cbn [close_session log world sessions obj driver].
  repeat apply conj; [|intros d' Hne|reflexivity].
  - intros [_ Hn]%elem_of_difference. apply Hn. now apply elem_of_singleton.
  - rewrite elem_of_difference, elem_of_singleton. tauto.
Qed.
End Facade_runs.

(** ** resume_facade.py: choosing a style, cover letters *)

Section Desk_facts.
Variables (E : Env) (C : Desk.Console).

Let sep := py " (".
Let which := py "Which style would you like to adopt?".

(** [choose_style], case by case. *)
Lemma choose_style_run (s : Sys Desk.Desk) :
  Desk.choose_style C s
  = let s1 := Desk.note Desk.CallGetStyles s in
    match Desk.get_styles_reply C (the_trace s) (Desk.calls (obj s)) with
    | Fault info => (Raise (CollaboratorError StyleManager info), s1)
    | Reply styles =>
        if bool_decide (styles = ∅) then
          (Ok tt, Desk.note (Desk.CallPrint (py "No styles available")) s1)
        else
          let s2 := Desk.note (Desk.CallFormatChoices styles) s1 in
          match Desk.format_choices_reply C (the_trace s1) (Desk.calls (obj s1)) styles with
          | Fault info => (Raise (CollaboratorError StyleManager info), s2)
          | Reply choices =>
              let questions := [Desk.QList (py "selection") which choices] in
              let s3 := Desk.note (Desk.CallPrompt questions) s2 in
              match Desk.prompt_answers C (the_trace s2) (Desk.calls (obj s2)) questions
                    !! py "selection" with
              | None => (Raise (KeyError (py "selection")), s3)
              | Some choice =>
                  Desk.set_selected_style (fst (split sep choice)) s3
              end
          end
    end.
Proof.
  unfold Desk.choose_style, Desk.get_styles, Desk.format_choices, Desk.prompt_user,
    Desk.inquirer_prompt, Desk.print, Desk.getitem.
  unfold bind, Desk.consult, the_trace, ret. cbv zeta.
  destruct (Desk.get_styles_reply C _ _) as [styles|]; [|reflexivity].
  destruct (bool_decide (styles = ∅)); [reflexivity|].
  destruct (Desk.format_choices_reply C _ _ _) as [choices|]; [|reflexivity].
  fold which.
  now destruct (Desk.prompt_answers C _ _ _ !! py "selection").
Qed.

(** X13. When the style manager has no styles, [choose_style] prints "No
    styles available" and returns without prompting: the selected style, the
    driver and the world are as before. *)
Theorem choose_style_without_styles (s : Sys Desk.Desk) :
  Desk.get_styles_reply C (the_trace s) (Desk.calls (obj s)) = Reply ∅ ->
  exists s',
    Desk.choose_style C s = (Ok tt, s')
    /\ Desk.facade (obj s') = Desk.facade (obj s)
    /\ world s' = world s
    /\ Desk.calls (obj s')
       = Desk.calls (obj s)
           ++ [Desk.CallGetStyles; Desk.CallPrint (py "No styles available")].
Proof.
  intros H. rewrite choose_style_run, H. cbv zeta.
  rewrite bool_decide_eq_true_2 by reflexivity.
  eexists. split; [reflexivity|]. cbn [Desk.note obj world Desk.facade Desk.calls].
  repeat apply conj; try reflexivity. now rewrite <- app_assoc.
Qed.

(** X14. When there are styles and the prompt answers with [choice],
    [choose_style] stores the part of [choice] before its first " (": no
    " (" starts inside the stored name, and [choice] is the name alone or the
    name followed by " (" and more. In particular a choice made of a style
    name without " (", then " (", then anything, selects that name. The
    driver and the world are left alone. *)
Theorem choose_style_selects_the_name (s : Sys Desk.Desk) styles choices
    (choice : pystr) :
  Desk.get_styles_reply C (the_trace s) (Desk.calls (obj s)) = Reply styles ->
  styles <> ∅ ->
  Desk.format_choices_reply C (the_trace s)
    (Desk.calls (obj s) ++ [Desk.CallGetStyles]) styles = Reply choices ->
  Desk.prompt_answers C (the_trace s)
    (Desk.calls (obj s) ++ [Desk.CallGetStyles; Desk.CallFormatChoices styles])
    [Desk.QList (py "selection") which choices] !! py "selection" = Some choice ->
  exists name s',
    Desk.choose_style C s = (Ok tt, s')
    /\ Facade.selected_style (Desk.facade (obj s')) = Some name
    /\ (forall j, j < length name -> startswith sep (drop j choice) = false)
    /\ (choice = name \/ exists more, choice = name ++ sep ++ more)
    /\ (forall style more,
          choice = style ++ sep ++ more ->
          (forall j, j < length style -> startswith sep (drop j choice) = false) ->
          name = style)
    /\ Facade.driver (Desk.facade (obj s')) = Facade.driver (Desk.facade (obj s))
    /\ world s' = world s.
Proof.
  intros Hstyles Hne Hchoices Hanswer.
  rewrite choose_style_run, Hstyles. cbv zeta.
  rewrite bool_decide_eq_false_2 by exact Hne.
  unfold the_trace in *. cbn [Desk.note obj world Desk.calls]. rewrite Hchoices.
  rewrite <- app_assoc. cbn [app]. rewrite Hanswer.
  destruct (split_first sep choice) as (Hbefore & Hshape); [discriminate|].
  exists (fst (split sep choice)). eexists. split; [reflexivity|].
  cbn [Desk.set_selected_style snd obj world Desk.facade Facade.selected_style
       Facade.driver].
  repeat apply conj; try reflexivity.
  - exact Hbefore.
  - destruct Hshape as [(Heq & _)|(more & Heq)]; [now left|right; eauto].
  - intros style more Heq Hclean.
    set (name := fst (split sep choice)) in *.
    assert (Hat : forall (a b : pystr), startswith sep (drop (length a) (a ++ sep ++ b)) = true).
    { intros a b. rewrite drop_app_length. apply startswith_spec. eauto. }
    destruct (Nat.lt_trichotomy (length name) (length style)) as [Hlt|[Heqlen|Hgt]].
    + exfalso. destruct Hshape as [(Hall & _)|(more' & Hn)].
      * apply (f_equal length) in Hall. rewrite Heq in Hall at 1.
        rewrite !length_app in Hall. fold name in Hall. lia.
      * specialize (Hclean _ Hlt). rewrite Hn in Hclean at 1.
        fold name in Hclean. rewrite Hat in Hclean. discriminate.
    + destruct Hshape as [(Hall & _)|(more' & Hn)].
      * exfalso. apply (f_equal length) in Hall. rewrite Heq in Hall at 1.
        rewrite !length_app in Hall. fold name in Hall. cbn in Hall. lia.
      * fold name in Hn. rewrite Heq in Hn.
        apply (f_equal (take (length style))) in Hn.
        rewrite take_app_length in Hn. rewrite <- Heqlen in Hn.
        now rewrite take_app_length in Hn.
    + exfalso. specialize (Hbefore _ Hgt). rewrite Heq in Hbefore.
      rewrite Hat in Hbefore. discriminate.
Qed.
Lemma zoom_run {A} (m : M Facade.ResumeFacade A) (s : Sys Desk.Desk) :
  Desk.zoom m s
  = let run := m (mkSys (Desk.facade (obj s)) (world s)) in
    (fst run, mkSys (Desk.mkDesk (obj (snd run)) (Desk.calls (obj s))) (world (snd run))).
Proof. unfold Desk.zoom. now destruct (m _). Qed.

(** X15. Choosing a style and then asking for the resume: when the style
    manager has styles, whatever comes back is not the "no style selected"
    [ValueError], and if the choice went through the style path is asked for
    the name that was stored; when it has none and no style was selected
    before, [create_resume_pdf] raises that [ValueError]. *)
Theorem choose_style_then_create_resume_pdf (job_description_text : option pystr)
    (s : Sys Desk.Desk) styles r s' :
  Desk.get_styles_reply C (the_trace s) (Desk.calls (obj s)) = Reply styles ->
  bind (Desk.choose_style C) (fun _ => Desk.create_resume_pdf E job_description_text) s
  = (r, s') ->
  (styles <> ∅ ->
     (forall msg, r <> Raise (ValueError msg))
     /\ (forall s1,
           Desk.choose_style C s = (Ok tt, s1) ->
           exists name rest,
             Facade.selected_style (Desk.facade (obj s1)) = Some name
             /\ the_trace s' = the_trace s ++ EvStylePath name :: rest))
  /\ (styles = ∅ ->
      Facade.selected_style (Desk.facade (obj s)) = None ->
      r = Raise (ValueError (py "Devi scegliere uno stile prima di generare il PDF."))).
Proof.
  intros Hstyles Hrun. unfold bind in Hrun.
  rewrite choose_style_run, Hstyles in Hrun. cbv zeta in Hrun.
  rewrite (choose_style_run s), Hstyles. cbv zeta.
  split.
  - intros Hne. rewrite bool_decide_eq_false_2 in Hrun |- * by exact Hne.
    destruct (Desk.format_choices_reply C _ _ _) as [choices|].
    2:{ injection Hrun as <- _. split; [discriminate|intros s1 [=]]. }
    destruct (Desk.prompt_answers C _ _ _ !! py "selection") as [choice|].
    2:{ injection Hrun as <- _. split; [discriminate|intros s1 [=]]. }
    cbn [Desk.set_selected_style] in Hrun |- *.
    unfold Desk.create_resume_pdf in Hrun. rewrite zoom_run in Hrun.
    cbv zeta in Hrun. rewrite create_resume_pdf_run in Hrun.
    cbn [obj world Desk.facade Facade.selected_style Facade.driver Desk.note
         Desk.calls] in Hrun.
    cbv zeta in Hrun.
    assert (Hfine : (forall msg, r <> Raise (ValueError msg))
                    /\ exists rest,
                         the_trace s'
                         = the_trace s ++ EvStylePath (fst (split sep choice)) :: rest).
    { destruct (get_style_path_reply E _ _) as [style_path|].
      2:{ injection Hrun as <- <-. split; [discriminate|]. now exists []. }
      match type of Hrun with
      | context [match ?x with Reply _ => _ | Fault _ => _ end] =>
          destruct x as [html|]
      end.
      2:{ injection Hrun as <- <-. split; [discriminate|]. eexists [_].
          unfold the_trace. cbn [log world trace]. now rewrite <- app_assoc. }
      destruct (Facade.driver (Desk.facade (obj s))) as [d|].
      2:{ injection Hrun as <- <-. split; [discriminate|]. eexists [_].
          unfold the_trace. cbn [log world trace]. now rewrite <- app_assoc. }
      destruct (HTML_to_PDF_reply E _ _ _); injection Hrun as <- <-;
        (split; [discriminate|]).
      - eexists [_; _; _]. unfold the_trace. cbn [close_session log world trace].
        now rewrite <- !app_assoc.
      - eexists [_; _]. unfold the_trace. cbn [log world trace].
        now rewrite <- !app_assoc. }
    destruct Hfine as (Hv & rest & Ht). split; [exact Hv|].
    intros s1 [= <-]. exists (fst (split sep choice)), rest. split; [reflexivity|exact Ht].
  - intros -> Hnone. rewrite bool_decide_eq_true_2 in Hrun by reflexivity.
    unfold Desk.create_resume_pdf in Hrun. rewrite zoom_run in Hrun.
    cbv zeta in Hrun. rewrite create_resume_pdf_run in Hrun.
    cbn [obj world Desk.facade Desk.note] in Hrun. rewrite Hnone in Hrun.
    now injection Hrun as <- _.
Qed.

(** [create_cover_letter], case by case. *)
Lemma create_cover_letter_run (job_description_text : pystr) (s : Sys Desk.Desk) :
  Desk.create_cover_letter E C job_description_text s
  = let s1 := Desk.note Desk.CallGetStylePath s in
    match Desk.get_style_path_reply C (the_trace s) (Desk.calls (obj s)) with
    | Fault info => (Raise (CollaboratorError StyleManager info), s1)
    | Reply style_path =>
        let s2 :=
          Desk.note (Desk.CallCreateCoverLetter style_path job_description_text) s1 in
        match Desk.create_cover_letter_job_description_reply C (the_trace s1)
                (Desk.calls (obj s1)) style_path job_description_text with
        | Fault info => (Raise (CollaboratorError ResumeGenerator info), s2)
        | Reply html =>
            match Facade.driver (Desk.facade (obj s)) with
            | None => (Raise (AttributeError (py "driver")), s2)
            | Some d =>
                let s3 := log (EvHtmlToPdf html d) s2 in
                match HTML_to_PDF_reply E (the_trace s2) html d with
                | Fault info => (Raise (CollaboratorError PdfConverter info), s3)
                | Reply result => (Ok result, close_session d s3)
                end
            end
        end
    end.
Proof.
  unfold Desk.create_cover_letter, Desk.get_style_path,
    Desk.create_cover_letter_job_description.
  unfold bind at 1. unfold Desk.consult at 1. fold (the_trace s). cbv zeta.
  destruct (Desk.get_style_path_reply C _ _) as [style_path|]; [|reflexivity].
  unfold bind at 1. unfold Desk.consult at 1.
  fold (the_trace (Desk.note Desk.CallGetStylePath s)).
  destruct (Desk.create_cover_letter_job_description_reply C _ _ _ _) as [html|];
    [|reflexivity].
  unfold bind at 1. rewrite zoom_run. cbv zeta. unfold Facade.get_driver.
  cbn [Desk.note obj world Desk.facade Desk.calls fst snd].
  destruct (Facade.driver (Desk.facade (obj s))) as [d|] eqn:Hd; [|reflexivity].
  cbn [fst snd obj world]. unfold bind at 1. rewrite zoom_run. cbv zeta.
  unfold Facade.HTML_to_PDF, ask, the_trace.
  cbn [Desk.note obj world Desk.facade Desk.calls].
  destruct (HTML_to_PDF_reply E _ _ _) as [result|]; [|reflexivity].
  cbn [fst snd log obj world]. unfold bind at 1. rewrite zoom_run. cbv zeta.
  unfold Facade.get_driver. cbn [obj world Desk.facade]. rewrite Hd.
  reflexivity.
Qed.

(** X16. [create_cover_letter] does not look at the selected style: with a
    driver set and every collaborator answering it returns the PDF and quits
    the driver as its last step, on a facade for which [create_resume_pdf]
    raises because no style was selected. *)
Theorem create_cover_letter_needs_no_style (job_description_text : pystr)
    (s : Sys Desk.Desk) (style_path html : pystr) (d : nat) result :
  Desk.get_style_path_reply C (the_trace s) (Desk.calls (obj s)) = Reply style_path ->
  Desk.create_cover_letter_job_description_reply C (the_trace s)
    (Desk.calls (obj s) ++ [Desk.CallGetStylePath]) style_path job_description_text
  = Reply html ->
  Facade.driver (Desk.facade (obj s)) = Some d ->
  HTML_to_PDF_reply E (the_trace s) html d = Reply result ->
  exists s',
    Desk.create_cover_letter E C job_description_text s = (Ok result, s')
    /\ the_trace s' = the_trace s ++ [EvHtmlToPdf html d; EvQuit d]
    /\ (d ∉ the_sessions s')
    /\ Desk.facade (obj s') = Desk.facade (obj s)
    /\ (Facade.selected_style (Desk.facade (obj s)) = None ->
        fst (Desk.create_resume_pdf E (Some job_description_text) s)
        = Raise (ValueError (py "Devi scegliere uno stile prima di generare il PDF."))).
Proof.
  intros Hsp Hgen Hd Hpdf. rewrite create_cover_letter_run, Hsp. cbv zeta.
  unfold the_trace in *. cbn [Desk.note obj world Desk.calls]. rewrite Hgen, Hd, Hpdf.
  eexists. split; [reflexivity|].
  cbn [close_session log Desk.note obj world trace sessions Desk.facade].
  repeat apply conj.
  - now rewrite <- app_assoc.
  - unfold the_sessions. cbn [world sessions].
    intros [_ Hn]%elem_of_difference. apply Hn. now apply elem_of_singleton.
  - reflexivity.
  - intros Hnone. unfold Desk.create_resume_pdf. rewrite zoom_run. cbv zeta.
    rewrite create_resume_pdf_run. cbn [obj]. now rewrite Hnone.
Qed.

(** X17. After a [create_resume_pdf] that returned, the facade's driver has
    been quit; a [create_cover_letter] on the same facade then converts its
    HTML with that driver all the same, although its session is not live. *)
Theorem cover_letter_after_resume_uses_quit_driver
    (job_description_text : option pystr) (letter_text : pystr)
    (s : Sys Desk.Desk) resume s1 r s2 :
  Desk.create_resume_pdf E job_description_text s = (Ok resume, s1) ->
  Desk.create_cover_letter E C letter_text s1 = (r, s2) ->
  exists d,
    Facade.driver (Desk.facade (obj s1)) = Some d
    /\ (d ∉ the_sessions s1)
    /\ forall style_path html,
         Desk.get_style_path_reply C (the_trace s1) (Desk.calls (obj s1))
         = Reply style_path ->
         Desk.create_cover_letter_job_description_reply C (the_trace s1)
           (Desk.calls (obj s1) ++ [Desk.CallGetStylePath]) style_path letter_text
         = Reply html ->
         exists rest, the_trace s2 = the_trace s1 ++ EvHtmlToPdf html d :: rest.
Proof.
  intros Hresume Hletter.
  assert (Hquit : exists d, Facade.driver (Desk.facade (obj s1)) = Some d
                            /\ d ∉ the_sessions s1).
  { unfold Desk.create_resume_pdf in Hresume. rewrite zoom_run in Hresume.
    cbv zeta in Hresume. rewrite create_resume_pdf_run in Hresume.
    cbn [obj world] in Hresume.
    destruct (Facade.selected_style (Desk.facade (obj s))) as [style|]; [|discriminate].
    cbv zeta in Hresume.
    destruct (get_style_path_reply E _ _) as [sp|]; [|discriminate].
    match type of Hresume with
    | context [match ?x with Reply _ => _ | Fault _ => _ end] =>
        destruct x as [html0|]; [|discriminate]
    end.
    destruct (Facade.driver (Desk.facade (obj s))) as [d|] eqn:Hd; [|discriminate].
    destruct (HTML_to_PDF_reply E _ _ _) as [bytes|]; [|discriminate].
    cbn [fst snd] in Hresume. injection Hresume as _ <-. exists d.
    cbn [obj world Desk.facade close_session log]. split; [exact Hd|].
    unfold the_sessions. cbn [world sessions].
    intros [_ Hn]%elem_of_difference. apply Hn. now apply elem_of_singleton. }
  destruct Hquit as (d & Hd & Hdead). exists d.
  repeat apply conj; [exact Hd|exact Hdead|].
  intros style_path html Hsp Hgen.
  rewrite create_cover_letter_run in Hletter. cbv zeta in Hletter.
  rewrite Hsp in Hletter.
  change (the_trace (Desk.note Desk.CallGetStylePath s1)) with (the_trace s1) in Hletter.
  change (Desk.calls (obj (Desk.note Desk.CallGetStylePath s1)))
    with (Desk.calls (obj s1) ++ [Desk.CallGetStylePath]) in Hletter.
  rewrite Hgen, Hd in Hletter.
  destruct (HTML_to_PDF_reply E _ _ _); injection Hletter as _ <-.
  - eexists [_]. unfold the_trace. cbn [close_session log Desk.note world trace].
    now rewrite <- app_assoc.
  - exists []. reflexivity.
Qed.
End Desk_facts.

(** ** The further theorems at work on the stub collaborators *)

Lemma fetch_returns_when_nothing_fails_witness :
  exists s',
    JobParser.get_job_description_from_url Stub.env Stub.job_url Stub.fresh_parser
    = (Ok tt, s')
    /\ is_Some (JobParser.job_description (obj s')).
Proof.
  apply (fetch_returns_when_nothing_fails Stub.env Stub.job_url Stub.fresh_parser);
    try (intros; eexists; reflexivity).
  - intros t p. destruct p; eexists; reflexivity.
  - eexists. split; [reflexivity|].
    repeat constructor; intros x Hx; congruence.
Defined.

Lemma foreign_field_fails_after_first_stage_witness :
  exists y s',
    JobParser.get_job_description_from_url Stub2.env_two_fields Stub.job_url
      Stub.fresh_parser
    = (Raise (KeyError y), s')
    /\ y <> py "text"
    /\ JobParser.job_description (obj s') = None.
Proof.
  edestruct (foreign_field_fails_after_first_stage Stub2.env_two_fields Stub.job_url
               Stub.fresh_parser) as (y & s' & Hrun & _ & Hy & _ & Hjd).
  - vm_compute. reflexivity.
  - vm_compute. reflexivity.
  - vm_compute. reflexivity.
  - apply list_elem_of_In. right. right. right. left. reflexivity.
  - intros H. vm_compute in H. discriminate.
  - exists y, s'. repeat apply conj; [exact Hrun|exact Hy|exact Hjd].
Defined.

Lemma fetch_asks_at_most_twice_witness :
  exists asked,
    model_calls (the_trace (snd (JobParser.get_job_description_from_url
                                   Stub.env_stage2_fails Stub.job_url Stub.fresh_parser)))
    = model_calls (the_trace Stub.fresh_parser) ++ asked
    /\ length asked <= 2.
Proof.
  destruct (fetch_asks_at_most_twice Stub.env_stage2_fails Stub.job_url
              Stub.fresh_parser _ _ ltac:(apply surjective_pairing))
    as (asked & H & Hlen & _).
  exists asked. split; [exact H|exact Hlen].
Defined.

Lemma model_is_asked_after_cleanup_witness :
  (0 ∉ the_sessions (snd (JobParser.get_job_description_from_url Stub.env Stub.job_url
                            Stub.fresh_parser)))
  /\ (py "/tmp/tmpab12.html"
      ∉ the_disk (snd (JobParser.get_job_description_from_url Stub.env Stub.job_url
                         Stub.fresh_parser))).
Proof.
  destruct (model_is_asked_after_cleanup Stub.env Stub.job_url Stub.fresh_parser
              _ _ ltac:(apply surjective_pairing))
    as (response & p & document & rest & Ht & _ & Hs & Hd).
  - vm_compute. discriminate.
  - split; [exact Hs|].
    vm_compute in Ht. injection Ht as _ <- _. exact Hd.
Defined.

Lemma fetch_leaves_other_sessions_witness :
  0 ∈ the_sessions (snd (JobParser.get_job_description_from_url Stub.env Stub.job_url
                           Stub2.busy_parser)).
Proof.
  apply (fetch_leaves_other_sessions Stub.env Stub.job_url Stub2.busy_parser 0).
  - vm_compute. discriminate.
  - vm_compute. reflexivity.
Defined.

Lemma fetch_leaves_other_files_witness :
  py "/home/anna/notes.txt"
  ∈ the_disk (snd (JobParser.get_job_description_from_url Stub.env_write_fails
                     Stub.job_url Stub2.busy_parser)).
Proof.
  apply (fetch_leaves_other_files Stub.env_write_fails Stub.job_url Stub2.busy_parser).
  - intros t H. vm_compute in H. discriminate.
  - vm_compute. reflexivity.
Defined.

Lemma extraction_asks_once_and_can_be_retried_witness :
  fst (JobParser._extract_information Stub2.env_model_recovers
         (py "What is the company name in this job description?")
         (snd (JobParser._extract_information Stub2.env_model_recovers
                 (py "What is the company name in this job description?")
                 (Stub.parser_with (py "Backend role at Acme Corp")))))
  = Ok (py "Acme Corp").
Proof.
  destruct (extraction_asks_once_and_can_be_retried Stub2.env_model_recovers
              (py "What is the company name in this job description?")
              (py "Backend role at Acme Corp")
              (Stub.parser_with (py "Backend role at Acme Corp")) _ _ eq_refl
              ltac:(apply surjective_pairing))
    as (_ & _ & _ & _ & Hretry).
  rewrite (Hretry (py " Acme Corp ")) by (vm_compute; reflexivity).
  vm_compute. reflexivity.
Defined.


Lemma extraction_is_empty_on_blank_answers_witness :
  fst (JobParser._extract_information Stub2.env_model_blank
         (py "What is the location mentioned in this job description?")
         (Stub.parser_with (py "Backend role at Acme Corp")))
  = Ok [].
Proof.
  apply (extraction_is_empty_on_blank_answers Stub2.env_model_blank _
           (py "Backend role at Acme Corp") [0x20%N; 0x0A%N; 0x09%N]);
    [reflexivity|reflexivity|].
  repeat constructor.
Defined.

Lemma create_resume_pdf_without_driver_witness :
  fst (Facade.create_resume_pdf Stub.env None
         (Stub2.facade_without_driver (Some (py "Classic"))))
  = Raise (AttributeError (py "driver"))
  /\ fst (Facade.create_resume_pdf Stub.env (Some (py "Backend role at Acme Corp"))
            (Stub2.facade_without_driver (Some (py "Classic"))))
     = Raise (AttributeError (py "driver")).
Proof.
  split.
  - edestruct (create_resume_pdf_without_driver Stub.env None
                 (Stub2.facade_without_driver (Some (py "Classic")))) as (-> & _);
      reflexivity.
  - edestruct (create_resume_pdf_without_driver Stub.env
                 (Some (py "Backend role at Acme Corp"))
                 (Stub2.facade_without_driver (Some (py "Classic")))) as (-> & _);
      reflexivity.
Defined.

Lemma create_resume_pdf_failure_keeps_driver_witness :
  the_sessions (snd (Facade.create_resume_pdf Stub2.env_pdf_fails None
                       (Stub.facade (Some (py "Classic")))))
  = the_sessions (Stub.facade (Some (py "Classic"))).
Proof.
  eapply (create_resume_pdf_failure_keeps_driver Stub2.env_pdf_fails None
            (Stub.facade (Some (py "Classic")))).
  vm_compute. reflexivity.
Defined.

Lemma set_driver_then_create_resume_pdf_witness :
  0 ∉ the_sessions
        (snd (bind (Facade.set_driver 0)
                (fun _ => Facade.create_resume_pdf Stub.env None)
                (Stub2.facade_without_driver (Some (py "Classic"))))).
Proof.
  eapply (set_driver_then_create_resume_pdf Stub.env 0 None
            (Stub2.facade_without_driver (Some (py "Classic")))).
  vm_compute. reflexivity.
Defined.

Lemma choose_style_without_styles_witness :
  exists s',
    Desk.choose_style Stub2.console_no_styles (Stub2.desk None (Some 0)) = (Ok tt, s')
    /\ Facade.selected_style (Desk.facade (obj s')) = None.
Proof.
  destruct (choose_style_without_styles Stub2.console_no_styles
              (Stub2.desk None (Some 0)) eq_refl)
    as (s' & Hrun & Hfacade & _).
  exists s'. split; [exact Hrun|]. now rewrite Hfacade.
Defined.

Lemma choose_style_selects_the_name_witness :
  exists s',
    Desk.choose_style Stub2.console (Stub2.desk None (Some 0)) = (Ok tt, s')
    /\ Facade.selected_style (Desk.facade (obj s')) = Some (py "Classic").
Proof.
  edestruct (choose_style_selects_the_name Stub2.console (Stub2.desk None (Some 0)))
    as (name & s' & Hrun & Hsel & _ & _ & Hname & _).
  - reflexivity.
  - apply insert_non_empty.
  - reflexivity.
  - vm_compute. reflexivity.
  - exists s'. split; [exact Hrun|]. rewrite Hsel. f_equal.
    apply (Hname (py "Classic") (py "style author -> https://a.example/anna)")).
    + vm_compute. reflexivity.
    + intros j Hj. do 7 (destruct j as [|j]; [vm_compute; reflexivity|]).
      cbn in Hj. lia.
Defined.

Lemma choose_style_then_create_resume_pdf_witness :
  fst (bind (Desk.choose_style Stub2.console)
         (fun _ => Desk.create_resume_pdf Stub.env None)
         (Stub2.desk None (Some 0)))
  <> Raise (ValueError (py "Devi scegliere uno stile prima di generare il PDF.")).
Proof.
  edestruct (choose_style_then_create_resume_pdf Stub.env Stub2.console None
               (Stub2.desk None (Some 0))) as (H & _).
  - reflexivity.
  - apply surjective_pairing.
  - apply H. apply insert_non_empty.
Defined.

Lemma create_cover_letter_needs_no_style_witness :
  exists s',
    Desk.create_cover_letter Stub.env Stub2.console (py "Backend role at Acme Corp")
      (Stub2.desk None (Some 0))
    = (Ok [Byte.x25; Byte.x50; Byte.x44; Byte.x46], s')
    /\ (0 ∉ the_sessions s').
Proof.
  edestruct (create_cover_letter_needs_no_style Stub.env Stub2.console
               (py "Backend role at Acme Corp") (Stub2.desk None (Some 0)))
    as (s' & Hrun & _ & Hq & _).
  - reflexivity.
  - reflexivity.
  - reflexivity.
  - reflexivity.
  - exists s'. split; [exact Hrun|exact Hq].
Defined.

Lemma cover_letter_after_resume_uses_quit_driver_witness :
  exists d,
    Facade.driver
      (Desk.facade (obj (snd (Desk.create_resume_pdf Stub.env None
                                (Stub2.desk (Some (py "Classic")) (Some 0))))))
    = Some d
    /\ (d ∉ the_sessions (snd (Desk.create_resume_pdf Stub.env None
                                 (Stub2.desk (Some (py "Classic")) (Some 0))))).
Proof.
  edestruct (cover_letter_after_resume_uses_quit_driver Stub.env Stub2.console None
               (py "Backend role at Acme Corp")
               (Stub2.desk (Some (py "Classic")) (Some 0)))
    as (d & Hd & Hq & _).
  - vm_compute. reflexivity.
  - apply surjective_pairing.
  - exists d. split; [exact Hd|exact Hq].
Defined.
